(** * FraudGuard AI: the hybrid scoring engine

    A shallow embedding of [fraud_model.py] (class [FraudDetector]), of the
    constants of [config.py] it reads and of the start-up hook, the two
    prediction endpoints and the two probes of [api_server.py], followed by
    the properties of the specification that were checked against it and by
    further properties of the code.

    Numbers.  Python floats are modelled by the real numbers of the Standard
    Library: [np.exp] is [exp], [np.log1p x] is [ln (1 + x)].  The three
    thresholds 0.8, 0.5 and 0.2 are compared with scores by [>=]; the
    binary64 value of 0.8 (and of 0.2) is the least float above the decimal,
    and 0.5 is exact, so for a float score the comparison with the float
    constant and with the decimal agree.

    Third-party objects.  A fitted gradient-boosted classifier and a fitted
    isolation forest are opaque scoring functions on a feature row; an
    unfitted one raises [NotFittedError] when asked for a score, as
    scikit-learn and xgboost do.  [LabelEncoder] and [StandardScaler] are
    modelled by their documented behaviour.  Conversions that Python performs
    on text ([pd.to_datetime], [astype(str)] on a number, reading a number out
    of a string) are the fields of a record [Conversions]; the split, the
    oversampler and the fitting routines that [train] calls are the fields
    of a record [Learners].

    Effects.  A method of the detector is a computation over the detector's
    attributes that returns or raises; what it stored before raising stays
    stored.  Printing is left out.  Lookups by key, label encoding and the
    fitted-or-not tests compute; comparisons of reals are decided by the
    Standard Library and settled by proof. *)

From Stdlib Require Import Reals Lra ZArith String.
From stdpp Require Import base option list strings gmap.

Local Open Scope string_scope.

(** ** Exceptions and the two monads *)

Inductive exn : Type :=
| KeyError (key : string)
| TypeError
| ValueError (what : string)
| UnseenLabels (label : string)
| NotFittedError
| IndexError
| ZeroDivisionError
| FileNotFoundError (path : string)
| HTTPException (status_code : nat) (detail : string).

Inductive result (A : Type) : Type :=
| Ok (a : A)
| Raise (e : exn).
Arguments Ok {A} a.
Arguments Raise {A} e.

Global Instance result_ret : MRet result := @Ok.
Global Instance result_bind : MBind result := λ A B f r,
  match r with
  | Ok a => f a
  | Raise e => Raise e
  end.
Global Instance result_fmap : FMap result := λ A B f r,
  match r with
  | Ok a => Ok (f a)
  | Raise e => Raise e
  end.

(** [mapM] for [result]: the first failing element decides the exception. *)
Fixpoint traverse {A B : Type} (f : A → result B) (l : list A) : result (list B) :=
  match l with
  | [] => Ok []
  | x :: l' =>
      match f x with
      | Ok y =>
          match traverse f l' with
          | Ok ys => Ok (y :: ys)
          | Raise e => Raise e
          end
      | Raise e => Raise e
      end
  end.

(** ** Cells, series and data frames *)

Inductive cell : Type :=
| Num (x : R)
| Str (s : string)
| Stamp (t : Z).

Definition Series : Type := list cell.

(** A Python [dict] holding one transaction. *)
Abbreviation transaction := (gmap string cell).

(** A [pandas.DataFrame]: labelled columns over a common index. *)
Record DataFrame : Type := mkDataFrame {
  nrows : nat;
  columns : gmap string Series
}.

(** [pd.DataFrame([d])]: a frame of one row. *)
Definition DataFrame_of_record (d : transaction) : DataFrame :=
  {| nrows := 1; columns := (λ c, [c]) <$> d |}.

(** [data[name]] *)
Definition getcol (data : DataFrame) (name : string) : result Series :=
  match columns data !! name with
  | Some s => Ok s
  | None => Raise (KeyError name)
  end.

(** [data[name] = s] *)
Definition setcol (name : string) (s : Series) (data : DataFrame) : DataFrame :=
  {| nrows := nrows data; columns := <[name := s]> (columns data) |}.

(** The selection [data[names]], columns in the order asked for. *)
Record XFrame : Type := mkXFrame {
  X_nrows : nat;
  X_columns : list (string * Series)
}.

Definition X_names (X : XFrame) : list string := (X_columns X).*1.

Definition select (data : DataFrame) (names : list string) : XFrame :=
  {| X_nrows := nrows data;
     X_columns := omap (λ n, (λ s, (n, s)) <$> columns data !! n) names |}.

(** Text conversions performed by Python and pandas. *)
Record Conversions : Type := mkConversions {
  parse_datetime : string → option Z;
  str_of_float : R → string;
  str_of_datetime : Z → string;
  float_of_str : string → option R
}.

(** ** Configuration ([config.py]) *)

Definition FRAUD_THRESHOLD_HIGH : R := 0.8.
Definition FRAUD_THRESHOLD_MEDIUM : R := 0.5.
Definition FRAUD_THRESHOLD_LOW : R := 0.2.

Definition CATEGORICAL_FEATURES : list string :=
  ["merchant_category"; "device_type"; "payment_method"].

Definition MODEL_PATH : string := "models/fraud_detector.pkl".

(** ** Third-party estimators *)

(** [sklearn.preprocessing.LabelEncoder], fitted: [classes_], the sorted
    distinct labels seen by [fit]. *)
Definition LabelEncoder : Type := list string.

Fixpoint insert_sorted (s : string) (l : list string) : list string :=
  match l with
  | [] => [s]
  | x :: l' =>
      match String.compare s x with
      | Lt => s :: l
      | Eq => l
      | Gt => x :: insert_sorted s l'
      end
  end.

(** [LabelEncoder().fit(y).classes_], that is [np.unique(y)]. *)
Definition le_fit (y : list string) : LabelEncoder := foldr insert_sorted [] y.

Fixpoint index_of (s : string) (l : list string) : option nat :=
  match l with
  | [] => None
  | x :: l' => if String.eqb s x then Some 0%nat else S <$> index_of s l'
  end.

(** [le.transform(y)]: the position of each label in [classes_];
    a label outside [classes_] raises [ValueError: y contains previously
    unseen labels]. *)
Definition le_encode (le : LabelEncoder) (s : string) : result cell :=
  match index_of s le with
  | Some i => Ok (Num (INR i))
  | None => Raise (UnseenLabels s)
  end.

Definition le_transform (le : LabelEncoder) (y : list string) : result Series :=
  traverse (le_encode le) y.

(** [sklearn.preprocessing.StandardScaler]: [None] until [fit] is called. *)
Record ScalerParams : Type := mkScalerParams {
  feature_names_in_ : list string;
  mean_ : list R;
  scale_ : list R
}.
Definition StandardScaler : Type := option ScalerParams.

(** A fitted [XGBClassifier] is the map from a scaled feature row to the
    probability of the positive class, [predict_proba(X)[:, 1]] row by row;
    a fitted [IsolationForest] is its [decision_function].  [None] is the
    estimator as constructed, before [fit]. *)
Definition XGBClassifier : Type := option (list R → R).
Definition IsolationForest : Type := option (list R → R).

(** One entry of [performance_metrics]. *)
Record Metrics : Type := mkMetrics {
  auc : R;
  precision : R;
  recall : R;
  f1 : R;
  specificity : R;
  false_positive_rate : R;
  confusion_matrix : nat * nat * nat * nat  (* tp, fp, tn, fn *)
}.

(** ** The detector *)

Record FraudDetector : Type := mkFraudDetector {
  xgb_model : XGBClassifier;
  isolation_forest : IsolationForest;
  scaler : StandardScaler;
  label_encoders : gmap string LabelEncoder;
  performance_metrics : gmap string Metrics;
  feature_importance : gmap string R
}.

(** [FraudDetector.__init__] *)
Definition __init__ : FraudDetector :=
  {| xgb_model := None;
     isolation_forest := None;
     scaler := None;
     label_encoders := ∅;
     performance_metrics := ∅;
     feature_importance := ∅ |}.

Definition set_label_encoders (f : gmap string LabelEncoder → gmap string LabelEncoder)
    (self : FraudDetector) : FraudDetector :=
  {| xgb_model := xgb_model self;
     isolation_forest := isolation_forest self;
     scaler := scaler self;
     label_encoders := f (label_encoders self);
     performance_metrics := performance_metrics self;
     feature_importance := feature_importance self |}.

(** Computations that read and write a state [S] and may raise; the state
    reached when an exception is raised is kept, as in Python. *)
Definition M (S A : Type) : Type := S → result A * S.

Global Instance M_ret {S} : MRet (M S) := λ A a s, (Ok a, s).
Global Instance M_bind {S} : MBind (M S) := λ A B f m s,
  match m s with
  | (Ok a, s') => f a s'
  | (Raise e, s') => (Raise e, s')
  end.

Definition lift {S A} (r : result A) : M S A := λ s, (r, s).
Definition raise {S A} (e : exn) : M S A := λ s, (Raise e, s).
Definition gets {S A} (f : S → A) : M S A := λ s, (Ok (f s), s).
Definition modify {S} (f : S → S) : M S unit := λ s, (Ok tt, f s).

(** ** Series operations *)

Global Instance Req_decision : EqDecision R := Req_dec_T.
Global Instance Rge_decision (a b : R) : Decision (a >= b)%R := Rge_dec a b.
Global Instance Rgt_decision (a b : R) : Decision (a > b)%R := Rgt_dec a b.
Global Instance Rlt_decision (a b : R) : Decision (a < b)%R := Rlt_dec a b.

(** A numeric cell, or [TypeError] as pandas raises on arithmetic over text
    or dates. *)
Definition num (c : cell) : result R :=
  match c with
  | Num x => Ok x
  | _ => Raise TypeError
  end.

Definition nums (s : Series) : result (list R) := traverse num s.

Definition of_nums (l : list R) : Series := Num <$> l.

(** [s.isin(vals).astype(int)] *)
Definition isin (vals : list R) (s : Series) : Series :=
  (λ c, match c with
        | Num x => Num (if decide (x ∈ vals) then 1 else 0)
        | _ => Num 0
        end) <$> s.

Definition log1p (x : R) : R := ln (1 + x).

(** The logistic function of [predict]: [1 / (1 + np.exp(-x))]. *)
Definition sigmoid (x : R) : R := (1 / (1 + exp (- x)))%R.

Section Engine.

Context (cv : Conversions).

(** [pd.to_datetime] on one cell. *)
Definition to_datetime (c : cell) : result cell :=
  match c with
  | Stamp t => Ok (Stamp t)
  | Num x => Ok (Stamp (Int_part x))
  | Str s =>
      match parse_datetime cv s with
      | Some t => Ok (Stamp t)
      | None => Raise (ValueError "time data does not match format")
      end
  end.

(** [astype(str)] on one cell. *)
Definition astype_str (c : cell) : string :=
  match c with
  | Str s => s
  | Num x => str_of_float cv x
  | Stamp t => str_of_datetime cv t
  end.

(** Conversion of a cell to [float64] when a frame is handed to an
    estimator. *)
Definition as_float (c : cell) : result R :=
  match c with
  | Num x => Ok x
  | Str s =>
      match float_of_str cv s with
      | Some x => Ok x
      | None => Raise (ValueError "could not convert string to float")
      end
  | Stamp _ => Raise TypeError
  end.

(** Row [i] of a matrix given by its columns. *)
Definition transpose (n : nat) (cols : list (list R)) : list (list R) :=
  (λ i, (λ c, nth i c 0%R) <$> cols) <$> seq 0 n.

Definition float_columns (X : XFrame) : result (list (list R)) :=
  traverse (λ c, traverse as_float c.2) (X_columns X).

(** The floating-point matrix of a selection, row by row; estimators
    refuse an empty one. *)
Definition check_array (X : XFrame) : result (list (list R)) :=
  cols ← float_columns X;
  if decide (X_nrows X = 0%nat)
  then Raise (ValueError "Found array with 0 sample(s)")
  else Ok (transpose (X_nrows X) cols).

Definition scale_row (p : ScalerParams) (row : list R) : list R :=
  zip_with (λ x ms, ((x - ms.1) / ms.2)%R) row (zip (mean_ p) (scale_ p)).

(** [scaler.transform(X)] *)
Definition scaler_transform (sc : StandardScaler) (X : XFrame) : result (list (list R)) :=
  match sc with
  | None => Raise NotFittedError
  | Some p =>
      if decide (X_names X = feature_names_in_ p)
      then rows ← check_array X; Ok (map (scale_row p) rows)
      else Raise (ValueError "The feature names should match those that were passed during fit")
  end.

(** [model.predict_proba(X)[:, 1]] and [forest.decision_function(X)] *)
Definition score_rows (model : option (list R → R)) (X : list (list R)) : result (list R) :=
  match model with
  | None => Raise NotFittedError
  | Some f => Ok (f <$> X)
  end.

(** [a[0]] *)
Definition item0 (a : list R) : result R :=
  match a with
  | x :: _ => Ok x
  | [] => Raise IndexError
  end.

(** ** [FraudDetector.preprocess_data] *)

(** One turn of the loop over [CATEGORICAL_FEATURES]. *)
Definition encode_feature (feature : string) (data : DataFrame) : M FraudDetector DataFrame :=
  match columns data !! feature with
  | None => mret data
  | Some col =>
      encoders ← gets label_encoders;
      match encoders !! feature with
      | None =>
          let le := le_fit (astype_str <$> col) in
          _ ← modify (set_label_encoders <[feature := le]>);
          codes ← lift (le_transform le (astype_str <$> col));
          mret (setcol (feature +:+ "_encoded") codes data)
      | Some le =>
          codes ← lift (le_transform le (astype_str <$> col));
          mret (setcol (feature +:+ "_encoded") codes data)
      end
  end.

Fixpoint encode_features (features : list string) (data : DataFrame) : M FraudDetector DataFrame :=
  match features with
  | [] => mret data
  | feature :: rest => data' ← encode_feature feature data; encode_features rest data'
  end.

Definition feature_columns : list string :=
  ["amount"; "amount_log"; "hour"; "day_of_week"; "month";
   "user_age"; "account_age_days"; "transaction_count_day";
   "amount_last_hour"; "amount_last_day"; "velocity_1h";
   "avg_amount_30d"; "std_amount_30d"; "geographic_risk";
   "device_risk"; "time_since_last_transaction";
   "is_weekend"; "is_night"; "velocity_risk";
   "amount_deviation"; "total_risk_score"].

(** The statements of [preprocess_data] before the encoding loop: the
    temporal indicators and the engineered features.  Arithmetic is that of
    the reals on numeric columns: the infinities and NaN that floats give on
    a zero divisor, and the concatenation that [+] gives on two text
    columns, are outside this model. *)
Definition engineer (df : DataFrame) : result DataFrame :=
  let data := df in
  ts ← getcol data "timestamp";
  ts ← traverse to_datetime ts;
  let data := setcol "timestamp" ts data in
  day_of_week ← getcol data "day_of_week";
  let data := setcol "is_weekend" (isin [5; 6]%R day_of_week) data in
  hour ← getcol data "hour";
  let data := setcol "is_night" (isin [0; 1; 2; 3; 4; 5]%R hour) data in
  amount ← getcol data "amount";
  amount ← nums amount;
  let data := setcol "amount_log" (of_nums (log1p <$> amount)) data in
  velocity_1h ← getcol data "velocity_1h";
  avg ← getcol data "avg_amount_30d";
  avg ← nums avg;
  velocity_1h ← nums velocity_1h;
  let data := setcol "velocity_risk"
    (of_nums (zip_with (λ v a, v / (a + 1))%R velocity_1h avg)) data in
  amount ← getcol data "amount";
  avg ← getcol data "avg_amount_30d";
  amount ← nums amount;
  avg ← nums avg;
  std ← getcol data "std_amount_30d";
  std ← nums std;
  let data := setcol "amount_deviation"
    (of_nums (zip_with (λ d s, Rabs d / (s + 1))%R (zip_with Rminus amount avg) std)) data in
  geo ← getcol data "geographic_risk";
  dev ← getcol data "device_risk";
  geo ← nums geo;
  dev ← nums dev;
  Ok (setcol "total_risk_score" (of_nums (zip_with Rplus geo dev)) data).

Definition preprocess_data (df : DataFrame) : M FraudDetector (XFrame * DataFrame) :=
  data ← lift (engineer df);
  data ← encode_features CATEGORICAL_FEATURES data;
  let feature_columns :=
    (feature_columns ++
     filter (λ c, is_Some (columns data !! c))
       ((λ f, f +:+ "_encoded") <$> CATEGORICAL_FEATURES))%list in
  let available_features := filter (λ c, is_Some (columns data !! c)) feature_columns in
  mret (select data available_features, data).

(** ** [FraudDetector.predict] *)

Inductive RiskLevel : Type := HIGH | MEDIUM | LOW | MINIMAL.
Inductive Action : Type := BLOCK | ALERT | MONITOR | APPROVE.

Record PredictionResult : Type := mkPredictionResult {
  fraud_score : R;
  xgb_score : R;
  isolation_score : R;
  risk_level : RiskLevel;
  action : Action;
  is_fraud_predicted : bool
}.

(** The chain of comparisons with the three thresholds. *)
Definition classify (score : R) : RiskLevel * Action :=
  if decide (score >= FRAUD_THRESHOLD_HIGH)%R then (HIGH, BLOCK)
  else if decide (score >= FRAUD_THRESHOLD_MEDIUM)%R then (MEDIUM, ALERT)
  else if decide (score >= FRAUD_THRESHOLD_LOW)%R then (LOW, MONITOR)
  else (MINIMAL, APPROVE).

(** [pd.DataFrame([transaction_data])] for a [dict], the frame itself
    otherwise. *)
Definition frame_of (transaction_data : transaction + DataFrame) : DataFrame :=
  match transaction_data with
  | inl d => DataFrame_of_record d
  | inr df => df
  end.

Definition predict (transaction_data : transaction + DataFrame) : M FraudDetector PredictionResult :=
  let df := frame_of transaction_data in
  '(X, _) ← preprocess_data df;
  sc ← gets scaler;
  X_scaled ← lift (scaler_transform sc X);
  xgb ← gets xgb_model;
  xgb_proba ← lift (score_rows xgb X_scaled);
  forest ← gets isolation_forest;
  isolation_score ← lift (score_rows forest X_scaled);
  let isolation_proba := sigmoid <$> isolation_score in
  let fraud_score := zip_with (λ x i, (x + i) / 2)%R xgb_proba isolation_proba in
  score ← lift (item0 fraud_score);
  let decision := classify score in
  xgb0 ← lift (item0 xgb_proba);
  isolation0 ← lift (item0 isolation_proba);
  mret {| fraud_score := score;
          xgb_score := xgb0;
          isolation_score := isolation0;
          risk_level := decision.1;
          action := decision.2;
          is_fraud_predicted := bool_decide (score > 0.5)%R |}.

(** ** Training: [FraudDetector.train] and [_evaluate_models] *)

Definition set_xgb_model (m : XGBClassifier) (self : FraudDetector) : FraudDetector :=
  {| xgb_model := m;
     isolation_forest := isolation_forest self;
     scaler := scaler self;
     label_encoders := label_encoders self;
     performance_metrics := performance_metrics self;
     feature_importance := feature_importance self |}.

Definition set_isolation_forest (m : IsolationForest) (self : FraudDetector) : FraudDetector :=
  {| xgb_model := xgb_model self;
     isolation_forest := m;
     scaler := scaler self;
     label_encoders := label_encoders self;
     performance_metrics := performance_metrics self;
     feature_importance := feature_importance self |}.

Definition set_scaler (sc : StandardScaler) (self : FraudDetector) : FraudDetector :=
  {| xgb_model := xgb_model self;
     isolation_forest := isolation_forest self;
     scaler := sc;
     label_encoders := label_encoders self;
     performance_metrics := performance_metrics self;
     feature_importance := feature_importance self |}.

Definition set_performance_metrics (f : gmap string Metrics → gmap string Metrics)
    (self : FraudDetector) : FraudDetector :=
  {| xgb_model := xgb_model self;
     isolation_forest := isolation_forest self;
     scaler := scaler self;
     label_encoders := label_encoders self;
     performance_metrics := f (performance_metrics self);
     feature_importance := feature_importance self |}.

Definition set_feature_importance (m : gmap string R) (self : FraudDetector) : FraudDetector :=
  {| xgb_model := xgb_model self;
     isolation_forest := isolation_forest self;
     scaler := scaler self;
     label_encoders := label_encoders self;
     performance_metrics := performance_metrics self;
     feature_importance := m |}.

(** The estimators and samplers that [train] calls. *)
Record Learners : Type := mkLearners {
  (** [train_test_split(X, y, test_size=0.2, random_state=42, stratify=y)] *)
  train_test_split : XFrame → Series → result (XFrame * XFrame * Series * Series);
  (** [IsolationForest(...).fit(X).decision_function] *)
  iforest_fit : list (list R) → list R → R;
  (** [SMOTE(random_state=42).fit_resample(X, y)] *)
  smote_fit_resample : list (list R) → Series → result (list (list R) * Series);
  (** [XGBClassifier(...).fit(X, y, eval_set=[(Xe, ye)])]: the fitted
      probability of class 1 and [feature_importances_] *)
  xgb_fit : list (list R) → Series → list (list R) * Series → result ((list R → R) * list R);
  (** [roc_auc_score(y_true, y_score)] *)
  roc_auc_score : Series → list R → result R
}.

Context (ext : Learners).

Definition Rsum (l : list R) : R := foldr Rplus 0%R l.
Definition Rmean (l : list R) : R := (Rsum l / INR (length l))%R.
Definition Rmin_list (l : list R) : R := foldr Rmin (hd 0%R l) l.
Definition Rmax_list (l : list R) : R := foldr Rmax (hd 0%R l) l.

(** [StandardScaler().fit(X)]: per-column mean and standard deviation, a
    zero deviation being replaced by 1. *)
Definition scaler_fit (X : XFrame) : result ScalerParams :=
  cols ← float_columns X;
  if decide (X_nrows X = 0%nat)
  then Raise (ValueError "Found array with 0 sample(s)")
  else
    let means := Rmean <$> cols in
    let deviation (c : list R) :=
      let m := Rmean c in
      let sd := sqrt (Rmean ((λ x, (x - m) * (x - m))%R <$> c)) in
      if decide (sd = 0%R) then 1%R else sd in
    Ok {| feature_names_in_ := X_names X; mean_ := means; scale_ := deviation <$> cols |}.

(** [self.scaler.fit_transform(X)] *)
Definition scaler_fit_transform (X : XFrame) : M FraudDetector (list (list R)) :=
  p ← lift (scaler_fit X);
  _ ← modify (set_scaler (Some p));
  lift (scaler_transform (Some p) X).

(** [confusion_matrix(y_true, y_pred).ravel()] unpacked into
    [tn, fp, fn, tp]: the unpacking needs the 2-by-2 matrix of labels 0 and
    1, both of which must occur. *)
Definition count_pairs (t p : R) (y_true y_pred : list R) : nat :=
  length (filter (λ yp, yp.1 = t ∧ yp.2 = p) (zip y_true y_pred)).

Definition confusion (y_true y_pred : list R) : result (nat * nat * nat * nat) :=
  let labels := (y_true ++ y_pred)%list in
  if decide (Forall (λ l, l = 0 ∨ l = 1)%R labels ∧ 0%R ∈ labels ∧ 1%R ∈ labels)
  then Ok (count_pairs 0 0 y_true y_pred, count_pairs 0 1 y_true y_pred,
           count_pairs 1 0 y_true y_pred, count_pairs 1 1 y_true y_pred)
  else Raise (ValueError "not enough values to unpack").

Definition as_int (b : bool) : R := if b then 1%R else 0%R.

(** The body of the loop of [_evaluate_models] for one scoring strategy. *)
Definition evaluate_one (model_name : string) (y_test : Series) (pred proba : list R)
    : M FraudDetector unit :=
  auc ← lift (roc_auc_score ext y_test proba);
  y_true ← lift (traverse as_float y_test);
  '(tn, fp, fn, tp) ← lift (confusion y_true pred);
  let precision := if decide (0 < tp + fp)%nat then (INR tp / INR (tp + fp))%R else 0%R in
  let recall := if decide (0 < tp + fn)%nat then (INR tp / INR (tp + fn))%R else 0%R in
  let f1 := if decide (0 < precision + recall)%R
            then (2 * (precision * recall) / (precision + recall))%R else 0%R in
  let specificity := if decide (0 < tn + fp)%nat then (INR tn / INR (tn + fp))%R else 0%R in
  modify (set_performance_metrics
    <[model_name := {| auc := auc;
                       precision := precision;
                       recall := recall;
                       f1 := f1;
                       specificity := specificity;
                       false_positive_rate := (INR fp / INR (fp + tn))%R;
                       confusion_matrix := (tp, fp, tn, fn) |}]>).

(** The min-max rescaling of the isolation scores of the evaluation
    split. *)
Definition minmax (isolation_pred : list R) : list R :=
  let lo := Rmin_list isolation_pred in
  let hi := Rmax_list isolation_pred in
  (λ s, (s - lo) / (hi - lo))%R <$> isolation_pred.

(** [hybrid_proba] of [_evaluate_models]. *)
Definition hybrid_proba (xgb_proba isolation_pred : list R) : list R :=
  zip_with (λ x i, (x + (1 - i)) / 2)%R xgb_proba (minmax isolation_pred).

Definition _evaluate_models (X_test : list (list R)) (y_test : Series)
    (isolation_pred : list R) : M FraudDetector unit :=
  xgb ← gets xgb_model;
  xgb_proba ← lift (score_rows xgb X_test);
  let xgb_pred := (λ p, as_int (bool_decide (p > 0.5)%R)) <$> xgb_proba in
  _ ← (if decide (isolation_pred = [])
       then raise (ValueError "zero-size array to reduction operation minimum")
       else mret tt);
  let isolation_proba := minmax isolation_pred in
  let isolation_binary := (λ s, as_int (bool_decide (s < 0)%R)) <$> isolation_pred in
  let hybrid_proba := hybrid_proba xgb_proba isolation_pred in
  let hybrid_pred := (λ p, as_int (bool_decide (p > 0.5)%R)) <$> hybrid_proba in
  _ ← evaluate_one "XGBoost" y_test xgb_pred xgb_proba;
  _ ← evaluate_one "Isolation Forest" y_test isolation_binary ((λ i, 1 - i)%R <$> isolation_proba);
  evaluate_one "Hybrid Model" y_test hybrid_pred hybrid_proba.

Definition train (df : DataFrame) : M FraudDetector (gmap string Metrics) :=
  '(X, processed_data) ← preprocess_data df;
  y ← lift (getcol df "is_fraud");
  '(X_train, X_test, y_train, y_test) ← lift (train_test_split ext X y);
  X_train_scaled ← scaler_fit_transform X_train;
  sc ← gets scaler;
  X_test_scaled ← lift (scaler_transform sc X_test);
  let forest := iforest_fit ext X_train_scaled in
  _ ← modify (set_isolation_forest (Some forest));
  let isolation_test_pred := forest <$> X_test_scaled in
  '(X_train_balanced, y_train_balanced) ← lift (smote_fit_resample ext X_train_scaled y_train);
  '(booster, importances) ←
    lift (xgb_fit ext X_train_balanced y_train_balanced (X_test_scaled, y_test));
  _ ← modify (set_xgb_model (Some booster));
  _ ← modify (set_feature_importance (list_to_map (reverse (zip (X_names X) importances))));
  _ ← _evaluate_models X_test_scaled y_test isolation_test_pred;
  gets performance_metrics.

End Engine.

(** ** Persistence: [save_model] and [load_model] *)

(** The values of the dictionary that [save_model] pickles. *)
Inductive pyobj : Type :=
| PClassifier (m : XGBClassifier)
| PForest (m : IsolationForest)
| PScaler (sc : StandardScaler)
| PEncoders (les : gmap string LabelEncoder)
| PMetrics (ms : gmap string Metrics)
| PImportance (fi : gmap string R).

(** Files written by [joblib.dump], by path. *)
Abbreviation FileSystem := (gmap string (gmap string pyobj)).

Definition save_model (self : FraudDetector) (filepath : string) (fs : FileSystem) : FileSystem :=
  let model_data : gmap string pyobj :=
    list_to_map
      [("xgb_model", PClassifier (xgb_model self));
       ("isolation_forest", PForest (isolation_forest self));
       ("scaler", PScaler (scaler self));
       ("label_encoders", PEncoders (label_encoders self));
       ("performance_metrics", PMetrics (performance_metrics self));
       ("feature_importance", PImportance (feature_importance self))] in
  <[filepath := model_data]> fs.

Definition joblib_load (fs : FileSystem) (filepath : string) : result (gmap string pyobj) :=
  match fs !! filepath with
  | Some model_data => Ok model_data
  | None => Raise (FileNotFoundError filepath)
  end.

(** [model_data[key]] *)
Definition getitem (model_data : gmap string pyobj) (key : string) : result pyobj :=
  match model_data !! key with
  | Some o => Ok o
  | None => Raise (KeyError key)
  end.

(** The statements under [try] in [load_model].  A value of another kind than
    the attribute holds after [save_model] is refused here; Python would
    store it and fail at its first use. *)
Definition load_model_body (fs : FileSystem) (filepath : string) : M FraudDetector unit :=
  model_data ← lift (joblib_load fs filepath);
  o ← lift (getitem model_data "xgb_model");
  _ ← (match o with PClassifier m => modify (set_xgb_model m) | _ => raise TypeError end);
  o ← lift (getitem model_data "isolation_forest");
  _ ← (match o with PForest m => modify (set_isolation_forest m) | _ => raise TypeError end);
  o ← lift (getitem model_data "scaler");
  _ ← (match o with PScaler sc => modify (set_scaler sc) | _ => raise TypeError end);
  o ← lift (getitem model_data "label_encoders");
  _ ← (match o with PEncoders les => modify (set_label_encoders (λ _, les)) | _ => raise TypeError end);
  o ← lift (getitem model_data "performance_metrics");
  _ ← (match o with PMetrics ms => modify (set_performance_metrics (λ _, ms)) | _ => raise TypeError end);
  o ← lift (getitem model_data "feature_importance");
  match o with PImportance fi => modify (set_feature_importance fi) | _ => raise TypeError end.

(** [try: ... return True / except Exception: return False] *)
Definition load_model (fs : FileSystem) (filepath : string) : M FraudDetector bool :=
  λ self,
    match load_model_body fs filepath self with
    | (Ok _, self') => (Ok true, self')
    | (Raise _, self') => (Ok false, self')
    end.

(** ** The serving layer ([api_server.py]) *)

Record TransactionRequest : Type := mkTransactionRequest {
  transaction_id : string;
  user_id : string;
  amount : R;
  merchant_category : string;
  hour : Z;
  day_of_week : Z;
  month : Z;
  user_age : Z;
  account_age_days : Z;
  transaction_count_day : Z;
  amount_last_hour : R;
  amount_last_day : R;
  velocity_1h : Z;
  avg_amount_30d : R;
  std_amount_30d : R;
  geographic_risk : R;
  device_risk : R;
  device_type : string;
  payment_method : string;
  time_since_last_transaction : Z
}.

(** [transaction.dict()].  The integer fields are taken as the floats they
    become in the feature matrix: an integer beyond the range of floats,
    which Python carries as an [int] until float arithmetic refuses it with
    [OverflowError], is outside this model. *)
Definition dict (t : TransactionRequest) : transaction :=
  list_to_map
    [("transaction_id", Str (transaction_id t));
     ("user_id", Str (user_id t));
     ("amount", Num (amount t));
     ("merchant_category", Str (merchant_category t));
     ("hour", Num (IZR (hour t)));
     ("day_of_week", Num (IZR (day_of_week t)));
     ("month", Num (IZR (month t)));
     ("user_age", Num (IZR (user_age t)));
     ("account_age_days", Num (IZR (account_age_days t)));
     ("transaction_count_day", Num (IZR (transaction_count_day t)));
     ("amount_last_hour", Num (amount_last_hour t));
     ("amount_last_day", Num (amount_last_day t));
     ("velocity_1h", Num (IZR (velocity_1h t)));
     ("avg_amount_30d", Num (avg_amount_30d t));
     ("std_amount_30d", Num (std_amount_30d t));
     ("geographic_risk", Num (geographic_risk t));
     ("device_risk", Num (device_risk t));
     ("device_type", Str (device_type t));
     ("payment_method", Str (payment_method t));
     ("time_since_last_transaction", Num (IZR (time_since_last_transaction t)))].

Record ApiMetrics : Type := mkApiMetrics {
  start_time : R;
  total_predictions : nat;
  total_processing_time : R;
  last_prediction_time : option Z
}.

(** The module's globals, and the number of clock readings made so far. *)
Record ApiState : Type := mkApiState {
  fraud_detector : option FraudDetector;
  api_metrics : ApiMetrics;
  clock_reads : nat
}.

Record PredictionResponse : Type := mkPredictionResponse {
  r_transaction_id : string;
  r_fraud_score : R;
  r_xgb_score : R;
  r_isolation_score : R;
  r_risk_level : RiskLevel;
  r_action : Action;
  r_is_fraud_predicted : bool;
  r_processing_time_ms : R;
  r_timestamp : Z
}.

(** One entry of ["predictions"] in the answer of [batch_predict]. *)
Record BatchItem : Type := mkBatchItem {
  b_transaction_id : string;
  b_fraud_score : R;
  b_risk_level : RiskLevel;
  b_action : Action;
  b_is_fraud_predicted : bool
}.

Record BatchResponse : Type := mkBatchResponse {
  predictions : list BatchItem;
  total_transactions : nat;
  processing_time_ms : R;
  avg_time_per_transaction_ms : R
}.

(** [str(e)], as it enters the detail of an HTTP error.  The texts of
    [KeyError], of the encoder's unseen label and of the division by zero
    are those of Python; the others are shortened (the scaler's
    [NotFittedError] reads "This StandardScaler instance is not fitted yet.
    Call 'fit' with appropriate arguments before using this estimator."), so
    the properties below speak of the exception, not of its text. *)
Definition str_exn (e : exn) : string :=
  match e with
  | KeyError key => "'" +:+ key +:+ "'"
  | TypeError => "unsupported operand type(s)"
  | ValueError what => what
  | UnseenLabels label => "y contains previously unseen labels: '" +:+ label +:+ "'"
  | NotFittedError => "This instance is not fitted yet"
  | IndexError => "index 0 is out of bounds"
  | ZeroDivisionError => "float division by zero"
  | FileNotFoundError path => "No such file or directory: '" +:+ path +:+ "'"
  | HTTPException _ detail => detail
  end.

Section Api.

Context (cv : Conversions).

(** The wall clock: the [n]-th reading, in microseconds since the epoch. *)
Context (wall_clock : nat → Z).

Definition tick (st : ApiState) : ApiState :=
  {| fraud_detector := fraud_detector st;
     api_metrics := api_metrics st;
     clock_reads := S (clock_reads st) |}.

(** [datetime.now()] *)
Definition datetime_now : M ApiState Z :=
  λ st, (Ok (wall_clock (clock_reads st)), tick st).

(** [time.time()] *)
Definition time_time : M ApiState R :=
  λ st, (Ok (IZR (wall_clock (clock_reads st)) / 1000000)%R, tick st).

(** A method call on the global [fraud_detector]; the handlers test the
    global before they reach one, so the first branch is never taken. *)
Definition on_detector {A} (m : M FraudDetector A) : M ApiState A :=
  λ st,
    match fraud_detector st with
    | None => (Raise TypeError, st)
    | Some self =>
        let '(r, self') := m self in
        (r, {| fraud_detector := Some self';
               api_metrics := api_metrics st;
               clock_reads := clock_reads st |})
    end.

Definition set_api_metrics (f : ApiMetrics → ApiMetrics) (st : ApiState) : ApiState :=
  {| fraud_detector := fraud_detector st;
     api_metrics := f (api_metrics st);
     clock_reads := clock_reads st |}.

(** [try: body / except Exception as e: raise HTTPException(500, prefix + str(e))] *)
Definition try_500 {A} (prefix : string) (body : M ApiState A) : M ApiState A :=
  λ st,
    match body st with
    | (Ok a, st') => (Ok a, st')
    | (Raise e, st') => (Raise (HTTPException 500 (prefix +:+ str_exn e)), st')
    end.

(** The three updates of [api_metrics] after a successful scoring. *)
Definition update_metrics (n : nat) (processing_time : R) : M ApiState unit :=
  _ ← modify (set_api_metrics (λ m,
        {| start_time := start_time m;
           total_predictions := total_predictions m + n;
           total_processing_time := total_processing_time m;
           last_prediction_time := last_prediction_time m |}));
  _ ← modify (set_api_metrics (λ m,
        {| start_time := start_time m;
           total_predictions := total_predictions m;
           total_processing_time := (total_processing_time m + processing_time)%R;
           last_prediction_time := last_prediction_time m |}));
  now ← datetime_now;
  modify (set_api_metrics (λ m,
        {| start_time := start_time m;
           total_predictions := total_predictions m;
           total_processing_time := total_processing_time m;
           last_prediction_time := Some now |})).

(** [POST /predict] *)
Definition predict_fraud (t : TransactionRequest) : M ApiState PredictionResponse :=
  detector ← gets fraud_detector;
  if detector is None then raise (HTTPException 503 "Modèle non chargé") else
  start ← time_time;
  try_500 "Erreur de prédiction: " (
    let transaction_dict := dict t in
    now ← datetime_now;
    let transaction_dict := <["timestamp" := Stamp now]> transaction_dict in
    result ← on_detector (predict cv (inl transaction_dict));
    stop ← time_time;
    let processing_time := ((stop - start) * 1000)%R in
    _ ← update_metrics 1 processing_time;
    now ← datetime_now;
    mret {| r_transaction_id := transaction_id t;
            r_fraud_score := fraud_score result;
            r_xgb_score := xgb_score result;
            r_isolation_score := isolation_score result;
            r_risk_level := risk_level result;
            r_action := action result;
            r_is_fraud_predicted := is_fraud_predicted result;
            r_processing_time_ms := processing_time;
            r_timestamp := now |}).

(** The body of the [for] loop of [batch_predict]. *)
Definition batch_item (t : TransactionRequest) : M ApiState BatchItem :=
  let transaction_dict := dict t in
  now ← datetime_now;
  let transaction_dict := <["timestamp" := Stamp now]> transaction_dict in
  result ← on_detector (predict cv (inl transaction_dict));
  mret {| b_transaction_id := transaction_id t;
          b_fraud_score := fraud_score result;
          b_risk_level := risk_level result;
          b_action := action result;
          b_is_fraud_predicted := is_fraud_predicted result |}.

Fixpoint batch_loop (ts : list TransactionRequest) (results : list BatchItem)
    : M ApiState (list BatchItem) :=
  match ts with
  | [] => mret results
  | t :: ts' => item ← batch_item t; batch_loop ts' (results ++ [item])%list
  end.

(** Python's [/] on a float and an [int]. *)
Definition truediv (x : R) (n : nat) : result R :=
  if decide (n = 0%nat) then Raise ZeroDivisionError else Ok (x / INR n)%R.

(** [POST /batch-predict] *)
Definition batch_predict (transactions : list TransactionRequest) : M ApiState BatchResponse :=
  detector ← gets fraud_detector;
  if detector is None then raise (HTTPException 503 "Modèle non chargé") else
  start ← time_time;
  try_500 "Erreur batch: " (
    results ← batch_loop transactions [];
    stop ← time_time;
    let processing_time := ((stop - start) * 1000)%R in
    _ ← update_metrics (length transactions) processing_time;
    avg ← lift (truediv processing_time (length transactions));
    mret {| predictions := results;
            total_transactions := length transactions;
            processing_time_ms := processing_time;
            avg_time_per_transaction_ms := avg |}).

End Api.

(** ** Start-up and the two probes ([api_server.py]) *)

Definition API_VERSION : string := "1.0.0".

Record HealthResponse : Type := mkHealthResponse {
  h_status : string;
  h_timestamp : Z;
  h_version : string;
  h_model_status : string
}.

Record SystemMetrics : Type := mkSystemMetrics {
  api_status : string;
  model_loaded : bool;
  m_total_predictions : nat;
  avg_processing_time_ms : R;
  memory_usage_percent : R;
  cpu_usage_percent : R;
  uptime_seconds : R;
  m_last_prediction_time : option Z
}.

(** [startup_event]: the global becomes a new detector, on which
    [load_model()] is tried; its answer only chooses what is printed. *)
Definition startup_event (fs : FileSystem) : M ApiState unit :=
  λ st,
    let '(_, detector) := load_model fs MODEL_PATH __init__ in
    (Ok tt, {| fraud_detector := Some detector;
               api_metrics := api_metrics st;
               clock_reads := clock_reads st |}).

Section Probes.

Context (wall_clock : nat → Z).

(** The two readings of [psutil]. *)
Context (memory_percent cpu_percent : R).

(** [GET /health]; every [FraudDetector] has the attribute [xgb_model], so
    [hasattr] adds nothing to the test of the global. *)
Definition health_check : M ApiState HealthResponse :=
  detector ← gets fraud_detector;
  let model_status := if detector is Some _ then "loaded" else "not_loaded" in
  now ← datetime_now wall_clock;
  mret {| h_status := "healthy";
          h_timestamp := now;
          h_version := API_VERSION;
          h_model_status := model_status |}.

(** [GET /metrics] *)
Definition get_metrics : M ApiState SystemMetrics :=
  now ← time_time wall_clock;
  metrics ← gets api_metrics;
  let uptime := (now - start_time metrics)%R in
  let avg_processing_time :=
    if decide (0 < total_predictions metrics)%nat
    then (total_processing_time metrics / INR (total_predictions metrics))%R
    else 0%R in
  detector ← gets fraud_detector;
  mret {| api_status := "running";
          model_loaded := bool_decide (detector ≠ None);
          m_total_predictions := total_predictions metrics;
          avg_processing_time_ms := avg_processing_time;
          memory_usage_percent := memory_percent;
          cpu_usage_percent := cpu_percent;
          uptime_seconds := uptime;
          m_last_prediction_time := last_prediction_time metrics |}.

End Probes.

(** ** Vocabulary of the properties *)

(** A computation keeps a relation [P] between the state it starts from and
    the state it ends in, whether it returns or raises. *)
Definition keeps {S A} (P : relation S) (m : M S A) : Prop := ∀ s, P s (m s).2.

(** Everything of the fitted state except the label encoders. *)
Definition same_estimators (s s' : FraudDetector) : Prop :=
  xgb_model s' = xgb_model s ∧
  isolation_forest s' = isolation_forest s ∧
  scaler s' = scaler s ∧
  performance_metrics s' = performance_metrics s ∧
  feature_importance s' = feature_importance s.

(** The columns that [preprocess_data] writes before the encoding loop. *)
Definition engineered : list string :=
  ["timestamp"; "is_weekend"; "is_night"; "amount_log"; "velocity_risk";
   "amount_deviation"; "total_risk_score"].

(** No categorical attribute is named like the encoded column of another. *)
Definition apart (features : list string) : Prop :=
  ∀ f g, f ∈ features → g ∈ features → g ≠ f +:+ "_encoded".

(** An encoder that is stored stays stored, as it is. *)
Definition encoders_kept (s s' : FraudDetector) : Prop :=
  ∀ f le, label_encoders s !! f = Some le → label_encoders s' !! f = Some le.

(** Everything of the fitted state except the metrics. *)
Definition same_but_metrics (s s' : FraudDetector) : Prop :=
  xgb_model s' = xgb_model s ∧
  isolation_forest s' = isolation_forest s ∧
  scaler s' = scaler s ∧
  label_encoders s' = label_encoders s ∧
  feature_importance s' = feature_importance s.

(** The rates of one entry of [performance_metrics] are proportions. *)
Definition proportions (m : Metrics) : Prop :=
  (0 <= precision m <= 1)%R ∧ (0 <= recall m <= 1)%R ∧
  (0 <= f1 m <= 1)%R ∧ (0 <= specificity m <= 1)%R.

(** The keys under which [_evaluate_models] reports. *)
Definition model_names : list string := ["XGBoost"; "Isolation Forest"; "Hybrid Model"].

(** Two frames that differ at most in their ['timestamp'] column. *)
Definition agree_but_timestamp (d1 d2 : DataFrame) : Prop :=
  nrows d1 = nrows d2 ∧ ∀ k, k ≠ "timestamp" → columns d1 !! k = columns d2 !! k.

(** The ['timestamp'] column is there and [pd.to_datetime] accepts it. *)
Definition timestamp_ok (cv : Conversions) (d : DataFrame) : Prop :=
  ∃ ts ts', getcol d "timestamp" = Ok ts ∧ traverse (to_datetime cv) ts = Ok ts'.

(** Two results of the same kind: values related by [P], or the same
    exception. *)
Definition result_rel {A} (P : A → A → Prop) (r1 r2 : result A) : Prop :=
  match r1, r2 with
  | Ok a, Ok b => P a b
  | Raise e1, Raise e2 => e1 = e2
  | _, _ => False
  end.

(** What [predict_fraud] hands to the detector: the request's fields and
    the reading of the clock that follows the one of [start_time]. *)
Definition request_dict (wall_clock : nat → Z) (t : TransactionRequest) (st : ApiState)
    : transaction + DataFrame :=
  inl (<["timestamp" := Stamp (wall_clock (S (clock_reads st)))]> (dict t)).

(** An HTTP error whose detail is [prefix] followed by the text of the
    exception caught. *)
Definition is_http (status : nat) (prefix : string) (e : exn) : Prop :=
  ∃ cause, e = HTTPException status (prefix +:+ str_exn cause).

(** A serving state whose detector has no fitted scaler. *)
Definition unfitted (st : ApiState) : Prop :=
  ∃ self, fraud_detector st = Some self ∧ scaler self = None.

(** What scoring may change of the serving state: the clock and, inside the
    detector, the label encoders. *)
Definition scoring_only (st st' : ApiState) : Prop :=
  api_metrics st' = api_metrics st ∧
  option_Forall2 same_estimators (fraud_detector st) (fraud_detector st').

(** ** Sample data *)

(** Conversions that read no text: the sample data holds dates and numbers
    as such. *)
Definition cv0 : Conversions :=
  {| parse_datetime := λ _, None;
     str_of_float := λ _, "0.0";
     str_of_datetime := λ _, "1970-01-01 00:00:00";
     float_of_str := λ _, None |}.

(** A small purchase in the afternoon (scenario B of the specification),
    without the timestamp. *)
Definition purchase (merchant : string) : transaction :=
  list_to_map
    [("amount", Num 25); ("hour", Num 14);
     ("day_of_week", Num 2); ("month", Num 6); ("user_age", Num 40);
     ("account_age_days", Num 900); ("transaction_count_day", Num 1);
     ("amount_last_hour", Num 0); ("amount_last_day", Num 60);
     ("velocity_1h", Num 1); ("avg_amount_30d", Num 30);
     ("std_amount_30d", Num 10); ("geographic_risk", Num 0.05);
     ("device_risk", Num 0.05); ("time_since_last_transaction", Num 120);
     ("merchant_category", Str merchant); ("device_type", Str "mobile");
     ("payment_method", Str "card_chip")].

Definition tx0 : transaction := <["timestamp" := Stamp 0]> (purchase "grocery").
Definition tx_unseen : transaction := <["timestamp" := Stamp 0]> (purchase "casino").

Definition names0 : list string :=
  (feature_columns ++
   ["merchant_category_encoded"; "device_type_encoded"; "payment_method_encoded"])%list.

(** A detector as [train] leaves it: encoders for the three categorical
    attributes, a scaler over the 24 features, and two fitted learners (a
    classifier answering 0.9 and a forest answering 0 on every row). *)
Definition trained0 : FraudDetector :=
  {| xgb_model := Some (λ _, 0.9%R);
     isolation_forest := Some (λ _, 0%R);
     scaler := Some {| feature_names_in_ := names0;
                       mean_ := replicate 24 0%R;
                       scale_ := replicate 24 1%R |};
     label_encoders :=
       list_to_map
         [("merchant_category", ["grocery"; "online"; "restaurant"]);
          ("device_type", ["desktop"; "mobile"]);
          ("payment_method", ["card_chip"; "contactless"])];
     performance_metrics := ∅;
     feature_importance := ∅ |}.

(** The sample detector with a classifier answering 0.5. *)
Definition neutral0 : FraudDetector := set_xgb_model (Some (λ _, 0.5%R)) trained0.

(** A labelled history of four transactions, two of them fraudulent. *)
Definition df0 : DataFrame :=
  {| nrows := 4;
     columns :=
       list_to_map
         [("timestamp", [Stamp 0; Stamp 60; Stamp 120; Stamp 180]);
          ("amount", of_nums [25; 5000; 40; 3000]%R);
          ("hour", of_nums [14; 2; 10; 3]%R);
          ("day_of_week", of_nums [2; 6; 1; 5]%R);
          ("velocity_1h", of_nums [1; 12; 1; 9]%R);
          ("avg_amount_30d", of_nums [30; 40; 35; 50]%R);
          ("std_amount_30d", of_nums [10; 10; 10; 10]%R);
          ("geographic_risk", of_nums [0.05; 0.9; 0.1; 0.8]%R);
          ("device_risk", of_nums [0.05; 0.7; 0.1; 0.6]%R);
          ("merchant_category", [Str "grocery"; Str "online"; Str "grocery"; Str "online"]);
          ("is_fraud", of_nums [0; 1; 0; 1]%R)] |}.

(** Rows [from .. from + n - 1] of a selection. *)
Definition slice (from n : nat) (X : XFrame) : XFrame :=
  {| X_nrows := n;
     X_columns := (λ c, (c.1, take n (drop from c.2))) <$> X_columns X |}.

(** Stand-ins for the learners: a split that keeps the last two rows for
    evaluation, a forest scoring a row by its first feature, an oversampler
    that finds the two classes already balanced, a classifier answering 0.9
    and an AUC of 0.5. *)
Definition ext0 : Learners :=
  {| train_test_split := λ X y, Ok (slice 0 2 X, slice 2 2 X, take 2 y, drop 2 y);
     iforest_fit := λ _ row, hd 0%R row;
     smote_fit_resample := λ X y, Ok (X, y);
     xgb_fit := λ X _ _, Ok (λ _, 0.9%R, replicate (length (hd [] X)) 0%R);
     roc_auc_score := λ _ _, Ok 0.5%R |}.

(** What [preprocess_data] makes of the sample history on a fresh detector. *)
Definition X0 : XFrame :=
  match (preprocess_data cv0 df0 __init__).1 with
  | Ok (X, _) => X
  | Raise _ => {| X_nrows := 0; X_columns := [] |}
  end.

Definition data0 : DataFrame :=
  match (preprocess_data cv0 df0 __init__).1 with
  | Ok (_, data) => data
  | Raise _ => df0
  end.

(** Class labels. *)
Definition binary (l : list R) : Prop := Forall (λ x, x = 0 ∨ x = 1)%R l.

(** The sample purchase a day later. *)
Definition tx1 : transaction := <["timestamp" := Stamp 86400]> (purchase "grocery").

(** The sample history without its label column. *)
Definition df_unlabelled : DataFrame :=
  {| nrows := nrows df0; columns := delete "is_fraud" (columns df0) |}.

(** The stand-in learners with an oversampler that finds too few minority
    rows. *)
Definition ext_few : Learners :=
  {| train_test_split := train_test_split ext0;
     iforest_fit := iforest_fit ext0;
     smote_fit_resample := λ _ _, Raise (ValueError "Expected n_neighbors <= n_samples_fit");
     xgb_fit := xgb_fit ext0;
     roc_auc_score := roc_auc_score ext0 |}.

(** A saved file cut short: the classifier and the forest of the sample
    detector, and nothing else. *)
Definition fs_truncated : FileSystem :=
  {[ MODEL_PATH :=
       list_to_map [("xgb_model", PClassifier (xgb_model trained0));
                    ("isolation_forest", PForest (isolation_forest trained0))] ]}.

(** A saved file that lacks the label encoders: the three estimators of the
    sample detector, and nothing else. *)
Definition fs_no_encoders : FileSystem :=
  {[ MODEL_PATH :=
       list_to_map [("xgb_model", PClassifier (xgb_model trained0));
                    ("isolation_forest", PForest (isolation_forest trained0));
                    ("scaler", PScaler (scaler trained0))] ]}.

(** What a detector as constructed holds after [load_model] was tried on
    that file. *)
Definition half_loaded0 : FraudDetector :=
  (load_model fs_no_encoders MODEL_PATH __init__).2.

(** Two requests for the sample purchase, the second at a merchant category
    the sample detector has not seen. *)
Definition request0 : TransactionRequest :=
  {| transaction_id := "tx-0"; user_id := "user-1"; amount := 25;
     merchant_category := "grocery"; hour := 14; day_of_week := 2; month := 6;
     user_age := 40; account_age_days := 900; transaction_count_day := 1;
     amount_last_hour := 0; amount_last_day := 60; velocity_1h := 1;
     avg_amount_30d := 30; std_amount_30d := 10; geographic_risk := 0.05;
     device_risk := 0.05; device_type := "mobile"; payment_method := "card_chip";
     time_since_last_transaction := 120 |}.

Definition request_unseen : TransactionRequest :=
  {| transaction_id := "tx-1"; user_id := "user-1"; amount := 25;
     merchant_category := "casino"; hour := 14; day_of_week := 2; month := 6;
     user_age := 40; account_age_days := 900; transaction_count_day := 1;
     amount_last_hour := 0; amount_last_day := 60; velocity_1h := 1;
     avg_amount_30d := 30; std_amount_30d := 10; geographic_risk := 0.05;
     device_risk := 0.05; device_type := "mobile"; payment_method := "card_chip";
     time_since_last_transaction := 120 |}.

(** The counters of the API as the module sets them, and a serving state
    holding the sample detector. *)
Definition metrics0 : ApiMetrics :=
  {| start_time := 0; total_predictions := 0; total_processing_time := 0;
     last_prediction_time := None |}.

Definition serving0 : ApiState :=
  {| fraud_detector := Some trained0; api_metrics := metrics0; clock_reads := 0 |}.

(** A clock that advances by a microsecond at each reading. *)
Definition clock0 (n : nat) : Z := Z.of_nat n.

(** * Properties *)

(** ** Reasoning about the monads *)

Lemma bind_Ok {S A B} (m : M S A) (f : A → M S B) (s s' : S) (b : B) :
  (m ≫= f) s = (Ok b, s') → ∃ a s1, m s = (Ok a, s1) ∧ f a s1 = (Ok b, s').
Proof.
  unfold mbind, M_bind. destruct (m s) as [[a|e] s1]; [eauto | discriminate].
Qed.

Lemma bind_Ok_intro {S A B} (m : M S A) (f : A → M S B) (s s1 : S) (a : A) :
  m s = (Ok a, s1) → (m ≫= f) s = f a s1.
Proof. unfold mbind, M_bind. by intros ->. Qed.

Lemma bind_Raise_intro {S A B} (m : M S A) (f : A → M S B) (s s1 : S) (e : exn) :
  m s = (Raise e, s1) → (m ≫= f) s = (Raise e, s1).
Proof. unfold mbind, M_bind. by intros ->. Qed.

Lemma keeps_bind {S A B} (P : relation S) `{!Transitive P} (m : M S A) (f : A → M S B) :
  keeps P m → (∀ a, keeps P (f a)) → keeps P (m ≫= f).
Proof.
  intros Hm Hf s. unfold mbind, M_bind. specialize (Hm s).
  destruct (m s) as [[a|e] s1]; simpl in *; [ | done].
  etrans; [exact Hm | apply Hf].
Qed.

Lemma keeps_lift {S A} (P : relation S) `{!Reflexive P} (r : result A) : keeps P (lift r).
Proof. by intros s. Qed.

Lemma keeps_gets {S A} (P : relation S) `{!Reflexive P} (f : S → A) : keeps P (gets f).
Proof. by intros s. Qed.

Lemma keeps_ret {S A} (P : relation S) `{!Reflexive P} (a : A) : keeps P (mret a : M S A).
Proof. by intros s. Qed.

(** Inversion of a chain of binds of [result] that ends in [Ok]. *)
Ltac inv_ok H :=
  repeat (unfold mbind, result_bind in H; simpl in H;
          match type of H with
          | match ?r with Ok _ => _ | Raise _ => _ end = Ok _ =>
              let E := fresh "E" in destruct r eqn:E; [ | discriminate H]
          end).

Global Instance same_estimators_refl : Reflexive same_estimators.
Proof. by intros s. Qed.

Global Instance same_estimators_trans : Transitive same_estimators.
Proof.
  intros s1 s2 s3 (?&?&?&?&?) (?&?&?&?&?). repeat split; congruence.
Qed.

Section Preprocessing.

Context (cv : Conversions).

(** ** Feature engineering *)

Lemma engineer_columns df data f :
  engineer cv df = Ok data → f ∉ engineered → columns data !! f = columns df !! f.
Proof.
  intros H Hf. unfold engineer in H. inv_ok H.
  injection H as <-. simpl.
  rewrite !lookup_insert_ne; [done | intros Heq; apply Hf; rewrite <- Heq; set_solver ..].
Qed.

Lemma engineer_nrows df data : engineer cv df = Ok data → nrows data = nrows df.
Proof. intros H. unfold engineer in H. inv_ok H. by injection H as <-. Qed.

Lemma engineer_no_timestamp df :
  columns df !! "timestamp" = None → engineer cv df = Raise (KeyError "timestamp").
Proof. intros H. unfold engineer, getcol. by rewrite H. Qed.

(** ** The encoding loop and the fitted state *)

Lemma encode_feature_keeps feature data : keeps same_estimators (encode_feature cv feature data).
Proof.
  intros s. unfold encode_feature.
  destruct (columns data !! feature) as [col|]; [ | done].
  unfold mbind, M_bind, gets. simpl.
  destruct (label_encoders s !! feature) as [le|]; simpl.
  - unfold lift. by destruct (le_transform le _).
  - unfold lift. by destruct (le_transform _ _).
Qed.

Lemma encode_features_keeps features data :
  keeps same_estimators (encode_features cv features data).
Proof.
  revert data. induction features as [|f fs IH]; intros data; simpl.
  - apply keeps_ret, _.
  - apply keeps_bind; [apply _ | apply encode_feature_keeps | done].
Qed.

Lemma preprocess_data_keeps df : keeps same_estimators (preprocess_data cv df).
Proof.
  unfold preprocess_data.
  apply keeps_bind; [apply _ | apply keeps_lift, _ | intros data].
  apply keeps_bind; [apply _ | apply encode_features_keeps | intros data'].
  apply keeps_ret, _.
Qed.

(** After preprocessing, [predict] only reads the state. *)
Lemma predict_state td s : (predict cv td s).2 = (preprocess_data cv (frame_of td) s).2.
Proof.
  unfold predict. cbv zeta. unfold mbind at 1, M_bind at 1.
  destruct (preprocess_data cv (frame_of td) s) as [[[X data]|e] s1]; [ | done].
  simpl. unfold mbind, M_bind, gets, lift, item0. simpl.
  repeat (case_match; simplify_eq/=; try done).
Qed.

Lemma predict_keeps td : keeps same_estimators (predict cv td).
Proof. intros s. rewrite predict_state. apply preprocess_data_keeps. Qed.

(** What a returned prediction is made of. *)
Lemma predict_Ok td s res s' :
  predict cv td s = (Ok res, s') →
  ∃ X data rows p g r0,
    preprocess_data cv (frame_of td) s = (Ok (X, data), s') ∧
    scaler_transform cv (scaler s') X = Ok (r0 :: rows) ∧
    xgb_model s' = Some p ∧
    isolation_forest s' = Some g ∧
    let score := ((p r0 + sigmoid (g r0)) / 2)%R in
    res = {| fraud_score := score;
             xgb_score := p r0;
             isolation_score := sigmoid (g r0);
             risk_level := (classify score).1;
             action := (classify score).2;
             is_fraud_predicted := bool_decide (score > 0.5)%R |}.
Proof.
  unfold predict. cbv zeta. intros H.
  apply bind_Ok in H as ([X data] & s1 & Hpre & H).
  apply bind_Ok in H as (sc & s2 & [= <- <-] & H).
  apply bind_Ok in H as (rows & s2 & Hsc & H).
  unfold lift in Hsc. injection Hsc as Hsc <-.
  apply bind_Ok in H as (xgb & s2 & [= <- <-] & H).
  apply bind_Ok in H as (xgb_proba & s2 & Hx & H).
  unfold lift in Hx. injection Hx as Hx <-.
  apply bind_Ok in H as (forest & s2 & [= <- <-] & H).
  apply bind_Ok in H as (iso & s2 & Hi & H).
  unfold lift in Hi. injection Hi as Hi <-.
  destruct (xgb_model s1) as [p|] eqn:Hp; [ | discriminate].
  destruct (isolation_forest s1) as [g|] eqn:Hg; [ | discriminate].
  simpl in Hx, Hi. injection Hx as <-. injection Hi as <-.
  destruct rows as [|r0 rows]; [discriminate | ].
  simpl in H. unfold mbind, M_bind, lift, mret, M_ret in H. simpl in H.
  injection H as <- <-.
  by exists X, data, rows, p, g, r0.
Qed.

End Preprocessing.

(** ** The threshold policy *)

Lemma classify_spec (score : R) :
  ((score >= 0.8)%R ↔ classify score = (HIGH, BLOCK)) ∧
  ((0.5 <= score < 0.8)%R ↔ classify score = (MEDIUM, ALERT)) ∧
  ((0.2 <= score < 0.5)%R ↔ classify score = (LOW, MONITOR)) ∧
  ((score < 0.2)%R ↔ classify score = (MINIMAL, APPROVE)).
Proof.
  unfold classify, FRAUD_THRESHOLD_HIGH, FRAUD_THRESHOLD_MEDIUM, FRAUD_THRESHOLD_LOW.
  repeat case_decide; repeat split; intros; try done; lra.
Qed.

(** The three bounds belong to the bucket above them. *)
Example classify_boundaries :
  classify 0.8 = (HIGH, BLOCK) ∧ classify 0.5 = (MEDIUM, ALERT) ∧
  classify 0.2 = (LOW, MONITOR) ∧ classify 0 = (MINIMAL, APPROVE).
Proof.
  split_and!; [apply (proj1 (classify_spec _)) | apply (proj1 (proj2 (classify_spec _)))
              | apply (proj1 (proj2 (proj2 (classify_spec _))))
              | apply (proj2 (proj2 (proj2 (classify_spec _))))]; lra.
Qed.

(** C1.  Whenever [predict] returns, the risk level and the action are read
    off the fraud score by the partition at 0.8, 0.5 and 0.2, each bound
    belonging to the bucket above it: the score is at least 0.8 exactly when
    the answer is HIGH and BLOCK, in [0.5, 0.8) exactly for MEDIUM and ALERT,
    in [0.2, 0.5) exactly for LOW and MONITOR, below 0.2 exactly for
    MINIMAL and APPROVE; and [is_fraud_predicted] holds exactly when the
    score exceeds 0.5. *)
Theorem predict_threshold_partition cv td s res s' :
  predict cv td s = (Ok res, s') →
  let score := fraud_score res in
  ((score >= 0.8)%R ↔ risk_level res = HIGH ∧ action res = BLOCK) ∧
  ((0.5 <= score < 0.8)%R ↔ risk_level res = MEDIUM ∧ action res = ALERT) ∧
  ((0.2 <= score < 0.5)%R ↔ risk_level res = LOW ∧ action res = MONITOR) ∧
  ((score < 0.2)%R ↔ risk_level res = MINIMAL ∧ action res = APPROVE) ∧
  (is_fraud_predicted res = true ↔ (score > 0.5)%R).
Proof.
  intros H. apply predict_Ok in H as (X & data & rows & p & g & r0 & _ & _ & _ & _ & ->).
  cbv zeta. simpl.
  set (score := ((p r0 + sigmoid (g r0)) / 2)%R).
  destruct (classify_spec score) as (Hh & Hm & Hl & Hmin).
  rewrite Hh, Hm, Hl, Hmin, bool_decide_eq_true.
  destruct (classify score) as [level act]. simpl.
  rewrite !pair_eq. tauto.
Qed.

(** The sample transaction on the sample detector: a score of 0.7. *)
Lemma predict_threshold_partition_witness :
  ∃ res s',
    predict cv0 (inl tx0) trained0 = (Ok res, s') ∧
    ((fraud_score res >= 0.8)%R ↔ risk_level res = HIGH ∧ action res = BLOCK) ∧
    ((0.5 <= fraud_score res < 0.8)%R ↔ risk_level res = MEDIUM ∧ action res = ALERT) ∧
    ((0.2 <= fraud_score res < 0.5)%R ↔ risk_level res = LOW ∧ action res = MONITOR) ∧
    ((fraud_score res < 0.2)%R ↔ risk_level res = MINIMAL ∧ action res = APPROVE) ∧
    (is_fraud_predicted res = true ↔ (fraud_score res > 0.5)%R).
Proof.
  eexists _, _. split; [vm_compute; reflexivity | ].
  eapply (predict_threshold_partition cv0 (inl tx0) trained0).
  vm_compute; reflexivity.
Defined.

(** ** Score fusion *)

Lemma sigmoid_range (x : R) : (0 < sigmoid x < 1)%R.
Proof.
  unfold sigmoid. pose proof (exp_pos (- x)) as He.
  assert (Hinv : ((1 + exp (- x)) * / (1 + exp (- x)) = 1)%R) by (apply Rinv_r; lra).
  unfold Rdiv. rewrite Rmult_1_l.
  set (y := (/ (1 + exp (- x)))%R) in *. nra.
Qed.

(** The anomaly term of [predict] grows with the raw isolation score. *)
Lemma sigmoid_increasing (x y : R) : (x < y)%R → (sigmoid x < sigmoid y)%R.
Proof.
  intros Hxy. unfold sigmoid.
  pose proof (exp_pos (- x)). pose proof (exp_pos (- y)).
  assert (exp (- y) < exp (- x))%R by (apply exp_increasing; lra).
  unfold Rdiv. rewrite !Rmult_1_l. apply Rinv_lt_contravar; [nra | lra].
Qed.

Lemma sigmoid_0 : sigmoid 0 = (1 / 2)%R.
Proof. unfold sigmoid. rewrite Ropp_0, exp_0. lra. Qed.

(** C2.  Whenever [predict] returns, the classifier score it reports is
    the probability that the fitted classifier gives to the scaled feature
    row of the input, the anomaly score is [1 / (1 + exp (- d))] for the
    decision value [d] that the fitted forest gives to that row, and the
    fraud score is the plain average of the two; the anomaly score lies
    strictly between 0 and 1, the classifier score lies in [[0, 1]] as soon
    as the fitted classifier answers with probabilities, and the fraud score
    then lies in [[0, 1]] too. *)
Theorem predict_fusion cv td s res s' :
  (∀ p row, xgb_model s = Some p → (0 <= p row <= 1)%R) →
  predict cv td s = (Ok res, s') →
  ∃ X data rows classifier forest row,
    preprocess_data cv (frame_of td) s = (Ok (X, data), s') ∧
    scaler_transform cv (scaler s) X = Ok (row :: rows) ∧
    xgb_model s = Some classifier ∧
    isolation_forest s = Some forest ∧
    xgb_score res = classifier row ∧
    isolation_score res = (1 / (1 + exp (- forest row)))%R ∧
    fraud_score res = ((classifier row + 1 / (1 + exp (- forest row))) / 2)%R ∧
    (0 <= xgb_score res <= 1)%R ∧
    (0 < isolation_score res < 1)%R ∧
    (0 <= fraud_score res <= 1)%R.
Proof.
  intros Hproba H.
  pose proof (predict_keeps cv td s) as (Hxgb & Hforest & Hsc & _).
  rewrite H in Hxgb, Hforest, Hsc. cbn [snd] in Hxgb, Hforest, Hsc.
  apply predict_Ok in H as (X & data & rows & p & g & r0 & Hpre & Ht & Hp & Hg & ->).
  rewrite Hsc in Ht. rewrite Hxgb in Hp. rewrite Hforest in Hg.
  exists X, data, rows, p, g, r0. cbv zeta.
  cbn [xgb_score isolation_score fraud_score].
  specialize (Hproba p r0 Hp).
  pose proof (sigmoid_range (g r0)) as Hs. unfold sigmoid in *.
  split_and!; try done; lra.
Qed.

Lemma predict_fusion_witness :
  ∃ res s',
    predict cv0 (inl tx0) trained0 = (Ok res, s') ∧
    xgb_score res = 0.9%R ∧
    isolation_score res = (1 / (1 + exp (- 0)))%R ∧
    fraud_score res = ((0.9 + 1 / (1 + exp (- 0))) / 2)%R ∧
    (0 <= fraud_score res <= 1)%R.
Proof.
  assert (∃ res s', predict cv0 (inl tx0) trained0 = (Ok res, s')) as (res & s' & H)
    by (eexists _, _; vm_compute; reflexivity).
  destruct (predict_fusion cv0 (inl tx0) trained0 res s')
    as (X & data & rows & p & g & r0 & _ & _ & Hp & Hg & Hx & Hi & Hf & _ & _ & Hunit);
    [intros p row [= <-]; lra | exact H | ].
  injection Hp as <-. injection Hg as <-.
  exists res, s'. split; [exact H | ]. split; [exact Hx | ]. split; [exact Hi | ].
  split; [exact Hf | exact Hunit].
Defined.

(** ** The timestamp *)

Lemma X_names_select data names : X_names (select data names) ⊆ names.
Proof.
  intros n. unfold X_names, select. simpl.
  rewrite list_elem_of_fmap. intros ([n' col] & -> & Hin).
  apply list_elem_of_omap in Hin as (n'' & Hin & Hsome).
  destruct (columns data !! n'') as [c|]; simplify_eq/=. done.
Qed.

Lemma available_subseteq (P Q : string → Prop)
    `{!∀ x, Decision (P x)} `{!∀ x, Decision (Q x)} (l1 l2 : list string) :
  filter P (l1 ++ filter Q l2)%list ⊆ (l1 ++ l2)%list.
Proof.
  intros n Hn. apply list_elem_of_filter in Hn as [_ Hn].
  apply elem_of_app in Hn as [Hn | Hn]; apply elem_of_app; [by left | right].
  by apply list_elem_of_filter in Hn as [_ Hn].
Qed.

Lemma preprocess_data_names cv df s X data s' :
  preprocess_data cv df s = (Ok (X, data), s') →
  X_names X ⊆ (feature_columns ++ ((λ f, f +:+ "_encoded") <$> CATEGORICAL_FEATURES))%list.
Proof.
  unfold preprocess_data. intros H.
  apply bind_Ok in H as (data0 & s1 & _ & H).
  apply bind_Ok in H as (data1 & s2 & _ & H).
  injection H as <- <- <-.
  intros n Hn. apply X_names_select in Hn.
  eapply (available_subseteq _ _ feature_columns). exact Hn.
Qed.

Lemma timestamp_not_feature :
  "timestamp" ∉ (feature_columns ++ ((λ f, f +:+ "_encoded") <$> CATEGORICAL_FEATURES))%list.
Proof. apply (bool_decide_unpack _). vm_compute. exact I. Qed.

(** Every request accepted by the API carries the numeric attributes that
    feature engineering reads, once the handler has added the timestamp
    (its integer fields being within the range of floats, as [dict] takes
    them). *)
Lemma engineer_request cv (t : TransactionRequest) (now : Z) :
  ∃ data, engineer cv (DataFrame_of_record (<["timestamp" := Stamp now]> (dict t))) = Ok data.
Proof. eexists. vm_compute. reflexivity. Qed.

(** C10.  A record without a ['timestamp'] key makes preprocessing, and so
    [predict], raise [KeyError: 'timestamp'] before anything is scored or
    stored, although no feature matrix that preprocessing produces has a
    timestamp column; the records built by the API handlers carry the key. *)
Theorem predict_requires_timestamp cv (d : transaction) (s : FraudDetector) :
  d !! "timestamp" = None →
  preprocess_data cv (DataFrame_of_record d) s = (Raise (KeyError "timestamp"), s) ∧
  predict cv (inl d) s = (Raise (KeyError "timestamp"), s) ∧
  (∀ df s0 X data s1,
     preprocess_data cv df s0 = (Ok (X, data), s1) → "timestamp" ∉ X_names X) ∧
  (∀ t now, (<["timestamp" := Stamp now]> (dict t) : transaction) !! "timestamp" = Some (Stamp now)).
Proof.
  intros Hd.
  assert (Hpre : preprocess_data cv (DataFrame_of_record d) s = (Raise (KeyError "timestamp"), s)).
  { unfold preprocess_data. apply bind_Raise_intro. unfold lift.
    rewrite engineer_no_timestamp; [done | ].
    simpl. by rewrite lookup_fmap, Hd. }
  split_and!.
  - done.
  - unfold predict. cbv zeta. by apply bind_Raise_intro.
  - intros df s0 X data s1 H Hin.
    apply preprocess_data_names in H. apply H in Hin.
    by apply timestamp_not_feature in Hin.
  - intros t now. apply lookup_insert_eq.
Qed.

Lemma predict_requires_timestamp_witness :
  purchase "grocery" !! "timestamp" = None ∧
  predict cv0 (inl (purchase "grocery")) trained0 = (Raise (KeyError "timestamp"), trained0).
Proof.
  split; [reflexivity | ].
  apply (predict_requires_timestamp cv0 (purchase "grocery") trained0). reflexivity.
Defined.

(** ** Before fitting *)

(** C6 (as the code has it).  While the scaler, the classifier or the
    forest is unfitted, [predict] never returns a prediction: for every
    input it raises, and [NotFittedError] is what it raises whenever the
    input gets through preprocessing and reaches an unfitted estimator (the
    scaler is unfitted, or scaling passes).  A detector as constructed is in
    that state, and a [load_model] that finds no file answers [False] and
    leaves it as constructed. *)
Theorem predict_before_fit cv (td : transaction + DataFrame) (s : FraudDetector) :
  scaler s = None ∨ xgb_model s = None ∨ isolation_forest s = None →
  (∃ e, (predict cv td s).1 = Raise e) ∧
  (∀ X data s',
     preprocess_data cv (frame_of td) s = (Ok (X, data), s') →
     scaler s = None ∨ (∃ rows, scaler_transform cv (scaler s) X = Ok rows) →
     (predict cv td s).1 = Raise NotFittedError) ∧
  (scaler __init__ = None ∧
   ∀ fs filepath, fs !! filepath = None →
                  load_model fs filepath __init__ = (Ok false, __init__)).
Proof.
  intros Hmissing.
  pose proof (predict_keeps cv td s) as (Hxgb & Hforest & Hsc & _).
  split_and!.
  - destruct (predict cv td s) as [[res|e] s'] eqn:H; [ | by exists e].
    cbn [snd] in Hxgb, Hforest, Hsc.
    apply predict_Ok in H as (X & data & rows & p & g & r0 & _ & Ht & Hp & Hg & _).
    rewrite Hsc in Ht. rewrite Hxgb in Hp. rewrite Hforest in Hg.
    destruct Hmissing as [Hm | [Hm | Hm]]; rewrite Hm in *; done.
  - intros X data s' Hpre Hreach.
    pose proof (preprocess_data_keeps cv (frame_of td) s) as (Hxgb' & Hforest' & Hsc' & _).
    rewrite Hpre in Hxgb', Hforest', Hsc'. cbn [snd] in Hxgb', Hforest', Hsc'.
    unfold predict. cbv zeta. rewrite (bind_Ok_intro _ _ _ _ _ Hpre).
    unfold mbind, M_bind, gets, lift. cbv beta iota.
    rewrite Hsc', Hxgb', Hforest'.
    destruct Hreach as [Hnone | [rows Hrows]].
    + by rewrite Hnone.
    + rewrite Hrows. cbv beta iota.
      destruct Hmissing as [Hm | [Hm | Hm]].
      * rewrite Hm in Hrows. discriminate Hrows.
      * by rewrite Hm.
      * rewrite Hm. by destruct (xgb_model s).
  - reflexivity.
  - intros fs filepath Hfs. unfold load_model, load_model_body, joblib_load.
    rewrite Hfs. reflexivity.
Qed.

(** The sample transaction reaches the scaler of a fresh detector. *)
Lemma predict_before_fit_witness :
  ∃ X data s',
    preprocess_data cv0 (frame_of (inl tx0)) __init__ = (Ok (X, data), s') ∧
    (predict cv0 (inl tx0) __init__).1 = Raise NotFittedError.
Proof.
  assert (∃ X data s', preprocess_data cv0 (frame_of (inl tx0)) __init__ = (Ok (X, data), s'))
    as (X & data & s' & Hpre) by (eexists _, _, _; vm_compute; reflexivity).
  exists X, data, s'. split; [exact Hpre | ].
  destruct (predict_before_fit cv0 (inl tx0) __init__) as (_ & H & _); [by left | ].
  apply (H X data s' Hpre). by left.
Defined.

(** C6 fails as stated: [load_model] answers [False] on a file that holds
    the three estimators but no label encoders, and leaves them in the
    detector; [predict] then fits the encoders on the record it is given and
    returns a score. *)
Lemma predict_after_failed_load :
  load_model fs_no_encoders MODEL_PATH __init__ = (Ok false, half_loaded0) ∧
  label_encoders half_loaded0 = ∅ ∧
  ∃ res, (predict cv0 (inl tx0) half_loaded0).1 = Ok res.
Proof.
  split; [vm_compute; reflexivity | ]. split; [vm_compute; reflexivity | ].
  eexists. vm_compute. reflexivity.
Qed.

(** ** The fitted state under [predict] *)

Lemma encode_feature_unchanged cv f data s :
  (is_Some (columns data !! f) → is_Some (label_encoders s !! f)) →
  (encode_feature cv f data s).2 = s.
Proof.
  intros H. unfold encode_feature.
  destruct (columns data !! f) as [col|]; [ | done].
  destruct H as [le Hle]; [done | ].
  unfold mbind, M_bind, gets, lift. simpl. rewrite Hle.
  by destruct (le_transform le _).
Qed.

Lemma encode_feature_columns cv f data s data' s' g :
  encode_feature cv f data s = (Ok data', s') →
  g ≠ f +:+ "_encoded" →
  columns data' !! g = columns data !! g.
Proof.
  unfold encode_feature. intros H Hg.
  destruct (columns data !! f) as [col|]; [ | by injection H as <- <-].
  unfold mbind, M_bind, mret, M_ret, gets, lift, modify in H. simpl in H.
  destruct (label_encoders s !! f) as [le|]; simpl in H;
    destruct (le_transform _ _) as [codes|e]; simplify_eq/=;
    by rewrite lookup_insert_ne.
Qed.

Lemma encode_feature_encoders cv f data s g :
  g ≠ f →
  label_encoders (encode_feature cv f data s).2 !! g = label_encoders s !! g.
Proof.
  unfold encode_feature. intros Hg.
  destruct (columns data !! f) as [col|]; [ | done].
  unfold mbind, M_bind, mret, M_ret, gets, lift, modify. simpl.
  destruct (label_encoders s !! f) as [le|]; simpl;
    destruct (le_transform _ _) as [codes|e]; simpl; try done;
    by rewrite lookup_insert_ne.
Qed.

Lemma apart_cons f fs : apart (f :: fs) → apart fs.
Proof. intros H f' g ? ?. apply H; by right. Qed.

Lemma CATEGORICAL_FEATURES_apart : apart CATEGORICAL_FEATURES.
Proof.
  intros f g Hf Hg.
  repeat (apply elem_of_cons in Hf as [-> | Hf]); [ | | | by apply elem_of_nil in Hf];
    repeat (apply elem_of_cons in Hg as [-> | Hg]); try (by apply elem_of_nil in Hg);
    discriminate.
Qed.

Lemma encode_features_unchanged cv fs data s :
  apart fs →
  (∀ f, f ∈ fs → is_Some (columns data !! f) → is_Some (label_encoders s !! f)) →
  (encode_features cv fs data s).2 = s.
Proof.
  revert data. induction fs as [|f fs IH]; intros data Hapart H; [done | ].
  simpl. unfold mbind, M_bind.
  pose proof (encode_feature_unchanged cv f data s) as Hf.
  destruct (encode_feature cv f data s) as [[data'|e] s1] eqn:E; simpl in Hf;
    rewrite Hf in * by (apply H; left); [ | done].
  apply IH; [by eapply apart_cons | ].
  intros g Hg. rewrite (encode_feature_columns _ _ _ _ _ _ g E).
  - apply H. by right.
  - apply Hapart; [left | by right].
Qed.

Lemma categorical_not_engineered f : f ∈ CATEGORICAL_FEATURES → f ∉ engineered.
Proof.
  intros Hf.
  repeat (apply elem_of_cons in Hf as [-> | Hf]); [ | | | by apply elem_of_nil in Hf];
    apply (bool_decide_unpack _); vm_compute; exact I.
Qed.

(** With an encoder in place for every categorical attribute of the input,
    a call of [predict] ends in the state it started from. *)
Lemma predict_unchanged cv (td : transaction + DataFrame) (s : FraudDetector) :
  (∀ f, f ∈ CATEGORICAL_FEATURES →
        is_Some (columns (frame_of td) !! f) → is_Some (label_encoders s !! f)) →
  (predict cv td s).2 = s.
Proof.
  intros H. rewrite predict_state. unfold preprocess_data.
  unfold mbind at 1, M_bind at 1, lift.
  destruct (engineer cv (frame_of td)) as [data|e] eqn:E; [ | done].
  unfold mbind, M_bind.
  pose proof (encode_features_unchanged cv CATEGORICAL_FEATURES data s
                CATEGORICAL_FEATURES_apart) as Hs.
  destruct (encode_features cv CATEGORICAL_FEATURES data s) as [[data'|e] s1];
    simpl in *; apply Hs; intros f Hf;
    rewrite (engineer_columns cv _ _ f E) by (by apply categorical_not_engineered);
    by apply H.
Qed.

Lemma trained0_encoders f :
  f ∈ CATEGORICAL_FEATURES → is_Some (label_encoders trained0 !! f).
Proof.
  revert f. apply Forall_forall.
  apply (bool_decide_unpack _). vm_compute. exact I.
Qed.

(** ** Categorical values never seen by the encoder *)

Lemma index_of_None (s : string) (l : list string) : index_of s l = None ↔ s ∉ l.
Proof.
  induction l as [|x l IH]; simpl.
  - split; [intros _; apply not_elem_of_nil | done].
  - rewrite not_elem_of_cons. destruct (String.eqb_spec s x) as [-> | Hne].
    + split; [done | by intros [? _]].
    + destruct (index_of s l); simpl; split; try done.
      * intros [_ Hl]. by apply IH in Hl.
      * intros _. split; [done | by apply IH].
Qed.

Lemma traverse_Raise {A B} (f : A → result B) (l : list A) (e : exn) :
  traverse f l = Raise e → ∃ x, x ∈ l ∧ f x = Raise e.
Proof.
  induction l as [|x l IH]; simpl; [done | ].
  destruct (f x) as [y|e'] eqn:E.
  - destruct (traverse f l) as [ys|e']; [done | ].
    intros [= ->]. destruct IH as (x' & ? & ?); [done | ].
    exists x'. split; [by right | done].
  - intros [= ->]. exists x. split; [by left | done].
Qed.

Lemma traverse_Ok {A B} (f : A → result B) (l : list A) (ys : list B) (x : A) :
  traverse f l = Ok ys → x ∈ l → ∃ y, f x = Ok y.
Proof.
  revert ys. induction l as [|x' l IH]; intros ys; simpl.
  - intros _ Hx. by apply elem_of_nil in Hx.
  - destruct (f x') as [y|e] eqn:E; [ | done].
    destruct (traverse f l) as [ys'|e]; [ | done].
    intros _ [-> | Hx]%elem_of_cons; [by exists y | by eapply IH].
Qed.

(** The encoder has no code for a label outside [classes_]. *)
Lemma le_transform_unseen (le : LabelEncoder) (y : list string) (label : string) :
  label ∈ y → label ∉ le → ∃ e, le_transform le y = Raise e.
Proof.
  intros Hin Hle. destruct (le_transform le y) as [codes|e] eqn:E; [ | by exists e].
  destruct (traverse_Ok _ _ _ _ E Hin) as [c Hc].
  unfold le_encode in Hc. apply index_of_None in Hle. by rewrite Hle in Hc.
Qed.

Lemma le_transform_Raise (le : LabelEncoder) (y : list string) (e : exn) :
  le_transform le y = Raise e → ∃ label, e = UnseenLabels label ∧ label ∈ y ∧ label ∉ le.
Proof.
  intros H. apply traverse_Raise in H as (label & Hin & H).
  unfold le_encode in H. destruct (index_of label le) eqn:E; [done | ].
  injection H as <-. exists label. by rewrite <- index_of_None.
Qed.

Lemma encode_feature_Raise cv f data s e s' :
  encode_feature cv f data s = (Raise e, s') → ∃ label, e = UnseenLabels label.
Proof.
  unfold encode_feature. intros H.
  destruct (columns data !! f) as [col|]; [ | done].
  unfold mbind, M_bind, mret, M_ret, gets, lift, modify in H. simpl in H.
  destruct (label_encoders s !! f) as [le|]; simpl in H;
    destruct (le_transform _ _) as [codes|e'] eqn:E; simplify_eq/=;
    apply le_transform_Raise in E as (label & -> & _); by exists label.
Qed.

Lemma encode_features_Raise cv fs data s e s' :
  encode_features cv fs data s = (Raise e, s') → ∃ label, e = UnseenLabels label.
Proof.
  revert data s. induction fs as [|f fs IH]; intros data s; simpl; [done | ].
  unfold mbind, M_bind.
  destruct (encode_feature cv f data s) as [[data'|e'] s1] eqn:E.
  - apply IH.
  - intros [= -> ->]. by eapply encode_feature_Raise.
Qed.

Lemma encode_feature_unseen cv f data s le (col : Series) v :
  label_encoders s !! f = Some le →
  columns data !! f = Some col →
  v ∈ col →
  astype_str cv v ∉ le →
  ∃ e, encode_feature cv f data s = (Raise e, s).
Proof.
  intros Hle Hcol Hv Hunseen.
  destruct (le_transform_unseen le (astype_str cv <$> col) (astype_str cv v)) as [e He];
    [ by apply list_elem_of_fmap_2 | done | ].
  exists e. unfold encode_feature. unfold Series in *. rewrite Hcol.
  unfold mbind, M_bind, gets, lift. simpl. by rewrite Hle, He.
Qed.

Lemma encode_features_unseen cv fs data s feature le (col : Series) v :
  apart fs →
  feature ∈ fs →
  label_encoders s !! feature = Some le →
  columns data !! feature = Some col →
  v ∈ col →
  astype_str cv v ∉ le →
  ∃ e s', encode_features cv fs data s = (Raise e, s').
Proof.
  revert data s. induction fs as [|f fs IH]; intros data s Hapart Hin Hle Hcol Hv Hunseen.
  { by apply elem_of_nil in Hin. }
  simpl. unfold mbind, M_bind.
  destruct (decide (f = feature)) as [-> | Hne].
  - destruct (encode_feature_unseen cv feature data s le col v) as [e ->]; eauto.
  - pose proof (encode_feature_encoders cv f data s feature) as Henc.
    destruct (encode_feature cv f data s) as [[data'|e] s1] eqn:E; [ | eauto].
    simpl in Henc. apply elem_of_cons in Hin as [-> | Hin]; [done | ].
    apply (IH data' s1); try done.
    + by eapply apart_cons.
    + rewrite Henc by done. done.
    + rewrite (encode_feature_columns _ _ _ _ _ _ feature E); [done | ].
      apply Hapart; [left | by right].
Qed.

(** C3 (as the code has it).  When a categorical attribute of the record
    holds a value that the fitted encoder of that attribute has never seen,
    [predict] raises and returns no prediction; if feature engineering went
    through, the exception is the encoder's complaint about unseen labels.
    No out-of-vocabulary code exists. *)
Theorem predict_unseen_category_raises cv (d : transaction) (s : FraudDetector)
    (feature : string) (le : LabelEncoder) (v : cell) :
  feature ∈ CATEGORICAL_FEATURES →
  label_encoders s !! feature = Some le →
  d !! feature = Some v →
  astype_str cv v ∉ le →
  ∃ e s',
    predict cv (inl d) s = (Raise e, s') ∧
    (∀ data, engineer cv (DataFrame_of_record d) = Ok data → ∃ label, e = UnseenLabels label).
Proof.
  intros Hf Hle Hd Hunseen.
  assert (Hraise : ∃ e s',
    preprocess_data cv (DataFrame_of_record d) s = (Raise e, s') ∧
    (∀ data, engineer cv (DataFrame_of_record d) = Ok data → ∃ label, e = UnseenLabels label)).
  { unfold preprocess_data. unfold mbind at 1, M_bind at 1, lift.
    destruct (engineer cv (DataFrame_of_record d)) as [data|e] eqn:E.
    - destruct (encode_features_unseen cv CATEGORICAL_FEATURES data s feature le [v] v)
        as (e & s' & He); try done.
      + apply CATEGORICAL_FEATURES_apart.
      + rewrite (engineer_columns cv _ _ feature E) by (by apply categorical_not_engineered).
        simpl. by rewrite lookup_fmap, Hd.
      + by left.
      + exists e, s'. split; [by apply bind_Raise_intro | ].
        intros _ _. by eapply encode_features_Raise.
    - exists e, s. split; [done | intros data' [=]]. }
  destruct Hraise as (e & s' & Hpre & He).
  exists e, s'. split; [ | done].
  unfold predict. cbv zeta. by apply bind_Raise_intro.
Qed.

Lemma predict_unseen_category_raises_witness :
  ∃ e s',
    predict cv0 (inl tx_unseen) trained0 = (Raise e, s') ∧
    (∀ data, engineer cv0 (DataFrame_of_record tx_unseen) = Ok data →
             ∃ label, e = UnseenLabels label).
Proof.
  apply (predict_unseen_category_raises cv0 tx_unseen trained0 "merchant_category"
           ["grocery"; "online"; "restaurant"] (Str "casino")).
  - apply (bool_decide_unpack _). vm_compute. exact I.
  - vm_compute. reflexivity.
  - vm_compute. reflexivity.
  - apply (bool_decide_unpack _). vm_compute. exact I.
Defined.

(** C3 fails as stated: the sample detector scores a grocery purchase, and
    raises on the same purchase at a merchant category it was not trained
    on. *)
Lemma predict_unseen_category_counterexample :
  (∃ res, predict cv0 (inl tx0) trained0 = (Ok res, trained0)) ∧
  predict cv0 (inl tx_unseen) trained0 = (Raise (UnseenLabels "casino"), trained0).
Proof. split; [eexists | ]; vm_compute; reflexivity. Qed.

(** ** Evaluation and serving *)

Lemma Rmin_list_0_1 : Rmin_list [0; 1]%R = 0%R.
Proof.
  unfold Rmin_list. simpl.
  rewrite (Rmin_right 1 0) by lra. by rewrite Rmin_left by lra.
Qed.

Lemma Rmax_list_0_1 : Rmax_list [0; 1]%R = 1%R.
Proof.
  unfold Rmax_list. simpl.
  rewrite (Rmax_left 1 0) by lra. by rewrite Rmax_right by lra.
Qed.

(** C4 (where the code departs from it).  A record whose classifier
    probability is 0.5 and whose raw isolation score is 0 is served a fraud
    score of 0.5 by [predict]; the same pair of raw scores, met by
    [_evaluate_models] in an evaluation split whose raw isolation scores are
    0 and 1, is reported a hybrid score of 0.75. *)
Theorem hybrid_score_differs_from_served_score :
  fraud_score <$> (predict cv0 (inl tx0) neutral0).1 = Ok 0.5%R ∧
  hybrid_proba [0.5; 0.5]%R [0; 1]%R = [0.75; 0.25]%R.
Proof.
  split.
  - transitivity (Ok ((0.5 + sigmoid 0) / 2)%R : result R); [vm_compute; reflexivity | ].
    f_equal. rewrite sigmoid_0. lra.
  - unfold hybrid_proba, minmax. rewrite Rmin_list_0_1, Rmax_list_0_1. simpl.
    repeat f_equal; lra.
Qed.

(** ** Persistence *)

(** C7.  Loading the file that [save_model] wrote, into any detector, answers
    [True] and leaves that detector equal to the saved one: classifier,
    anomaly scorer, scaler, label encoders, metrics and importances. *)
Theorem load_save_roundtrip (self other : FraudDetector) (filepath : string) (fs : FileSystem) :
  load_model (save_model self filepath fs) filepath other = (Ok true, self).
Proof.
  unfold load_model, load_model_body, save_model, joblib_load.
  rewrite lookup_insert_eq. destruct self, other. reflexivity.
Qed.

(** ** The batch endpoint *)

(** C8 (where the code departs from it).  On the empty list, with a
    detector in place, [batch_predict] does not answer the empty list: the
    loop ends at once with no result, the average time per transaction then
    divides by the length 0, and the handler turns the [ZeroDivisionError]
    into an HTTP 500. *)
Theorem batch_predict_empty cv (wall_clock : nat → Z)
    (self : FraudDetector) (m : ApiMetrics) (n : nat) :
  let st := {| fraud_detector := Some self; api_metrics := m; clock_reads := n |} in
  batch_loop cv wall_clock [] [] st = (Ok [], st) ∧
  (∀ elapsed, truediv elapsed (length (@nil TransactionRequest)) = Raise ZeroDivisionError) ∧
  (batch_predict cv wall_clock [] st).1
  = Raise (HTTPException 500 "Erreur batch: float division by zero").
Proof.
  cbv zeta. split_and!.
  - reflexivity.
  - intros elapsed. unfold truediv. by rewrite decide_True.
  - unfold batch_predict, try_500.
    unfold mbind, M_bind, mret, M_ret, gets, lift, time_time, update_metrics, datetime_now,
      modify, truediv.
    cbn [fraud_detector tick clock_reads api_metrics set_api_metrics batch_loop length fst].
    reflexivity.
Qed.

Lemma on_detector_Ok {A} (m : M FraudDetector A) (st st' : ApiState)
    (a : A) (self : FraudDetector) :
  fraud_detector st = Some self →
  on_detector m st = (Ok a, st') →
  ∃ self', m self = (Ok a, self') ∧ fraud_detector st' = Some self'.
Proof.
  unfold on_detector. intros -> H.
  destruct (m self) as [r self'] eqn:E. injection H as -> <-. by exists self'.
Qed.

(** What the loop of [batch_predict] appends for one request: the answer of
    [predict] on that request alone, cut down to four fields. *)
Lemma batch_item_spec cv wall_clock (self : FraudDetector) (t : TransactionRequest)
    (st st' : ApiState) (item : BatchItem) :
  (∀ f, f ∈ CATEGORICAL_FEATURES → is_Some (label_encoders self !! f)) →
  fraud_detector st = Some self →
  batch_item cv wall_clock t st = (Ok item, st') →
  fraud_detector st' = Some self ∧
  ∃ now res,
    (predict cv (inl (<["timestamp" := Stamp now]> (dict t))) self).1 = Ok res ∧
    item = {| b_transaction_id := transaction_id t;
              b_fraud_score := fraud_score res;
              b_risk_level := risk_level res;
              b_action := action res;
              b_is_fraud_predicted := is_fraud_predicted res |}.
Proof.
  intros Henc Hdet H. unfold batch_item in H. cbv zeta in H.
  apply bind_Ok in H as (now & st1 & Hnow & H).
  injection Hnow as <- <-.
  apply bind_Ok in H as (res & st2 & Hres & H).
  injection H as <- <-.
  apply (on_detector_Ok _ _ _ _ self) in Hres as (self' & Hres & Hdet'); [ | exact Hdet].
  match type of Hres with
  | predict _ ?td _ = _ => pose proof (predict_unchanged cv td self) as Hself
  end.
  rewrite Hres in Hself. cbn [snd] in Hself.
  rewrite Hself in Hdet' by (intros f Hf _; by apply Henc).
  split; [done | ]. exists (wall_clock (clock_reads st)), res.
  rewrite Hres. split; reflexivity.
Qed.

Lemma batch_loop_spec cv wall_clock (self : FraudDetector) (ts : list TransactionRequest) :
  (∀ f, f ∈ CATEGORICAL_FEATURES → is_Some (label_encoders self !! f)) →
  ∀ (acc results : list BatchItem) (st st' : ApiState),
    fraud_detector st = Some self →
    batch_loop cv wall_clock ts acc st = (Ok results, st') →
    fraud_detector st' = Some self ∧
    ∃ items,
      results = (acc ++ items)%list ∧
      Forall2 (λ t item, ∃ now res,
        (predict cv (inl (<["timestamp" := Stamp now]> (dict t))) self).1 = Ok res ∧
        item = {| b_transaction_id := transaction_id t;
                  b_fraud_score := fraud_score res;
                  b_risk_level := risk_level res;
                  b_action := action res;
                  b_is_fraud_predicted := is_fraud_predicted res |}) ts items.
Proof.
  intros Henc. induction ts as [|t ts IH]; intros acc results st st' Hdet H; simpl in H.
  - injection H as <- <-. split; [done | ]. exists []. by rewrite app_nil_r.
  - apply bind_Ok in H as (item & st1 & Hitem & H).
    destruct (batch_item_spec _ _ _ _ _ _ _ Henc Hdet Hitem) as (Hdet1 & Hspec).
    destruct (IH _ _ _ _ Hdet1 H) as (Hdet' & items & -> & Hall).
    split; [done | ]. exists (item :: items).
    split; [by rewrite <- app_assoc | by constructor].
Qed.

(** X18.  Whenever [batch_predict] answers, on a detector holding an encoder
    for each categorical attribute, its predictions are, request by request
    and in order, those of [predict] on that request alone. *)
Lemma batch_predict_elementwise cv wall_clock (self : FraudDetector)
    (ts : list TransactionRequest) (st st' : ApiState) (resp : BatchResponse) :
  (∀ f, f ∈ CATEGORICAL_FEATURES → is_Some (label_encoders self !! f)) →
  fraud_detector st = Some self →
  batch_predict cv wall_clock ts st = (Ok resp, st') →
  ts ≠ [] ∧
  Forall2 (λ t item, ∃ now res,
    (predict cv (inl (<["timestamp" := Stamp now]> (dict t))) self).1 = Ok res ∧
    item = {| b_transaction_id := transaction_id t;
              b_fraud_score := fraud_score res;
              b_risk_level := risk_level res;
              b_action := action res;
              b_is_fraud_predicted := is_fraud_predicted res |}) ts (predictions resp).
Proof.
  intros Henc Hdet H. unfold batch_predict in H.
  apply bind_Ok in H as (det & st0 & [= <- <-] & H).
  rewrite Hdet in H.
  apply bind_Ok in H as (start & st1 & [= <- <-] & H).
  unfold try_500 in H.
  match type of H with
  | match ?body ?s with _ => _ end = _ => destruct (body s) as [[r|e] st2] eqn:E; [ | done]
  end.
  injection H as <- <-.
  apply bind_Ok in E as (results & st3 & Hloop & E).
  apply bind_Ok in E as (stop & st4 & _ & E).
  apply bind_Ok in E as ([] & st5 & _ & E).
  apply bind_Ok in E as (avg & st6 & Havg & E).
  injection E as <- <-. cbn [predictions].
  split.
  - intros ->. by injection Havg.
  - apply (batch_loop_spec cv wall_clock self ts Henc) in Hloop as (_ & items & -> & Hall);
      [done | done].
Qed.

(** ** Training *)

Lemma scaler_transform_length cv (sc : StandardScaler) (X : XFrame) (rows : list (list R)) :
  scaler_transform cv sc X = Ok rows → length rows = X_nrows X.
Proof.
  unfold scaler_transform, check_array. intros H.
  destruct sc as [p|]; [ | done].
  case_decide; [ | done].
  unfold mbind, result_bind in H.
  destruct (float_columns cv X) as [cols|]; [ | done].
  case_decide; [done | ].
  injection H as <-. unfold transpose.
  by rewrite length_map, length_fmap, length_seq.
Qed.

(** C5.  Whenever [train] returns, the oversampler was given the scaled
    training part of the split and its labels, the classifier now in place
    was fitted on what the oversampler returned, and evaluation ran on the
    held-out part exactly as the split produced it: the labels [y_test]
    untouched, one scaled row per row of [X_test], no row added. *)
Theorem train_oversamples_training_split_only cv ext (df : DataFrame)
    (s s' : FraudDetector) (metrics : gmap string Metrics) :
  train cv ext df s = (Ok metrics, s') →
  ∃ X data s1 y X_train X_test y_train y_test p
    X_train_scaled X_test_scaled X_train_balanced y_train_balanced booster importances s2,
    preprocess_data cv df s = (Ok (X, data), s1) ∧
    getcol df "is_fraud" = Ok y ∧
    train_test_split ext X y = Ok (X_train, X_test, y_train, y_test) ∧
    scaler_fit cv X_train = Ok p ∧
    scaler_transform cv (Some p) X_train = Ok X_train_scaled ∧
    scaler_transform cv (Some p) X_test = Ok X_test_scaled ∧
    length X_test_scaled = X_nrows X_test ∧
    smote_fit_resample ext X_train_scaled y_train = Ok (X_train_balanced, y_train_balanced) ∧
    xgb_fit ext X_train_balanced y_train_balanced (X_test_scaled, y_test)
      = Ok (booster, importances) ∧
    xgb_model s2 = Some booster ∧
    _evaluate_models cv ext X_test_scaled y_test
      (iforest_fit ext X_train_scaled <$> X_test_scaled) s2 = (Ok tt, s') ∧
    metrics = performance_metrics s'.
Proof.
  unfold train. intros H.
  apply bind_Ok in H as ([X data] & s1 & Hpre & H).
  apply bind_Ok in H as (y & ? & [= Hy <-] & H).
  apply bind_Ok in H as ([[[X_train X_test] y_train] y_test] & ? & [= Hsplit <-] & H).
  apply bind_Ok in H as (X_train_scaled & s3 & Hfit & H).
  unfold scaler_fit_transform in Hfit.
  apply bind_Ok in Hfit as (p & ? & [= Hp <-] & Hfit).
  apply bind_Ok in Hfit as ([] & ? & [= <-] & [= Htrain <-]).
  apply bind_Ok in H as (sc & ? & [= <- <-] & H).
  apply bind_Ok in H as (X_test_scaled & ? & [= Htest <-] & H).
  cbv zeta in H.
  apply bind_Ok in H as ([] & ? & [= <-] & H).
  apply bind_Ok in H as ([X_bal y_bal] & ? & [= Hsmote <-] & H).
  apply bind_Ok in H as ([booster importances] & ? & [= Hxgb <-] & H).
  apply bind_Ok in H as ([] & ? & [= <-] & H).
  apply bind_Ok in H as ([] & ? & [= <-] & H).
  apply bind_Ok in H as ([] & s4 & Heval & [= <- <-]).
  change (scaler_transform cv (Some p) X_train = Ok X_train_scaled) in Htrain.
  change (scaler_transform cv (Some p) X_test = Ok X_test_scaled) in Htest.
  exists X, data, s1, y, X_train, X_test, y_train, y_test, p.
  match type of Heval with
  | _ ?s2 = _ => exists X_train_scaled, X_test_scaled, X_bal, y_bal, booster, importances, s2
  end.
  split_and!; try done.
  by eapply scaler_transform_length.
Qed.

(** [train] does return: the sample history under the stand-in learners. *)

Lemma bind_Ok_ex {S A B} (m : M S A) (f : A → M S B) (s s1 : S) (a : A) :
  m s = (Ok a, s1) → (∃ b s', f a s1 = (Ok b, s')) → ∃ b s', (m ≫= f) s = (Ok b, s').
Proof. intros Hm (b & s' & Hf). exists b, s'. by rewrite (bind_Ok_intro _ _ _ _ _ Hm). Qed.

Lemma binary_as_int {A} (f : A → bool) (l : list A) : binary ((λ x, as_int (f x)) <$> l).
Proof.
  apply Forall_fmap, Forall_forall. intros x _. simpl.
  destruct (f x); [by right | by left].
Qed.

Lemma confusion_Ok (y_true y_pred : list R) :
  binary y_true → binary y_pred → 0%R ∈ y_true → 1%R ∈ y_true →
  ∃ c, confusion y_true y_pred = Ok c.
Proof.
  intros Ht Hp H0 H1. unfold confusion. rewrite decide_True; [by eexists | ].
  split_and!; [by apply Forall_app | apply elem_of_app; by left ..].
Qed.

Lemma bind_Ok_all {S A B} (m : M S A) (f : A → M S B) (s : S) :
  (∃ a s1, m s = (Ok a, s1)) → (∀ a s1, ∃ b s', f a s1 = (Ok b, s')) →
  ∃ b s', (m ≫= f) s = (Ok b, s').
Proof. intros (a & s1 & Hm) Hf. by eapply bind_Ok_ex. Qed.

Lemma evaluate_one_Ok cv ext (model_name : string) (y_test : Series) (yt pred proba : list R)
    (s : FraudDetector) :
  (∃ a, roc_auc_score ext y_test proba = Ok a) →
  traverse (as_float cv) y_test = Ok yt →
  binary yt → binary pred → 0%R ∈ yt → 1%R ∈ yt →
  ∃ u s', evaluate_one cv ext model_name y_test pred proba s = (Ok u, s').
Proof.
  intros [a Hauc] Hyt Hbt Hbp H0 H1.
  destruct (confusion_Ok yt pred) as [[[[tn fp] fn] tp] Hc]; try done.
  unfold evaluate_one, mbind, M_bind, lift, modify.
  rewrite Hauc, Hyt, Hc. by eexists _, _.
Qed.

Lemma _evaluate_models_Ok cv ext (X_test : list (list R)) (y_test : Series)
    (yt isolation_pred : list R) (s : FraudDetector) (p : list R → R) :
  xgb_model s = Some p →
  isolation_pred ≠ [] →
  (∀ y proba, ∃ a, roc_auc_score ext y proba = Ok a) →
  traverse (as_float cv) y_test = Ok yt →
  binary yt → 0%R ∈ yt → 1%R ∈ yt →
  ∃ u s', _evaluate_models cv ext X_test y_test isolation_pred s = (Ok u, s').
Proof.
  intros Hp Hiso Hauc Hyt Hbt H0 H1. unfold _evaluate_models.
  eapply bind_Ok_ex; [reflexivity | ]. rewrite Hp.
  eapply bind_Ok_ex; [reflexivity | ]. cbv zeta.
  rewrite decide_False by done.
  eapply bind_Ok_ex; [reflexivity | ].
  apply bind_Ok_all; [ | intros _ s1; apply bind_Ok_all; [ | intros _ s2] ];
    eapply evaluate_one_Ok; eauto using binary_as_int.
Qed.

Lemma scaler_fit_Ok cv (X : XFrame) (cols : list (list R)) :
  float_columns cv X = Ok cols → X_nrows X ≠ 0%nat →
  ∃ p, scaler_fit cv X = Ok p ∧ feature_names_in_ p = X_names X.
Proof.
  intros Hcols Hn. unfold scaler_fit, mbind, result_bind.
  rewrite Hcols, decide_False by done. by eexists.
Qed.

Lemma scaler_transform_Ok cv (p : ScalerParams) (X : XFrame) (cols : list (list R)) :
  X_names X = feature_names_in_ p → float_columns cv X = Ok cols → X_nrows X ≠ 0%nat →
  ∃ rows, scaler_transform cv (Some p) X = Ok rows.
Proof.
  intros Hnames Hcols Hn. unfold scaler_transform, check_array, mbind, result_bind.
  rewrite decide_True, Hcols, decide_False by done. by eexists.
Qed.

(** The conditions under which [train] runs to its end. *)
Lemma train_Ok cv ext (df : DataFrame) (s s1 : FraudDetector) (X : XFrame) (data : DataFrame)
    (y y_train y_test : Series) (X_train X_test : XFrame) (p : ScalerParams)
    (X_train_scaled X_test_scaled X_train_balanced : list (list R)) (y_train_balanced : Series)
    (booster : list R → R) (importances : list R) :
  preprocess_data cv df s = (Ok (X, data), s1) →
  getcol df "is_fraud" = Ok y →
  train_test_split ext X y = Ok (X_train, X_test, y_train, y_test) →
  scaler_fit cv X_train = Ok p →
  scaler_transform cv (Some p) X_train = Ok X_train_scaled →
  scaler_transform cv (Some p) X_test = Ok X_test_scaled →
  smote_fit_resample ext X_train_scaled y_train = Ok (X_train_balanced, y_train_balanced) →
  xgb_fit ext X_train_balanced y_train_balanced (X_test_scaled, y_test)
    = Ok (booster, importances) →
  (∀ s2, xgb_model s2 = Some booster →
         ∃ u s', _evaluate_models cv ext X_test_scaled y_test
                   (iforest_fit ext X_train_scaled <$> X_test_scaled) s2 = (Ok u, s')) →
  ∃ metrics s', train cv ext df s = (Ok metrics, s').
Proof.
  intros Hpre Hy Hsplit Hp Htrain Htest Hsmote Hxgb Heval. unfold train, lift.
  eapply bind_Ok_ex; [exact Hpre | cbv beta iota].
  rewrite Hy. eapply bind_Ok_ex; [reflexivity | ].
  rewrite Hsplit. eapply bind_Ok_ex; [reflexivity | cbv beta iota].
  eapply bind_Ok_ex.
  { unfold scaler_fit_transform, lift, modify, mbind, M_bind.
    rewrite Hp. cbv beta iota. rewrite Htrain. reflexivity. }
  eapply bind_Ok_ex; [reflexivity | ].
  cbn [scaler set_scaler]. rewrite Htest.
  eapply bind_Ok_ex; [reflexivity | cbv zeta].
  eapply bind_Ok_ex; [reflexivity | ].
  rewrite Hsmote. eapply bind_Ok_ex; [reflexivity | cbv beta iota].
  rewrite Hxgb. eapply bind_Ok_ex; [reflexivity | cbv beta iota].
  eapply bind_Ok_ex; [reflexivity | ].
  eapply bind_Ok_ex; [reflexivity | ].
  apply bind_Ok_all; [by apply Heval | intros u s']. by eexists _, _.
Qed.

Lemma preprocess_df0 :
  preprocess_data cv0 df0 __init__ = (Ok (X0, data0), (preprocess_data cv0 df0 __init__).2).
Proof. vm_compute. reflexivity. Qed.

Lemma train_returns : ∃ metrics s', train cv0 ext0 df0 __init__ = (Ok metrics, s').
Proof.
  assert (∃ cols, float_columns cv0 (slice 0 2 X0) = Ok cols) as [cols_train Hcols_train]
    by (eexists; vm_compute; reflexivity).
  assert (∃ cols, float_columns cv0 (slice 2 2 X0) = Ok cols) as [cols_test Hcols_test]
    by (eexists; vm_compute; reflexivity).
  assert (Hnames : X_names (slice 2 2 X0) = X_names (slice 0 2 X0))
    by (vm_compute; reflexivity).
  destruct (scaler_fit_Ok cv0 (slice 0 2 X0) cols_train Hcols_train) as (p & Hp & Hp_names);
    [discriminate | ].
  destruct (scaler_transform_Ok cv0 p (slice 0 2 X0) cols_train) as [X_train_scaled Htrain];
    [done | done | discriminate | ].
  destruct (scaler_transform_Ok cv0 p (slice 2 2 X0) cols_test) as [X_test_scaled Htest];
    [congruence | done | discriminate | ].
  eapply (train_Ok cv0 ext0 df0 __init__ _ X0 data0 (of_nums [0; 1; 0; 1]%R)).
  - exact preprocess_df0.
  - vm_compute. reflexivity.
  - reflexivity.
  - exact Hp.
  - exact Htrain.
  - exact Htest.
  - reflexivity.
  - reflexivity.
  - intros s2 Hs2. eapply _evaluate_models_Ok.
    + exact Hs2.
    + apply scaler_transform_length in Htest.
      destruct X_test_scaled; [discriminate Htest | discriminate].
    + intros y proba. by eexists.
    + vm_compute. reflexivity.
    + constructor; [by left | constructor; [by right | constructor]].
    + by left.
    + right. by left.
Qed.

Lemma train_oversamples_training_split_only_witness :
  ∃ metrics s' X data s1 y X_train X_test y_train y_test p
    X_train_scaled X_test_scaled X_train_balanced y_train_balanced booster importances s2,
    train cv0 ext0 df0 __init__ = (Ok metrics, s') ∧
    preprocess_data cv0 df0 __init__ = (Ok (X, data), s1) ∧
    getcol df0 "is_fraud" = Ok y ∧
    train_test_split ext0 X y = Ok (X_train, X_test, y_train, y_test) ∧
    scaler_fit cv0 X_train = Ok p ∧
    scaler_transform cv0 (Some p) X_train = Ok X_train_scaled ∧
    scaler_transform cv0 (Some p) X_test = Ok X_test_scaled ∧
    length X_test_scaled = X_nrows X_test ∧
    smote_fit_resample ext0 X_train_scaled y_train = Ok (X_train_balanced, y_train_balanced) ∧
    xgb_fit ext0 X_train_balanced y_train_balanced (X_test_scaled, y_test)
      = Ok (booster, importances) ∧
    xgb_model s2 = Some booster ∧
    _evaluate_models cv0 ext0 X_test_scaled y_test
      (iforest_fit ext0 X_train_scaled <$> X_test_scaled) s2 = (Ok tt, s') ∧
    metrics = performance_metrics s'.
Proof.
  destruct train_returns as (metrics & s' & H).
  destruct (train_oversamples_training_split_only cv0 ext0 df0 __init__ s' metrics H)
    as (X & data & s1 & y & X_train & X_test & y_train & y_test & p & X_train_scaled &
        X_test_scaled & X_bal & y_bal & booster & importances & s2 & Hrest).
  exists metrics, s', X, data, s1, y, X_train, X_test, y_train, y_test, p.
  exists X_train_scaled, X_test_scaled, X_bal, y_bal, booster, importances, s2.
  split; [exact H | exact Hrest].
Defined.

(** * Further properties of the code *)

(** ** The label encoders are write-once *)

Global Instance encoders_kept_refl : Reflexive encoders_kept.
Proof. by intros s f le. Qed.

Global Instance encoders_kept_trans : Transitive encoders_kept.
Proof. intros s1 s2 s3 H12 H23 f le H. by apply H23, H12. Qed.

Lemma same_encoders_kept (s s' : FraudDetector) :
  label_encoders s' = label_encoders s → encoders_kept s s'.
Proof. intros H f le. by rewrite H. Qed.

Lemma encode_feature_encoders_kept cv feature data :
  keeps encoders_kept (encode_feature cv feature data).
Proof.
  intros s. unfold encode_feature.
  destruct (columns data !! feature) as [col|]; [ | done].
  unfold mbind, M_bind, mret, M_ret, gets, lift, modify. simpl.
  destruct (label_encoders s !! feature) as [le|] eqn:E; simpl.
  - by destruct (le_transform le _).
  - assert (encoders_kept s (set_label_encoders <[feature := le_fit (astype_str cv <$> col)]> s)).
    { intros g le' Hg. simpl. rewrite lookup_insert_ne; [done | congruence]. }
    by destruct (le_transform _ _).
Qed.

Lemma encode_features_encoders_kept cv features data :
  keeps encoders_kept (encode_features cv features data).
Proof.
  revert data. induction features as [|f fs IH]; intros data; simpl.
  - apply keeps_ret, _.
  - apply keeps_bind; [apply _ | apply encode_feature_encoders_kept | done].
Qed.

Lemma preprocess_data_encoders_kept cv df : keeps encoders_kept (preprocess_data cv df).
Proof.
  unfold preprocess_data.
  apply keeps_bind; [apply _ | apply keeps_lift, _ | intros data].
  apply keeps_bind; [apply _ | apply encode_features_encoders_kept | intros data'].
  apply keeps_ret, _.
Qed.

Lemma keeps_modify {S} (P : relation S) (f : S → S) : (∀ s, P s (f s)) → keeps P (modify f).
Proof. intros H s. apply H. Qed.

Lemma keeps_raise {S A} (P : relation S) `{!Reflexive P} (e : exn) : keeps P (raise e : M S A).
Proof. by intros s. Qed.

Global Instance same_but_metrics_refl : Reflexive same_but_metrics.
Proof. by intros s. Qed.

Global Instance same_but_metrics_trans : Transitive same_but_metrics.
Proof. intros s1 s2 s3 (?&?&?&?&?) (?&?&?&?&?). repeat split; congruence. Qed.

Lemma evaluate_one_keeps cv ext name y pred proba :
  keeps same_but_metrics (evaluate_one cv ext name y pred proba).
Proof.
  unfold evaluate_one.
  apply keeps_bind; [apply _ | apply keeps_lift, _ | intros a].
  apply keeps_bind; [apply _ | apply keeps_lift, _ | intros yt].
  apply keeps_bind; [apply _ | apply keeps_lift, _ | intros [[[tn fp] fn] tp]].
  by apply keeps_modify.
Qed.

Lemma _evaluate_models_keeps cv ext X y iso :
  keeps same_but_metrics (_evaluate_models cv ext X y iso).
Proof.
  unfold _evaluate_models.
  apply keeps_bind; [apply _ | apply keeps_gets, _ | intros xgb].
  apply keeps_bind; [apply _ | apply keeps_lift, _ | intros proba].
  apply keeps_bind; [apply _ | | intros _].
  { case_decide; [apply keeps_raise, _ | apply keeps_ret, _]. }
  apply keeps_bind; [apply _ | apply evaluate_one_keeps | intros _].
  apply keeps_bind; [apply _ | apply evaluate_one_keeps | intros _].
  apply evaluate_one_keeps.
Qed.

(** After preprocessing, [train] never writes the label encoders. *)
Lemma train_encoders_kept cv ext df : keeps encoders_kept (train cv ext df).
Proof.
  assert (Hmod : ∀ f : FraudDetector → FraudDetector,
            (∀ s, label_encoders (f s) = label_encoders s) → keeps encoders_kept (modify f)).
  { intros f Hf. apply keeps_modify. intros s. by apply same_encoders_kept. }
  unfold train.
  apply keeps_bind; [apply _ | apply preprocess_data_encoders_kept | intros [X data]].
  apply keeps_bind; [apply _ | apply keeps_lift, _ | intros y].
  apply keeps_bind; [apply _ | apply keeps_lift, _ | intros [[[X_train X_test] y_train] y_test]].
  apply keeps_bind; [apply _ | | intros X_train_scaled].
  { unfold scaler_fit_transform.
    apply keeps_bind; [apply _ | apply keeps_lift, _ | intros p].
    apply keeps_bind; [apply _ | by apply Hmod | intros _].
    apply keeps_lift, _. }
  apply keeps_bind; [apply _ | apply keeps_gets, _ | intros sc].
  apply keeps_bind; [apply _ | apply keeps_lift, _ | intros X_test_scaled].
  apply keeps_bind; [apply _ | by apply Hmod | intros _].
  apply keeps_bind; [apply _ | apply keeps_lift, _ | intros [Xb yb]].
  apply keeps_bind; [apply _ | apply keeps_lift, _ | intros [booster imps]].
  apply keeps_bind; [apply _ | by apply Hmod | intros _].
  apply keeps_bind; [apply _ | by apply Hmod | intros _].
  apply keeps_bind; [apply _ | | intros _; apply keeps_gets, _].
  intros s. apply same_encoders_kept. apply _evaluate_models_keeps.
Qed.

(** X1.  A label encoder, once stored in the detector, is never refitted,
    replaced or removed: preprocessing, [predict] and [train] leave it as it
    is, whether they return or raise. *)
Theorem fitted_encoders_are_frozen cv ext (s : FraudDetector) (f : string) (le : LabelEncoder) :
  label_encoders s !! f = Some le →
  (∀ df, label_encoders (preprocess_data cv df s).2 !! f = Some le) ∧
  (∀ td, label_encoders (predict cv td s).2 !! f = Some le) ∧
  (∀ df, label_encoders (train cv ext df s).2 !! f = Some le).
Proof.
  intros H. split_and!.
  - intros df. by apply preprocess_data_encoders_kept.
  - intros td. rewrite predict_state. by apply preprocess_data_encoders_kept.
  - intros df. by apply train_encoders_kept.
Qed.

Lemma fitted_encoders_are_frozen_witness :
  label_encoders (predict cv0 (inl tx_unseen) trained0).2 !! "device_type"
    = Some ["desktop"; "mobile"] ∧
  label_encoders (train cv0 ext0 df0 trained0).2 !! "device_type"
    = Some ["desktop"; "mobile"].
Proof.
  destruct (fitted_encoders_are_frozen cv0 ext0 trained0 "device_type" ["desktop"; "mobile"])
    as (_ & Hp & Ht); [vm_compute; reflexivity | ].
  split; [apply Hp | apply Ht].
Defined.

(** X2.  [predict] returns no score while the scaler, the classifier or the
    forest is unfitted: it raises for every input. *)
Theorem predict_needs_every_estimator cv (td : transaction + DataFrame) (s : FraudDetector) :
  scaler s = None ∨ xgb_model s = None ∨ isolation_forest s = None →
  ∃ e, (predict cv td s).1 = Raise e.
Proof.
  intros Hmissing.
  destruct (predict cv td s) as [[res|e] s'] eqn:H; [ | by exists e].
  pose proof (predict_keeps cv td s) as (Hxgb & Hforest & Hsc & _).
  rewrite H in Hxgb, Hforest, Hsc. simpl in *.
  apply predict_Ok in H as (X & data & rows & p & g & r0 & _ & Ht & Hp & Hg & _).
  rewrite Hsc in Ht. rewrite Hxgb in Hp. rewrite Hforest in Hg.
  destruct Hmissing as [Hm | [Hm | Hm]]; rewrite Hm in *; done.
Qed.

Lemma predict_needs_every_estimator_witness :
  ∃ e, (predict cv0 (inl tx0) (set_xgb_model None trained0)).1 = Raise e.
Proof.
  apply (predict_needs_every_estimator cv0 (inl tx0) (set_xgb_model None trained0)).
  right. left. reflexivity.
Defined.

(** ** Fitting the encoders *)

Lemma elem_of_insert_sorted (x s : string) (l : list string) :
  x ∈ insert_sorted s l ↔ x = s ∨ x ∈ l.
Proof.
  induction l as [|y l IH]; simpl.
  - rewrite list_elem_of_singleton. split; [by left | intros [? | H]; [done | by apply elem_of_nil in H]].
  - destruct (String.compare s y) eqn:E.
    + apply String.compare_eq_iff in E as ->. rewrite elem_of_cons. tauto.
    + rewrite !elem_of_cons. tauto.
    + rewrite !elem_of_cons, IH. tauto.
Qed.

Lemma elem_of_le_fit (x : string) (y : list string) : x ∈ le_fit y ↔ x ∈ y.
Proof.
  unfold le_fit. induction y as [|s y IH]; simpl; [done | ].
  by rewrite elem_of_insert_sorted, elem_of_cons, IH.
Qed.

Lemma traverse_Ok_intro {A B} (f : A → result B) (l : list A) :
  (∀ x, x ∈ l → ∃ y, f x = Ok y) → ∃ ys, traverse f l = Ok ys ∧ length ys = length l.
Proof.
  induction l as [|x l IH]; intros H; simpl; [by exists [] | ].
  destruct (H x) as [y ->]; [by left | ].
  destruct IH as (ys & -> & Hlen); [intros x' Hx'; apply H; by right | ].
  exists (y :: ys). simpl. by rewrite Hlen.
Qed.

(** An encoder has a code for every label it was fitted on. *)
Lemma le_transform_fit (y : list string) :
  ∃ codes, le_transform (le_fit y) y = Ok codes ∧ length codes = length y.
Proof.
  apply traverse_Ok_intro. intros x Hx. unfold le_encode.
  destruct (index_of x (le_fit y)) as [i|] eqn:E; [by eexists | ].
  apply index_of_None in E. by rewrite elem_of_le_fit in E.
Qed.

Lemma encode_features_fresh cv (fs : list string) (data : DataFrame) (s : FraudDetector) :
  NoDup fs → apart fs →
  (∀ f, f ∈ fs → label_encoders s !! f = None) →
  ∃ data' s',
    encode_features cv fs data s = (Ok data', s') ∧
    (∀ k, k ∉ ((λ f, f +:+ "_encoded") <$> fs) → columns data' !! k = columns data !! k) ∧
    (∀ f (col : Series), f ∈ fs → columns data !! f = Some col →
       label_encoders s' !! f = Some (le_fit (astype_str cv <$> col))).
Proof.
  revert data s. induction fs as [|f fs IH]; intros data s Hnodup Hapart Hnone.
  { exists data, s. split_and!; [done | done | ]. intros f col Hf. by apply elem_of_nil in Hf. }
  apply NoDup_cons in Hnodup as [Hf Hnodup].
  simpl. unfold mbind at 1, M_bind at 1.
  assert (∃ data1 s1, encode_feature cv f data s = (Ok data1, s1) ∧
            (∀ k, k ≠ f +:+ "_encoded" → columns data1 !! k = columns data !! k) ∧
            (∀ g, g ≠ f → label_encoders s1 !! g = label_encoders s !! g) ∧
            (∀ col : Series, columns data !! f = Some col →
               label_encoders s1 !! f = Some (le_fit (astype_str cv <$> col))))
    as (data1 & s1 & -> & Hcols & Hencs & Hnew).
  { unfold encode_feature.
    match goal with
    | |- context [match ?c with Some _ => _ | None => _ end] => destruct c as [col|] eqn:Ecol
    end.
    - unfold mbind, M_bind, mret, M_ret, gets, lift, modify. cbv beta iota.
      match goal with
      | |- context [match ?c with Some _ => _ | None => _ end] =>
          replace c with (@None LabelEncoder) by (symmetry; apply Hnone; by left)
      end.
      cbv beta iota zeta.
      destruct (le_transform_fit (astype_str cv <$> col)) as (codes & -> & _).
      eexists _, _. split_and!; [done | | | ]; simpl.
      + intros k Hk. by rewrite lookup_insert_ne.
      + intros g Hg. by rewrite lookup_insert_ne.
      + intros col' Hcol'. rewrite lookup_insert_eq. do 3 f_equal.
        assert (Some col' = Some col) as [= ->]; [ | done].
        rewrite <- Hcol'. exact Ecol.
    - exists data, s. split_and!; [done | done | done | ].
      intros col' Hcol'. exfalso.
      assert (@None Series = Some col') as [=]. rewrite <- Hcol'. symmetry. exact Ecol. }
  destruct (IH data1 s1) as (data' & s' & Hrun & Hcols' & Hencs'); [done | by eapply apart_cons | | ].
  { intros g Hg. rewrite Hencs; [apply Hnone; by right | by intros ->]. }
  exists data', s'. split_and!; [done | | ].
  - intros k Hk. apply not_elem_of_cons in Hk as [Hk1 Hk2].
    by rewrite Hcols', Hcols.
  - intros g col [-> | Hg]%elem_of_cons Hcol.
    + pose proof (encode_features_encoders_kept cv fs data1 s1) as Hkept.
      rewrite Hrun in Hkept. apply Hkept. by apply Hnew.
    + apply Hencs'; [done | ]. rewrite Hcols; [done | ].
      apply Hapart; [by left | by right].
Qed.

Lemma CATEGORICAL_FEATURES_NoDup : NoDup CATEGORICAL_FEATURES.
Proof. apply (bool_decide_unpack _). vm_compute. exact I. Qed.

Lemma encoded_not_categorical (f : string) :
  f ∈ CATEGORICAL_FEATURES → f ∉ ((λ f, f +:+ "_encoded") <$> CATEGORICAL_FEATURES).
Proof.
  intros Hf Hin. apply list_elem_of_fmap in Hin as (g & -> & Hg).
  by apply (CATEGORICAL_FEATURES_apart g (g +:+ "_encoded")).
Qed.

(** X3.  On a detector with no encoder for the categorical attributes,
    preprocessing never fails in the encoding loop: whenever feature
    engineering passes it returns, and it has stored, for each categorical
    column of the frame, an encoder fitted on the text of that column. *)
Theorem preprocess_data_fits_missing_encoders cv (df data : DataFrame) (s : FraudDetector) :
  (∀ f, f ∈ CATEGORICAL_FEATURES → label_encoders s !! f = None) →
  engineer cv df = Ok data →
  ∃ X data' s',
    preprocess_data cv df s = (Ok (X, data'), s') ∧
    (∀ f (col : Series), f ∈ CATEGORICAL_FEATURES → columns df !! f = Some col →
       label_encoders s' !! f = Some (le_fit (astype_str cv <$> col))).
Proof.
  intros Hnone Heng.
  destruct (encode_features_fresh cv CATEGORICAL_FEATURES data s)
    as (data' & s' & Hrun & _ & Hencs);
    [apply CATEGORICAL_FEATURES_NoDup | apply CATEGORICAL_FEATURES_apart | done | ].
  eexists _, data', s'. split.
  - unfold preprocess_data, lift. rewrite Heng.
    erewrite bind_Ok_intro by reflexivity.
    erewrite bind_Ok_intro by exact Hrun. reflexivity.
  - intros f col Hf Hcol. apply Hencs; [done | ].
    rewrite <- Hcol. apply (engineer_columns cv df data f Heng).
    by apply categorical_not_engineered.
Qed.

Lemma preprocess_data_fits_missing_encoders_witness :
  ∃ X data' s',
    preprocess_data cv0 df0 __init__ = (Ok (X, data'), s') ∧
    (∀ f (col : Series), f ∈ CATEGORICAL_FEATURES → columns df0 !! f = Some col →
       label_encoders s' !! f = Some (le_fit (astype_str cv0 <$> col))).
Proof.
  assert (∃ data, engineer cv0 df0 = Ok data) as [data Heng]
    by (eexists; vm_compute; reflexivity).
  apply (preprocess_data_fits_missing_encoders cv0 df0 data __init__); [ | exact Heng].
  intros f _. reflexivity.
Defined.

(** ** What [predict] stores *)

Lemma encode_features_app cv (l1 l2 : list string) (data : DataFrame) (s : FraudDetector) :
  encode_features cv (l1 ++ l2) data s
  = (encode_features cv l1 data ≫= encode_features cv l2) s.
Proof.
  revert data s. induction l1 as [|g l1 IH]; intros data s; [reflexivity | ].
  cbn [app encode_features]. unfold mbind, M_bind in IH |- *.
  destruct (encode_feature cv g data s) as [[d|e] s1]; [apply IH | reflexivity].
Qed.

Lemma preprocess_data_state cv (df data0 : DataFrame) (s : FraudDetector) :
  engineer cv df = Ok data0 →
  (preprocess_data cv df s).2 = (encode_features cv CATEGORICAL_FEATURES data0 s).2.
Proof.
  intros Heng. unfold preprocess_data, lift. rewrite Heng.
  erewrite bind_Ok_intro by reflexivity.
  unfold mbind, M_bind.
  by destruct (encode_features cv CATEGORICAL_FEATURES data0 s) as [[d|e] s1].
Qed.

(** The loop fits an encoder for an attribute that has none as soon as it
    reaches that attribute, and the encoder stays whatever follows. *)
Lemma encode_features_reaches cv (pre post : list string) (f : string) (col : Series)
    (data data1 : DataFrame) (s s1 : FraudDetector) :
  apart (pre ++ f :: post) → f ∉ pre →
  encode_features cv pre data s = (Ok data1, s1) →
  columns data !! f = Some col →
  label_encoders s !! f = None →
  label_encoders (encode_features cv (pre ++ f :: post) data s).2 !! f
  = Some (le_fit (astype_str cv <$> col)).
Proof.
  revert data s. induction pre as [|g pre IH]; intros data s Hapart Hf Hpre Hcol Hnone.
  - cbn [app encode_features]. unfold mbind at 1, M_bind at 1.
    assert (label_encoders (encode_feature cv f data s).2 !! f
            = Some (le_fit (astype_str cv <$> col))) as Hfit.
    { unfold encode_feature.
      match goal with
      | |- context [match ?c with Some _ => _ | None => _ end] =>
          replace c with (Some col) by (symmetry; exact Hcol)
      end.
      unfold mbind, M_bind, mret, M_ret, gets, lift, modify. cbv beta iota.
      match goal with
      | |- context [match ?c with Some _ => _ | None => _ end] =>
          replace c with (@None LabelEncoder) by (symmetry; exact Hnone)
      end.
      cbv beta iota zeta.
      destruct (le_transform _ _) as [codes|e]; cbn [snd label_encoders set_label_encoders];
        apply lookup_insert_eq. }
    destruct (encode_feature cv f data s) as [[d|e] s2]; cbn [snd] in Hfit |- *; [ | exact Hfit].
    by apply (encode_features_encoders_kept cv post d s2).
  - cbn [app encode_features] in Hpre |- *.
    apply bind_Ok in Hpre as (d & s2 & Hg & Hrest).
    rewrite (bind_Ok_intro _ _ _ _ _ Hg).
    apply not_elem_of_cons in Hf as [Hfg Hf].
    apply IH; [by eapply apart_cons | exact Hf | exact Hrest | | ].
    + rewrite (encode_feature_columns _ _ _ _ _ _ f Hg); [exact Hcol | ].
      apply Hapart; [by left | right; apply elem_of_app; right; by left].
    + pose proof (encode_feature_encoders cv g data s f Hfg) as Henc.
      rewrite Hg in Henc. cbn [snd] in Henc. by rewrite Henc.
Qed.

(** C9 (as the code has it).  [predict] never touches the scaler, the
    classifier, the anomaly scorer, the metrics or the importances, whether
    it returns or raises; it leaves the label encoders as they were whenever
    every categorical attribute present in the input already has an encoder.
    Where one is missing, the loop of [preprocess_data] fits it on the input
    and stores it as soon as it reaches that attribute, that is when feature
    engineering and the encoding of the attributes before it have passed,
    and it stays stored whatever [predict] does next; when the encoding of
    an earlier attribute raises, [predict] raises the same exception and the
    later attributes are not visited. *)
Theorem predict_fitted_state cv (td : transaction + DataFrame) (s : FraudDetector) :
  same_estimators s (predict cv td s).2 ∧
  ((∀ f, f ∈ CATEGORICAL_FEATURES →
         is_Some (columns (frame_of td) !! f) → is_Some (label_encoders s !! f)) →
   (predict cv td s).2 = s) ∧
  (∀ f pre post col data0 data1 s1,
     CATEGORICAL_FEATURES = (pre ++ f :: post)%list →
     engineer cv (frame_of td) = Ok data0 →
     encode_features cv pre data0 s = (Ok data1, s1) →
     columns (frame_of td) !! f = Some col →
     label_encoders s !! f = None →
     label_encoders (predict cv td s).2 !! f = Some (le_fit (astype_str cv <$> col))) ∧
  (∀ pre post e data0 s1,
     CATEGORICAL_FEATURES = (pre ++ post)%list →
     engineer cv (frame_of td) = Ok data0 →
     encode_features cv pre data0 s = (Raise e, s1) →
     predict cv td s = (Raise e, s1)).
Proof.
  split_and!; [apply predict_keeps | apply predict_unchanged | | ].
  - intros f pre post col data0 data1 s1 Hsplit Heng Hpre Hcol Hnone.
    rewrite predict_state, (preprocess_data_state cv _ data0 s Heng), Hsplit.
    pose proof CATEGORICAL_FEATURES_apart as Hapart.
    assert (NoDup CATEGORICAL_FEATURES) as Hnodup
      by (apply (bool_decide_unpack _); vm_compute; exact I).
    rewrite Hsplit in Hapart, Hnodup.
    apply NoDup_app in Hnodup as (_ & Hdisj & _).
    apply (encode_features_reaches cv pre post f col data0 data1 s s1);
      [exact Hapart | | exact Hpre | | exact Hnone].
    + intros Hin. apply (Hdisj f Hin). by left.
    + etrans; [ | exact Hcol]. apply (engineer_columns cv _ _ f Heng).
      apply categorical_not_engineered. rewrite Hsplit. apply elem_of_app. right. by left.
  - intros pre post e data0 s1 Hsplit Heng Hpre.
    unfold predict. cbv zeta. apply bind_Raise_intro.
    unfold preprocess_data, lift. rewrite Heng.
    erewrite bind_Ok_intro by reflexivity.
    apply bind_Raise_intro. rewrite Hsplit, encode_features_app.
    by apply bind_Raise_intro.
Qed.

Lemma predict_fitted_state_witness :
  same_estimators trained0 (predict cv0 (inl tx0) trained0).2 ∧
  (predict cv0 (inl tx0) trained0).2 = trained0 ∧
  label_encoders __init__ !! "device_type" = None ∧
  label_encoders (predict cv0 (inl tx0) __init__).2 !! "device_type" = Some ["mobile"].
Proof.
  destruct (predict_fitted_state cv0 (inl tx0) trained0) as (Hsame & Heq & _).
  split; [exact Hsame | ].
  split; [apply Heq; intros f Hf _; by apply trained0_encoders | ].
  split; [reflexivity | ].
  destruct (predict_fitted_state cv0 (inl tx0) __init__) as (_ & _ & Hfit & _).
  assert (∃ data0, engineer cv0 (frame_of (inl tx0)) = Ok data0) as [data0 Heng]
    by (eexists; vm_compute; reflexivity).
  destruct (encode_feature cv0 "merchant_category" data0 __init__) as [[data1|e] s1] eqn:Hm.
  - apply (Hfit "device_type" ["merchant_category"] ["payment_method"] [Str "mobile"]
             data0 data1 s1); [reflexivity | exact Heng | | reflexivity | reflexivity].
    cbn [encode_features]. by rewrite (bind_Ok_intro _ _ _ _ _ Hm).
  - exfalso.
    pose proof (encode_features_fresh cv0 ["merchant_category"] data0 __init__) as Hfresh.
    destruct Hfresh as (d & s' & Hrun & _).
    + apply NoDup_singleton.
    + intros f g Hf%list_elem_of_singleton Hg%list_elem_of_singleton. subst. discriminate.
    + intros f _. reflexivity.
    + cbn [encode_features] in Hrun. rewrite (bind_Raise_intro _ _ _ _ _ Hm) in Hrun.
      discriminate Hrun.
Defined.

(** C9 fails as stated: on a detector as constructed, the call raises
    [NotFittedError] and has by then stored an encoder fitted on the very
    record it was given. *)
Lemma predict_fits_missing_encoder :
  (predict cv0 (inl tx0) __init__).1 = Raise NotFittedError ∧
  label_encoders __init__ !! "merchant_category" = None ∧
  label_encoders (predict cv0 (inl tx0) __init__).2 !! "merchant_category" = Some ["grocery"].
Proof. split_and!; vm_compute; reflexivity. Qed.

(** ** Evaluation *)

Lemma Rdiv_unit (x y : R) : (0 <= x <= y)%R → (0 < y)%R → (0 <= x / y <= 1)%R.
Proof.
  intros Hx Hy. unfold Rdiv.
  pose proof (Rinv_0_lt_compat y Hy). assert (y * / y = 1)%R by (apply Rinv_r; lra).
  split; nra.
Qed.

Lemma ratio_unit (a b : nat) :
  (0 <= (if decide (0 < a + b)%nat then INR a / INR (a + b) else 0) <= 1)%R.
Proof.
  case_decide as H; [ | lra].
  apply Rdiv_unit.
  - split; [apply pos_INR | apply le_INR; lia].
  - by apply lt_0_INR.
Qed.

Lemma f1_unit (p r : R) :
  (0 <= p <= 1)%R → (0 <= r <= 1)%R →
  (0 <= (if decide (0 < p + r)%R then 2 * (p * r) / (p + r) else 0) <= 1)%R.
Proof.
  intros Hp Hr. case_decide as H; [ | lra].
  apply Rdiv_unit; [nra | done].
Qed.

Lemma evaluate_one_inv cv ext (name : string) (y : Series) (pred proba : list R)
    (s s' : FraudDetector) (u : unit) :
  evaluate_one cv ext name y pred proba s = (Ok u, s') →
  ∃ m, s' = set_performance_metrics <[name := m]> s ∧ proportions m ∧
       roc_auc_score ext y proba = Ok (auc m).
Proof.
  unfold evaluate_one. intros H.
  apply bind_Ok in H as (a & ? & [= Hauc <-] & H).
  apply bind_Ok in H as (yt & ? & [= Hyt <-] & H).
  apply bind_Ok in H as ([[[tn fp] fn] tp] & ? & [= Hc <-] & H).
  cbv zeta in H. injection H as <- <-.
  eexists. split; [reflexivity | ]. split; [ | done].
  repeat split; simpl; try apply ratio_unit; apply f1_unit; apply ratio_unit.
Qed.

Lemma _evaluate_models_inv cv ext (X : list (list R)) (y : Series) (iso : list R)
    (s s' : FraudDetector) (u : unit) :
  _evaluate_models cv ext X y iso s = (Ok u, s') →
  same_but_metrics s s' ∧
  ∀ name, name ∈ model_names → ∃ m, performance_metrics s' !! name = Some m ∧ proportions m.
Proof.
  intros H. split.
  { pose proof (_evaluate_models_keeps cv ext X y iso s) as Hk. by rewrite H in Hk. }
  unfold _evaluate_models in H.
  apply bind_Ok in H as (xgb & ? & [= <- <-] & H).
  apply bind_Ok in H as (proba & ? & [= Hproba <-] & H).
  cbv zeta in H.
  apply bind_Ok in H as ([] & s0 & H0 & H).
  assert (s0 = s) as -> by (case_decide; [discriminate H0 | by injection H0]).
  apply bind_Ok in H as ([] & s1 & H1 & H).
  apply bind_Ok in H as ([] & s2 & H2 & H3).
  apply evaluate_one_inv in H1 as (m1 & -> & Hm1 & _).
  apply evaluate_one_inv in H2 as (m2 & -> & Hm2 & _).
  apply evaluate_one_inv in H3 as (m3 & -> & Hm3 & _).
  intros name Hname. unfold model_names in Hname.
  repeat (apply elem_of_cons in Hname as [-> | Hname]); [ | | | by apply elem_of_nil in Hname].
  - exists m1. split; [ | done]. simpl.
    rewrite lookup_insert_ne by done. rewrite lookup_insert_ne by done. apply lookup_insert_eq.
  - exists m2. split; [ | done]. simpl.
    rewrite lookup_insert_ne by done. apply lookup_insert_eq.
  - exists m3. split; [ | done]. simpl. apply lookup_insert_eq.
Qed.

(** ** What [train] leaves behind *)

Lemma encode_feature_has_encoder cv f data s data' s' :
  encode_feature cv f data s = (Ok data', s') →
  is_Some (columns data !! f) → is_Some (label_encoders s' !! f).
Proof.
  unfold encode_feature. intros H Hcol.
  match type of H with
  | context [match ?c with Some _ => _ | None => _ end] => destruct c as [col|] eqn:Ecol
  end.
  2: { exfalso. destruct Hcol as [col Hcol].
       assert (@None Series = Some col) as [=]. rewrite <- Hcol. symmetry. exact Ecol. }
  unfold mbind, M_bind, mret, M_ret, gets, lift, modify in H. cbv beta iota in H.
  destruct (label_encoders s !! f) as [le|] eqn:Ele; cbv beta iota zeta in H;
    destruct (le_transform _ _) as [codes|e]; try discriminate H; injection H as <- <-.
  - by rewrite Ele.
  - simpl. by rewrite lookup_insert_eq.
Qed.



Lemma train_inv cv ext (df : DataFrame) (s s' : FraudDetector) (metrics : gmap string Metrics) :
  train cv ext df s = (Ok metrics, s') →
  ∃ X data s1 y X_train X_test y_train y_test p Xs Xt booster imps,
    preprocess_data cv df s = (Ok (X, data), s1) ∧
    getcol df "is_fraud" = Ok y ∧
    train_test_split ext X y = Ok (X_train, X_test, y_train, y_test) ∧
    scaler_fit cv X_train = Ok p ∧
    _evaluate_models cv ext Xt y_test (iforest_fit ext Xs <$> Xt)
      (set_feature_importance (list_to_map (reverse (zip (X_names X) imps)))
         (set_xgb_model (Some booster)
            (set_isolation_forest (Some (iforest_fit ext Xs)) (set_scaler (Some p) s1))))
      = (Ok tt, s') ∧
    metrics = performance_metrics s'.
Proof.
  unfold train. intros H.
  apply bind_Ok in H as ([X data] & s1 & Hpre & H).
  apply bind_Ok in H as (y & ? & [= Hy <-] & H).
  apply bind_Ok in H as ([[[X_train X_test] y_train] y_test] & ? & [= Hsplit <-] & H).
  apply bind_Ok in H as (Xs & s3 & Hfit & H).
  unfold scaler_fit_transform in Hfit.
  apply bind_Ok in Hfit as (p & ? & [= Hp <-] & Hfit).
  apply bind_Ok in Hfit as ([] & ? & [= <-] & [= Htrain <-]).
  apply bind_Ok in H as (sc & ? & [= <- <-] & H).
  apply bind_Ok in H as (Xt & ? & [= Htest <-] & H).
  cbv zeta in H.
  apply bind_Ok in H as ([] & ? & [= <-] & H).
  apply bind_Ok in H as ([Xb yb] & ? & [= Hsmote <-] & H).
  apply bind_Ok in H as ([booster imps] & ? & [= Hxgb <-] & H).
  apply bind_Ok in H as ([] & ? & [= <-] & H).
  apply bind_Ok in H as ([] & ? & [= <-] & H).
  apply bind_Ok in H as ([] & s4 & Heval & [= <- <-]).
  by exists X, data, s1, y, X_train, X_test, y_train, y_test, p, Xs, Xt, booster, imps.
Qed.



(** X5.  When [train] returns, what it returns is [performance_metrics],
    which holds an entry for each of the three strategies, whose precision,
    recall, F1 and specificity lie between 0 and 1. *)
Theorem train_reports_three_strategies cv ext (df : DataFrame) (s s' : FraudDetector)
    (metrics : gmap string Metrics) :
  train cv ext df s = (Ok metrics, s') →
  metrics = performance_metrics s' ∧
  ∀ name, name ∈ model_names → ∃ m, metrics !! name = Some m ∧ proportions m.
Proof.
  intros H.
  apply train_inv in H as (X & data & s1 & y & X_train & X_test & y_train & y_test & p & Xs &
    Xt & booster & imps & _ & _ & _ & _ & Heval & ->).
  split; [done | ]. by apply _evaluate_models_inv in Heval as [_ Hnames].
Qed.

Lemma train_reports_three_strategies_witness :
  ∃ metrics s',
    train cv0 ext0 df0 __init__ = (Ok metrics, s') ∧
    metrics = performance_metrics s' ∧
    ∀ name, name ∈ model_names → ∃ m, metrics !! name = Some m ∧ proportions m.
Proof.
  destruct train_returns as (metrics & s' & H).
  exists metrics, s'. split; [exact H | ].
  exact (train_reports_three_strategies cv0 ext0 df0 __init__ s' metrics H).
Defined.

(** X6.  On a history without the column ['is_fraud'], [train] raises and
    fits no estimator; when preprocessing passes, the exception is
    [KeyError: 'is_fraud'] and the encoders fitted by preprocessing stay. *)
Theorem train_without_labels cv ext (df : DataFrame) (s : FraudDetector) :
  columns df !! "is_fraud" = None →
  ∃ e s',
    train cv ext df s = (Raise e, s') ∧
    same_estimators s s' ∧
    (∀ X data s1, preprocess_data cv df s = (Ok (X, data), s1) →
                  e = KeyError "is_fraud" ∧ s' = s1).
Proof.
  intros Hcol. unfold train.
  pose proof (preprocess_data_keeps cv df s) as Hkeeps.
  destruct (preprocess_data cv df s) as [[[X data]|e] s1] eqn:Hpre.
  - exists (KeyError "is_fraud"), s1. split_and!; [ | done | by intros ? ? ? [= _ _ <-]].
    rewrite (bind_Ok_intro _ _ _ _ _ Hpre).
    apply bind_Raise_intro. unfold lift, getcol. by rewrite Hcol.
  - exists e, s1. split_and!; [by apply bind_Raise_intro | done | by intros ? ? ? [=]].
Qed.

Lemma train_without_labels_witness :
  ∃ s',
    train cv0 ext0 df_unlabelled __init__ = (Raise (KeyError "is_fraud"), s') ∧
    same_estimators __init__ s' ∧
    is_Some (label_encoders s' !! "merchant_category").
Proof.
  destruct (train_without_labels cv0 ext0 df_unlabelled __init__)
    as (e & s' & Hrun & Hsame & He); [vm_compute; reflexivity | ].
  assert (∃ X data s1, preprocess_data cv0 df_unlabelled __init__ = (Ok (X, data), s1) ∧
                       is_Some (label_encoders s1 !! "merchant_category"))
    as (X & data & s1 & Hpre & Henc).
  { eexists _, _, _. split; [vm_compute; reflexivity | ]. vm_compute. by eexists. }
  destruct (He X data s1 Hpre) as [-> ->].
  exists s1. split; [exact Hrun | ]. split; [exact Hsame | exact Henc].
Defined.

(** X7.  A failure of [train] is not rolled back: when the oversampler
    raises, [train] raises the same exception and leaves the detector with
    the scaler and the forest fitted on this history next to the classifier
    and the metrics it had before. *)
Theorem train_failure_is_not_rolled_back cv ext (df : DataFrame) (s s1 : FraudDetector)
    (X : XFrame) (data : DataFrame) (y y_train y_test : Series) (X_train X_test : XFrame)
    (p : ScalerParams) (X_train_scaled X_test_scaled : list (list R)) (e : exn) :
  preprocess_data cv df s = (Ok (X, data), s1) →
  getcol df "is_fraud" = Ok y →
  train_test_split ext X y = Ok (X_train, X_test, y_train, y_test) →
  scaler_fit cv X_train = Ok p →
  scaler_transform cv (Some p) X_train = Ok X_train_scaled →
  scaler_transform cv (Some p) X_test = Ok X_test_scaled →
  smote_fit_resample ext X_train_scaled y_train = Raise e →
  ∃ s',
    train cv ext df s = (Raise e, s') ∧
    scaler s' = Some p ∧
    isolation_forest s' = Some (iforest_fit ext X_train_scaled) ∧
    xgb_model s' = xgb_model s ∧
    performance_metrics s' = performance_metrics s.
Proof.
  intros Hpre Hy Hsplit Hp Htrain Htest Hsmote.
  pose proof (preprocess_data_keeps cv df s) as (Hxgb & _ & _ & Hmetrics & _).
  rewrite Hpre in Hxgb, Hmetrics. simpl in Hxgb, Hmetrics.
  exists (set_isolation_forest (Some (iforest_fit ext X_train_scaled)) (set_scaler (Some p) s1)).
  split; [ | done].
  unfold train, lift.
  rewrite (bind_Ok_intro _ _ _ _ _ Hpre). cbv beta iota.
  rewrite Hy. erewrite bind_Ok_intro by reflexivity.
  rewrite Hsplit. erewrite bind_Ok_intro by reflexivity. cbv beta iota.
  erewrite bind_Ok_intro.
  2: { unfold scaler_fit_transform, lift, modify, mbind, M_bind.
       rewrite Hp. cbv beta iota. rewrite Htrain. reflexivity. }
  erewrite bind_Ok_intro by reflexivity.
  cbn [scaler set_scaler]. rewrite Htest.
  erewrite bind_Ok_intro by reflexivity. cbv zeta.
  erewrite bind_Ok_intro by reflexivity.
  rewrite Hsmote. by apply bind_Raise_intro.
Qed.

Lemma train_failure_is_not_rolled_back_witness :
  ∃ p s',
    train cv0 ext_few df0 __init__
      = (Raise (ValueError "Expected n_neighbors <= n_samples_fit"), s') ∧
    scaler s' = Some p ∧ is_Some (isolation_forest s') ∧ xgb_model s' = None.
Proof.
  assert (∃ cols, float_columns cv0 (slice 0 2 X0) = Ok cols) as [cols_train Hcols_train]
    by (eexists; vm_compute; reflexivity).
  assert (∃ cols, float_columns cv0 (slice 2 2 X0) = Ok cols) as [cols_test Hcols_test]
    by (eexists; vm_compute; reflexivity).
  assert (Hnames : X_names (slice 2 2 X0) = X_names (slice 0 2 X0))
    by (vm_compute; reflexivity).
  destruct (scaler_fit_Ok cv0 (slice 0 2 X0) cols_train Hcols_train) as (p & Hp & Hp_names);
    [discriminate | ].
  destruct (scaler_transform_Ok cv0 p (slice 0 2 X0) cols_train) as [X_train_scaled Htrain];
    [done | done | discriminate | ].
  destruct (scaler_transform_Ok cv0 p (slice 2 2 X0) cols_test) as [X_test_scaled Htest];
    [congruence | done | discriminate | ].
  edestruct (train_failure_is_not_rolled_back cv0 ext_few df0 __init__)
    as (s' & Hrun & Hsc & Hforest & Hxgb & _);
    [ exact preprocess_df0 | vm_compute; reflexivity | reflexivity | exact Hp | exact Htrain
    | exact Htest | reflexivity | ].
  exists p, s'. split_and!; [exact Hrun | exact Hsc | by rewrite Hforest | exact Hxgb].
Defined.

(** ** The value of the timestamp *)

Lemma getcol_agree (d1 d2 : DataFrame) (k : string) :
  agree_but_timestamp d1 d2 → k ≠ "timestamp" → getcol d2 k = getcol d1 k.
Proof. intros [_ H] Hk. unfold getcol. by rewrite (H k Hk). Qed.

Lemma setcol_agree (k : string) (v : Series) (d1 d2 : DataFrame) :
  agree_but_timestamp d1 d2 → agree_but_timestamp (setcol k v d1) (setcol k v d2).
Proof.
  intros [Hn H]. split; [done | ]. intros k' Hk'. simpl.
  destruct (decide (k = k')) as [-> | Hne].
  - by rewrite !lookup_insert_eq.
  - rewrite !lookup_insert_ne by done. by apply H.
Qed.

Lemma setcol_timestamp_agree (v1 v2 : Series) (d1 d2 : DataFrame) :
  agree_but_timestamp d1 d2 →
  agree_but_timestamp (setcol "timestamp" v1 d1) (setcol "timestamp" v2 d2).
Proof.
  intros [Hn H]. split; [done | ]. intros k Hk. simpl.
  rewrite !lookup_insert_ne by done. by apply H.
Qed.

Ltac agree_tac H0 :=
  solve [ discriminate
        | repeat apply setcol_agree; apply setcol_timestamp_agree; exact H0 ].

Ltac lockstep H0 :=
  lazymatch goal with
  | |- result_rel _ (match getcol ?d1 ?k with _ => _ end) (match getcol ?d2 ?k with _ => _ end) =>
      rewrite (getcol_agree d1 d2 k) by agree_tac H0;
      destruct (getcol d1 k); [ | reflexivity]
  | |- result_rel _ (match ?r with _ => _ end) (match ?r with _ => _ end) =>
      destruct r; [ | reflexivity]
  end.

Lemma engineer_agree cv (d1 d2 : DataFrame) :
  agree_but_timestamp d1 d2 → timestamp_ok cv d1 → timestamp_ok cv d2 →
  result_rel agree_but_timestamp (engineer cv d1) (engineer cv d2).
Proof.
  intros H0 (ts1 & ts1' & Hg1 & Ht1) (ts2 & ts2' & Hg2 & Ht2).
  unfold engineer, mbind, result_bind. cbv zeta.
  rewrite Hg1, Hg2, Ht1, Ht2.
  repeat lockstep H0.
  unfold result_rel. repeat apply setcol_agree. apply setcol_timestamp_agree. exact H0.
Qed.

Lemma encode_feature_agree cv (f : string) (d1 d2 : DataFrame) (s : FraudDetector) :
  agree_but_timestamp d1 d2 → f ≠ "timestamp" →
  (encode_feature cv f d1 s).2 = (encode_feature cv f d2 s).2 ∧
  result_rel agree_but_timestamp (encode_feature cv f d1 s).1 (encode_feature cv f d2 s).1.
Proof.
  intros H0 Hf. pose proof H0 as [Hn H]. unfold encode_feature.
  repeat match goal with
  | |- context [@lookup ?K ?A ?M ?I f (columns d2)] =>
      replace (@lookup K A M I f (columns d2)) with (@lookup K A M I f (columns d1))
        by exact (H f Hf)
  end.
  case_match; [ | done].
  unfold mbind, M_bind, mret, M_ret, gets, lift, modify. cbv beta iota.
  case_match; cbv beta iota zeta; case_match; simpl; split; try done;
    by apply setcol_agree.
Qed.

Lemma encode_features_agree cv (fs : list string) (d1 d2 : DataFrame) (s : FraudDetector) :
  agree_but_timestamp d1 d2 → "timestamp" ∉ fs →
  (encode_features cv fs d1 s).2 = (encode_features cv fs d2 s).2 ∧
  result_rel agree_but_timestamp (encode_features cv fs d1 s).1 (encode_features cv fs d2 s).1.
Proof.
  revert d1 d2 s. induction fs as [|f fs IH]; intros d1 d2 s H0 Hfs; simpl; [done | ].
  apply not_elem_of_cons in Hfs as [Hf Hfs].
  destruct (encode_feature_agree cv f d1 d2 s H0) as [Hs Hr]; [done | ].
  unfold mbind, M_bind.
  destruct (encode_feature cv f d1 s) as [[d1'|e1] s1], (encode_feature cv f d2 s) as [[d2'|e2] s2];
    simpl in Hs, Hr; subst; try done.
  by apply IH.
Qed.

Lemma filter_present_agree (d1 d2 : DataFrame) (names : list string) :
  agree_but_timestamp d1 d2 → "timestamp" ∉ names →
  filter (λ c, is_Some (columns d1 !! c)) names = filter (λ c, is_Some (columns d2 !! c)) names.
Proof.
  intros [_ H]. induction names as [|n names IH]; intros Hn; [done | ].
  apply not_elem_of_cons in Hn as [Hn Hnames].
  rewrite !filter_cons, (H n) by done. by rewrite IH.
Qed.

Lemma select_agree (d1 d2 : DataFrame) (names : list string) :
  agree_but_timestamp d1 d2 → "timestamp" ∉ names → select d1 names = select d2 names.
Proof.
  intros [Hnrows H] Hn. unfold select. rewrite Hnrows. f_equal.
  induction names as [|n names IH]; [done | ].
  apply not_elem_of_cons in Hn as [Hn Hnames].
  specialize (IH Hnames). simpl. rewrite (H n) by done.
  destruct (columns d2 !! n); simpl; [f_equal | ]; exact IH.
Qed.

Lemma timestamp_not_categorical : "timestamp" ∉ CATEGORICAL_FEATURES.
Proof. apply (bool_decide_unpack _). vm_compute. exact I. Qed.

Lemma preprocess_data_agree cv (d1 d2 : DataFrame) (s : FraudDetector) :
  agree_but_timestamp d1 d2 → timestamp_ok cv d1 → timestamp_ok cv d2 →
  (preprocess_data cv d1 s).2 = (preprocess_data cv d2 s).2 ∧
  result_rel (λ a b, a.1 = b.1) (preprocess_data cv d1 s).1 (preprocess_data cv d2 s).1.
Proof.
  intros H0 Hok1 Hok2. pose proof (engineer_agree cv d1 d2 H0 Hok1 Hok2) as Heng.
  unfold preprocess_data. unfold mbind at 1 3 5 7, M_bind at 1 3 5 7, lift.
  destruct (engineer cv d1) as [e1|x1], (engineer cv d2) as [e2|x2]; simpl in Heng;
    try done; try (subst; done).
  destruct (encode_features_agree cv CATEGORICAL_FEATURES e1 e2 s Heng timestamp_not_categorical)
    as [Hs Hr].
  unfold mbind, M_bind.
  destruct (encode_features cv CATEGORICAL_FEATURES e1 s) as [[a1|x1] s1],
           (encode_features cv CATEGORICAL_FEATURES e2 s) as [[a2|x2] s2];
    simpl in Hs, Hr; subst; try done.
  split; [done | ]. unfold mret, M_ret, result_rel. cbn [fst snd]. cbv zeta.
  assert (Henc : "timestamp" ∉ (λ f, f +:+ "_encoded") <$> CATEGORICAL_FEATURES).
  { apply (bool_decide_unpack _). vm_compute. exact I. }
  rewrite (filter_present_agree a1 a2 ((λ f, f +:+ "_encoded") <$> CATEGORICAL_FEATURES)) by done.
  set (names := (feature_columns ++ _)%list).
  assert (Hnames : "timestamp" ∉ names).
  { intros Hin. apply elem_of_app in Hin as [Hin | Hin].
    - revert Hin. apply (bool_decide_unpack _). vm_compute. exact I.
    - apply list_elem_of_filter in Hin as [_ Hin]. by apply Henc. }
  rewrite (filter_present_agree a1 a2 names) by done.
  apply select_agree; [done | ].
  intros Hin. apply list_elem_of_filter in Hin as [_ Hin]. by apply Hnames.
Qed.

(** X8.  The timestamp has to be there and to be a date, but its value
    plays no part: on two inputs that differ only in their timestamps,
    [predict] gives the same result and the same detector. *)
Theorem predict_ignores_timestamp_value cv (td1 td2 : transaction + DataFrame)
    (s : FraudDetector) :
  agree_but_timestamp (frame_of td1) (frame_of td2) →
  timestamp_ok cv (frame_of td1) → timestamp_ok cv (frame_of td2) →
  predict cv td1 s = predict cv td2 s.
Proof.
  intros H0 Hok1 Hok2.
  destruct (preprocess_data_agree cv _ _ s H0 Hok1 Hok2) as [Hs Hr].
  destruct (preprocess_data cv (frame_of td1) s) as [[[X1 a1]|e1] s1] eqn:E1,
           (preprocess_data cv (frame_of td2) s) as [[[X2 a2]|e2] s2] eqn:E2;
    simpl in Hs, Hr; subst; try done; unfold predict; cbv zeta.
  - by rewrite (bind_Ok_intro _ _ _ _ _ E1), (bind_Ok_intro _ _ _ _ _ E2).
  - by rewrite (bind_Raise_intro _ _ _ _ _ E1), (bind_Raise_intro _ _ _ _ _ E2).
Qed.

Lemma predict_ignores_timestamp_value_witness :
  predict cv0 (inl tx0) trained0 = predict cv0 (inl tx1) trained0.
Proof.
  apply (predict_ignores_timestamp_value cv0 (inl tx0) (inl tx1) trained0).
  - split; [reflexivity | ]. intros k Hk.
    unfold frame_of, DataFrame_of_record, tx0, tx1. cbn [columns].
    by rewrite !fmap_insert, !lookup_insert_ne.
  - eexists _, _. split; vm_compute; reflexivity.
  - eexists _, _. split; vm_compute; reflexivity.
Defined.

(** ** The prediction endpoints *)

Lemma on_detector_Raise {A} (m : M FraudDetector A) (st st' : ApiState) (e : exn)
    (self : FraudDetector) :
  fraud_detector st = Some self →
  on_detector m st = (Raise e, st') →
  ∃ self', m self = (Raise e, self') ∧ fraud_detector st' = Some self' ∧
           api_metrics st' = api_metrics st.
Proof.
  unfold on_detector. intros -> H.
  destruct (m self) as [r self'] eqn:E. injection H as -> <-. by exists self'.
Qed.

Lemma on_detector_metrics {A} (m : M FraudDetector A) (st : ApiState) :
  api_metrics (on_detector m st).2 = api_metrics st.
Proof.
  unfold on_detector. destruct (fraud_detector st) as [self|]; [ | done].
  by destruct (m self).
Qed.

Section Endpoints.

Context (cv : Conversions) (wall_clock : nat → Z).

Lemma predict_fraud_Ok_run (t : TransactionRequest) (st : ApiState)
    (self self' : FraudDetector) (res : PredictionResult) :
  fraud_detector st = Some self →
  predict cv (request_dict wall_clock t st) self = (Ok res, self') →
  ∃ resp st',
    predict_fraud cv wall_clock t st = (Ok resp, st') ∧
    r_transaction_id resp = transaction_id t ∧
    r_fraud_score resp = fraud_score res ∧
    r_xgb_score resp = xgb_score res ∧
    r_isolation_score resp = isolation_score res ∧
    r_risk_level resp = risk_level res ∧
    r_action resp = action res ∧
    r_is_fraud_predicted resp = is_fraud_predicted res ∧
    fraud_detector st' = Some self' ∧
    total_predictions (api_metrics st') = (total_predictions (api_metrics st) + 1)%nat ∧
    total_processing_time (api_metrics st')
      = (total_processing_time (api_metrics st) + r_processing_time_ms resp)%R.
Proof.
  intros Hdet Hrun. unfold request_dict in Hrun.
  remember (inl (<["timestamp" := Stamp (wall_clock (S (clock_reads st)))]> (dict t)))
    as td eqn:Htd.
  unfold predict_fraud.
  unfold mbind, M_bind, mret, M_ret, gets, raise, try_500, time_time, datetime_now,
    update_metrics, modify, on_detector.
  cbn [fraud_detector tick clock_reads api_metrics set_api_metrics fst snd].
  rewrite Hdet. cbv beta iota zeta.
  cbn [fraud_detector tick clock_reads api_metrics set_api_metrics fst snd].
  rewrite Hdet, <- Htd, Hrun.
  eexists _, _. split; [reflexivity | ]. split_and!; reflexivity.
Qed.

Lemma predict_fraud_Raise_run (t : TransactionRequest) (st : ApiState)
    (self self' : FraudDetector) (e : exn) :
  fraud_detector st = Some self →
  predict cv (request_dict wall_clock t st) self = (Raise e, self') →
  ∃ st',
    predict_fraud cv wall_clock t st
      = (Raise (HTTPException 500 ("Erreur de prédiction: " +:+ str_exn e)), st') ∧
    fraud_detector st' = Some self' ∧
    api_metrics st' = api_metrics st.
Proof.
  intros Hdet Hrun. unfold request_dict in Hrun.
  remember (inl (<["timestamp" := Stamp (wall_clock (S (clock_reads st)))]> (dict t)))
    as td eqn:Htd.
  unfold predict_fraud.
  unfold mbind, M_bind, mret, M_ret, gets, raise, try_500, time_time, datetime_now,
    update_metrics, modify, on_detector.
  cbn [fraud_detector tick clock_reads api_metrics set_api_metrics fst snd].
  rewrite Hdet. cbv beta iota zeta.
  cbn [fraud_detector tick clock_reads api_metrics set_api_metrics fst snd].
  rewrite Hdet, <- Htd, Hrun.
  eexists. split; [reflexivity | ]. split; reflexivity.
Qed.

(** X9.  Whenever [POST /predict] answers, a detector was in place and
    returned a result for the request stamped with the time of the call; the
    answer carries the request's identifier and the scores, level, action
    and verdict of that result, and the API counters have grown by one
    prediction and by the processing time reported. *)
Theorem predict_fraud_response (t : TransactionRequest) (st st' : ApiState)
    (resp : PredictionResponse) :
  predict_fraud cv wall_clock t st = (Ok resp, st') →
  ∃ self res self',
    fraud_detector st = Some self ∧
    predict cv (request_dict wall_clock t st) self = (Ok res, self') ∧
    fraud_detector st' = Some self' ∧
    r_transaction_id resp = transaction_id t ∧
    r_fraud_score resp = fraud_score res ∧
    r_xgb_score resp = xgb_score res ∧
    r_isolation_score resp = isolation_score res ∧
    r_risk_level resp = risk_level res ∧
    r_action resp = action res ∧
    r_is_fraud_predicted resp = is_fraud_predicted res ∧
    total_predictions (api_metrics st') = (total_predictions (api_metrics st) + 1)%nat ∧
    total_processing_time (api_metrics st')
      = (total_processing_time (api_metrics st) + r_processing_time_ms resp)%R.
Proof.
  intros H.
  destruct (fraud_detector st) as [self|] eqn:Hdet.
  - destruct (predict cv (request_dict wall_clock t st) self) as [[res|e] self'] eqn:Hrun.
    + destruct (predict_fraud_Ok_run t st self self' res Hdet Hrun)
        as (resp' & st'' & Hrun' & Hfields).
      rewrite Hrun' in H. injection H as <- <-.
      exists self, res, self'. destruct Hfields as (? & ? & ? & ? & ? & ? & ? & ? & ? & ?).
      split_and!; done.
    + destruct (predict_fraud_Raise_run t st self self' e Hdet Hrun)
        as (st'' & Hrun' & _).
      rewrite Hrun' in H. discriminate H.
  - unfold predict_fraud in H. unfold mbind at 1, M_bind at 1, gets at 1 in H.
    rewrite Hdet in H. discriminate H.
Qed.

(** X10.  [POST /predict] fails in two ways only.  Without a detector it
    answers 503 and touches nothing, not even the clock.  Otherwise
    [predict] raised: the answer is 500, its detail is the text of that
    exception after the prefix, and the API counters are left as they
    were. *)
Theorem predict_fraud_errors (t : TransactionRequest) (st st' : ApiState) (e : exn) :
  predict_fraud cv wall_clock t st = (Raise e, st') →
  (fraud_detector st = None ∧ e = HTTPException 503 "Modèle non chargé" ∧ st' = st) ∨
  (∃ self cause self',
     fraud_detector st = Some self ∧
     predict cv (request_dict wall_clock t st) self = (Raise cause, self') ∧
     e = HTTPException 500 ("Erreur de prédiction: " +:+ str_exn cause) ∧
     fraud_detector st' = Some self' ∧
     api_metrics st' = api_metrics st).
Proof.
  intros H.
  destruct (fraud_detector st) as [self|] eqn:Hdet.
  - right.
    destruct (predict cv (request_dict wall_clock t st) self) as [[res|cause] self'] eqn:Hrun.
    + destruct (predict_fraud_Ok_run t st self self' res Hdet Hrun)
        as (resp' & st'' & Hrun' & _).
      rewrite Hrun' in H. discriminate H.
    + destruct (predict_fraud_Raise_run t st self self' cause Hdet Hrun)
        as (st'' & Hrun' & Hdet' & Hm).
      rewrite Hrun' in H. injection H as <- <-.
      exists self, cause, self'. split_and!; done.
  - left. unfold predict_fraud in H. unfold mbind at 1, M_bind at 1, gets at 1 in H.
    rewrite Hdet in H. injection H as <- <-. done.
Qed.

End Endpoints.

Lemma predict_fraud_response_witness :
  ∃ resp st' res self',
    predict_fraud cv0 clock0 request0 serving0 = (Ok resp, st') ∧
    predict cv0 (request_dict clock0 request0 serving0) trained0 = (Ok res, self') ∧
    r_fraud_score resp = fraud_score res ∧
    total_predictions (api_metrics st') = 1%nat.
Proof.
  assert (∃ resp st', predict_fraud cv0 clock0 request0 serving0 = (Ok resp, st'))
    as (resp & st' & H) by (eexists _, _; vm_compute; reflexivity).
  destruct (predict_fraud_response cv0 clock0 request0 serving0 st' resp H)
    as (self & res & self' & Hdet & Hrun & _ & _ & Hscore & _ & _ & _ & _ & _ & Hn & _).
  injection Hdet as <-.
  exists resp, st', res, self'. split_and!; done.
Defined.

Lemma predict_fraud_errors_witness :
  ∃ st',
    predict_fraud cv0 clock0 request_unseen serving0
      = (Raise (HTTPException 500
           "Erreur de prédiction: y contains previously unseen labels: 'casino'"), st') ∧
    api_metrics st' = metrics0.
Proof.
  assert (∃ e st', predict_fraud cv0 clock0 request_unseen serving0 = (Raise e, st'))
    as (e & st' & H) by (eexists _, _; vm_compute; reflexivity).
  destruct (predict_fraud_errors cv0 clock0 request_unseen serving0 st' e H)
    as [(Hdet & _) | (self & cause & self' & Hdet & Hrun & -> & _ & Hm)];
    [discriminate Hdet | ].
  injection Hdet as <-.
  assert (cause = UnseenLabels "casino") as ->.
  { assert ((predict cv0 (request_dict clock0 request_unseen serving0) trained0).1
            = Raise (UnseenLabels "casino")) as Hc by (vm_compute; reflexivity).
    rewrite Hrun in Hc. by injection Hc. }
  exists st'. split; [exact H | exact Hm].
Defined.

(** ** The batch endpoint *)

Global Instance scoring_only_refl : Reflexive scoring_only.
Proof. intros st. split; [done | ]. destruct (fraud_detector st); by constructor. Qed.

Global Instance scoring_only_trans : Transitive scoring_only.
Proof.
  intros st1 st2 st3 [Hm1 Hd1] [Hm2 Hd2]. split; [congruence | ]. by etrans.
Qed.

Section BatchProperties.

Context (cv : Conversions) (wall_clock : nat → Z).

Lemma datetime_now_scoring_only : keeps scoring_only (datetime_now wall_clock).
Proof. intros st. split; [done | ]. simpl. destruct (fraud_detector st); by constructor. Qed.

Lemma on_detector_scoring_only {A} (m : M FraudDetector A) :
  keeps same_estimators m → keeps scoring_only (on_detector m).
Proof.
  intros Hm st. unfold on_detector.
  destruct (fraud_detector st) as [self|] eqn:Hdet.
  - specialize (Hm self). destruct (m self) as [r self']. split; [done | ].
    simpl in *. rewrite Hdet. by constructor.
  - split; [done | ]. simpl. rewrite Hdet. constructor.
Qed.

Lemma batch_item_scoring_only (t : TransactionRequest) :
  keeps scoring_only (batch_item cv wall_clock t).
Proof.
  unfold batch_item. cbv zeta.
  apply keeps_bind; [apply _ | apply datetime_now_scoring_only | intros now].
  apply keeps_bind; [apply _ | | intros res; apply keeps_ret, _].
  apply on_detector_scoring_only, predict_keeps.
Qed.

Lemma batch_loop_scoring_only (ts : list TransactionRequest) (acc : list BatchItem) :
  keeps scoring_only (batch_loop cv wall_clock ts acc).
Proof.
  revert acc. induction ts as [|t ts IH]; intros acc.
  - apply keeps_ret, _.
  - cbn [batch_loop]. apply keeps_bind; [apply _ | apply batch_item_scoring_only | ].
    intros item. apply IH.
Qed.

Lemma batch_loop_length (ts : list TransactionRequest) (acc results : list BatchItem)
    (st st' : ApiState) :
  batch_loop cv wall_clock ts acc st = (Ok results, st') →
  length results = (length acc + length ts)%nat.
Proof.
  revert acc st. induction ts as [|t ts IH]; intros acc st H.
  - injection H as <- <-. simpl. lia.
  - cbn [batch_loop] in H. apply bind_Ok in H as (item & st1 & _ & H).
    apply IH in H. rewrite H, length_app. simpl. lia.
Qed.

(** A loop that raises stopped at the first request that [predict]
    refused. *)
Lemma batch_loop_stops (ts : list TransactionRequest) (acc : list BatchItem)
    (st st' : ApiState) (e : exn) :
  batch_loop cv wall_clock ts acc st = (Raise e, st') →
  ∃ ts1 t ts2 items st_i,
    ts = (ts1 ++ t :: ts2)%list ∧
    batch_loop cv wall_clock ts1 acc st = (Ok items, st_i) ∧
    batch_item cv wall_clock t st_i = (Raise e, st').
Proof.
  revert acc st. induction ts as [|t ts IH]; intros acc st H; [discriminate H | ].
  cbn [batch_loop] in H. unfold mbind at 1, M_bind at 1 in H.
  destruct (batch_item cv wall_clock t st) as [[item|e0] st1] eqn:Hitem.
  - destruct (IH _ _ H) as (ts1 & t' & ts2 & items & st_i & -> & Hloop & Hraise).
    exists (t :: ts1), t', ts2, items, st_i. split; [reflexivity | ].
    split; [ | exact Hraise].
    cbn [batch_loop]. by rewrite (bind_Ok_intro _ _ _ _ _ Hitem).
  - injection H as <- <-.
    exists [], t, ts, acc, st. split; [reflexivity | ]. split; [reflexivity | exact Hitem].
Qed.

Lemma batch_item_Raise (t : TransactionRequest) (st st' : ApiState) (e : exn)
    (self : FraudDetector) :
  fraud_detector st = Some self →
  batch_item cv wall_clock t st = (Raise e, st') →
  ∃ self',
    predict cv (inl (<["timestamp" := Stamp (wall_clock (clock_reads st))]> (dict t))) self
    = (Raise e, self') ∧
    fraud_detector st' = Some self'.
Proof.
  intros Hself Hitem.
  unfold batch_item in Hitem. cbv zeta in Hitem.
  unfold mbind at 1, M_bind at 1, datetime_now at 1 in Hitem.
  unfold mbind at 1, M_bind at 1 in Hitem.
  match type of Hitem with
  | context [on_detector ?m ?s] => destruct (on_detector m s) as [[res|e1] st2] eqn:Hon
  end; [discriminate Hitem | ].
  injection Hitem as <- <-.
  apply (on_detector_Raise _ _ _ _ self) in Hon as (self' & Hrun & Hdet' & _);
    [ | exact Hself].
  exists self'. split; [exact Hrun | exact Hdet'].
Qed.

(** X11.  Whenever [POST /batch-predict] answers, the list was not empty,
    there is one prediction per request, the total announced is the number
    of requests, the average time is the processing time divided by that
    number, and the API counters have grown by that number and by the
    processing time. *)
Theorem batch_predict_counts (ts : list TransactionRequest) (st st' : ApiState)
    (resp : BatchResponse) :
  batch_predict cv wall_clock ts st = (Ok resp, st') →
  ts ≠ [] ∧
  length (predictions resp) = length ts ∧
  total_transactions resp = length ts ∧
  (avg_time_per_transaction_ms resp * INR (length ts) = processing_time_ms resp)%R ∧
  total_predictions (api_metrics st') = (total_predictions (api_metrics st) + length ts)%nat ∧
  total_processing_time (api_metrics st')
    = (total_processing_time (api_metrics st) + processing_time_ms resp)%R.
Proof.
  intros H. unfold batch_predict in H.
  apply bind_Ok in H as (det & st0 & [= <- <-] & H).
  destruct (fraud_detector st) as [self|] eqn:Hdet; [ | discriminate H].
  apply bind_Ok in H as (start & st1 & [= <- <-] & H).
  unfold try_500 in H.
  match type of H with
  | match ?body ?s with _ => _ end = _ => destruct (body s) as [[r|e] st2] eqn:E; [ | done]
  end.
  injection H as <- <-.
  apply bind_Ok in E as (results & st3 & Hloop & E).
  pose proof (batch_loop_scoring_only ts [] (tick st)) as [Hm _].
  rewrite Hloop in Hm. cbn [snd tick api_metrics] in Hm.
  apply batch_loop_length in Hloop.
  apply bind_Ok in E as (stop & st4 & [= <- <-] & E).
  apply bind_Ok in E as ([] & st5 & Hupd & E).
  apply bind_Ok in E as (avg & st6 & Havg & E).
  injection E as <- <-.
  unfold lift, truediv in Havg. case_decide as Hlen; [discriminate Havg | ].
  injection Havg as <- <-.
  unfold update_metrics, mbind, M_bind, modify, datetime_now in Hupd.
  injection Hupd as <-.
  cbn [predictions total_transactions avg_time_per_transaction_ms processing_time_ms
       api_metrics set_api_metrics tick total_predictions total_processing_time].
  rewrite Hm. split_and!; try done.
  - intros ->. by apply Hlen.
  - unfold Rdiv. rewrite Rmult_assoc, Rinv_l; [lra | ].
    apply not_0_INR. exact Hlen.
Qed.

(** X12.  [POST /batch-predict] is all or nothing.  Without a detector it
    answers 503 and touches nothing.  Otherwise a failure is a 500 whose
    detail starts with the batch prefix; on a list that is not empty the
    loop has scored the requests before some request of the list, and
    [predict] raised on that request, on the detector of the service as
    the requests before it left it (the very detector of the service when
    it holds an encoder for each categorical attribute): the detail is the
    text of that exception, no prediction is returned for any request, and
    the API counters are left as they were. *)
Theorem batch_predict_errors (ts : list TransactionRequest) (st st' : ApiState) (e : exn) :
  batch_predict cv wall_clock ts st = (Raise e, st') →
  (fraud_detector st = None ∧ e = HTTPException 503 "Modèle non chargé" ∧ st' = st) ∨
  (is_Some (fraud_detector st) ∧ is_Some (fraud_detector st') ∧
   is_http 500 "Erreur batch: " e ∧
   (ts ≠ [] →
    api_metrics st' = api_metrics st ∧
    ∃ self ts1 t ts2 items st_i self_i self_i' cause,
      fraud_detector st = Some self ∧
      ts = (ts1 ++ t :: ts2)%list ∧
      batch_loop cv wall_clock ts1 [] (tick st) = (Ok items, st_i) ∧
      length items = length ts1 ∧
      fraud_detector st_i = Some self_i ∧
      same_estimators self self_i ∧
      ((∀ f, f ∈ CATEGORICAL_FEATURES → is_Some (label_encoders self !! f)) → self_i = self) ∧
      predict cv (inl (<["timestamp" := Stamp (wall_clock (clock_reads st_i))]> (dict t))) self_i
      = (Raise cause, self_i') ∧
      e = HTTPException 500 ("Erreur batch: " +:+ str_exn cause) ∧
      fraud_detector st' = Some self_i')).
Proof.
  intros H. unfold batch_predict in H.
  unfold mbind at 1, M_bind at 1, gets at 1 in H.
  destruct (fraud_detector st) as [self|] eqn:Hdet.
  2: { left. injection H as <- <-. done. }
  right. split; [done | ].
  unfold mbind at 1, M_bind at 1, time_time at 1 in H.
  unfold try_500 in H.
  match type of H with
  | match ?body ?s with _ => _ end = _ => destruct (body s) as [[r|cause] st2] eqn:E; [done | ]
  end.
  injection H as <- <-.
  pose proof (batch_loop_scoring_only ts [] (tick st)) as [Hm Hd].
  cbn [tick fraud_detector api_metrics] in Hm, Hd. rewrite Hdet in Hd.
  unfold mbind at 1, M_bind at 1 in E.
  destruct (batch_loop cv wall_clock ts [] (tick st)) as [[results|e0] st3] eqn:Hloop.
  - cbn [snd] in Hm, Hd.
    unfold mbind at 1, M_bind at 1, time_time at 1 in E.
    unfold mbind at 1, M_bind at 1 in E.
    unfold update_metrics in E at 1.
    unfold mbind, M_bind, modify, datetime_now, lift, mret, M_ret in E.
    cbv beta iota zeta in E.
    unfold truediv in E. case_decide as Hlen; [ | discriminate E].
    injection E as <- <-.
    cbn [fraud_detector set_api_metrics tick].
    split_and!; [by inversion Hd | by eexists | ].
    intros Hts. destruct ts; [done | discriminate Hlen].
  - injection E as <- <-. cbn [snd] in Hm, Hd.
    split_and!; [by inversion Hd | by eexists | ].
    intros _. split; [exact Hm | ].
    apply batch_loop_stops in Hloop as (ts1 & t & ts2 & items & st_i & Hts & Hpre & Hitem).
    pose proof (batch_loop_scoring_only ts1 [] (tick st)) as [_ Hd1].
    rewrite Hpre in Hd1. cbn [snd tick fraud_detector] in Hd1. rewrite Hdet in Hd1.
    inversion Hd1 as [? self_i Hsame Hs Hi | ]; subst. symmetry in Hi.
    destruct (batch_item_Raise t st_i st3 e0 self_i Hi Hitem) as (self_i' & Hrun & Hdet').
    exists self, ts1, t, ts2, items, st_i, self_i, self_i', e0.
    split; [reflexivity | ]. split; [reflexivity | ]. split; [exact Hpre | ].
    split; [by apply batch_loop_length in Hpre | ].
    split; [exact Hi | ]. split; [exact Hsame | ].
    split; [ | split; [exact Hrun | split; [reflexivity | exact Hdet']]].
    intros Henc.
    destruct (batch_loop_spec cv wall_clock self ts1 Henc [] items (tick st) st_i)
      as [Hsame_det _]; [cbn [tick fraud_detector]; exact Hdet | exact Hpre | ].
    rewrite Hi in Hsame_det. by injection Hsame_det.
Qed.

End BatchProperties.

Lemma batch_predict_counts_witness :
  ∃ resp st',
    batch_predict cv0 clock0 [request0; request0] serving0 = (Ok resp, st') ∧
    length (predictions resp) = 2%nat ∧
    total_predictions (api_metrics st') = 2%nat.
Proof.
  assert (∃ resp st', batch_predict cv0 clock0 [request0; request0] serving0 = (Ok resp, st'))
    as (resp & st' & H) by (eexists _, _; vm_compute; reflexivity).
  destruct (batch_predict_counts cv0 clock0 _ _ _ _ H) as (_ & Hlen & _ & _ & Hn & _).
  exists resp, st'. split_and!; done.
Defined.

Lemma batch_predict_errors_witness :
  ∃ st',
    batch_predict cv0 clock0 [request0; request_unseen; request0] serving0
    = (Raise (HTTPException 500 "Erreur batch: y contains previously unseen labels: 'casino'"),
       st') ∧
    api_metrics st' = metrics0 ∧
    fraud_detector st' = Some trained0.
Proof.
  assert (∃ st', batch_predict cv0 clock0 [request0; request_unseen; request0] serving0
                 = (Raise (HTTPException 500
                      "Erreur batch: y contains previously unseen labels: 'casino'"), st'))
    as (st' & H) by (eexists; vm_compute; reflexivity).
  destruct (batch_predict_errors cv0 clock0 _ _ _ _ H)
    as [(Hdet & _) | (_ & _ & _ & Hrest)]; [discriminate Hdet | ].
  destruct Hrest as (Hm & self & ts1 & t & ts2 & items & st_i & self_i & self_i' & cause &
                     Hself & _ & _ & _ & _ & _ & Hsame & Hrun & _ & Hdet'); [discriminate | ].
  injection Hself as <-.
  exists st'. split; [exact H | ]. split; [exact Hm | ].
  rewrite Hdet'. f_equal.
  rewrite (Hsame trained0_encoders) in Hrun.
  pose proof (predict_unchanged cv0
    (inl (<["timestamp" := Stamp (clock0 (clock_reads st_i))]> (dict t))) trained0) as Hun.
  rewrite Hrun in Hun. cbn [snd] in Hun. apply Hun.
  intros f Hf _. by apply trained0_encoders.
Defined.

(** The sample detector answers a batch of one request with the score that
    [predict] gives to that request. *)
Lemma batch_predict_elementwise_witness :
  ∃ resp st',
    batch_predict cv0 clock0 [request0] serving0 = (Ok resp, st') ∧
    Forall2 (λ t item, ∃ now res,
      (predict cv0 (inl (<["timestamp" := Stamp now]> (dict t))) trained0).1 = Ok res ∧
      item = {| b_transaction_id := transaction_id t;
                b_fraud_score := fraud_score res;
                b_risk_level := risk_level res;
                b_action := action res;
                b_is_fraud_predicted := is_fraud_predicted res |})
      [request0] (predictions resp).
Proof.
  assert (∃ resp st', batch_predict cv0 clock0 [request0] serving0 = (Ok resp, st'))
    as (resp & st' & H) by (eexists _, _; vm_compute; reflexivity).
  destruct (batch_predict_elementwise cv0 clock0 trained0 [request0] serving0 st' resp)
    as [_ Hall]; [exact trained0_encoders | reflexivity | exact H | ].
  exists resp, st'. split; [exact H | exact Hall].
Defined.

(** ** A service without a fitted model *)

Lemma predict_unfitted_scaler cv (td : transaction + DataFrame) (s s' : FraudDetector)
    (X : XFrame) (data : DataFrame) :
  preprocess_data cv (frame_of td) s = (Ok (X, data), s') →
  scaler s = None →
  predict cv td s = (Raise NotFittedError, s').
Proof.
  intros Hpre Hs.
  pose proof (preprocess_data_keeps cv (frame_of td) s) as (_ & _ & Hsc & _).
  rewrite Hpre in Hsc. cbn [snd] in Hsc. rewrite Hs in Hsc.
  unfold predict. cbv zeta. rewrite (bind_Ok_intro _ _ _ _ _ Hpre).
  unfold mbind, M_bind, gets, lift. cbv beta iota. by rewrite Hsc.
Qed.

Lemma predict_unfitted cv (td : transaction + DataFrame) (s : FraudDetector) :
  scaler s = None →
  ∃ e s', predict cv td s = (Raise e, s') ∧ scaler s' = None.
Proof.
  intros Hs.
  pose proof (predict_keeps cv td s) as (_ & _ & Hsc & _).
  destruct (predict cv td s) as [[res|e] s'] eqn:H.
  - apply predict_Ok in H as (X & data & rows & p & g & r0 & _ & Ht & _).
    cbn [snd] in Hsc. rewrite Hsc, Hs in Ht. discriminate Ht.
  - exists e, s'. split; [done | ]. cbn [snd] in Hsc. by rewrite Hsc.
Qed.

Lemma scoring_only_unfitted (st st' : ApiState) :
  scoring_only st st' → unfitted st → unfitted st'.
Proof.
  intros [_ Hd] (self & Hdet & Hs). rewrite Hdet in Hd.
  inversion Hd as [? self' (_ & _ & Hsc & _) | ]; subst.
  exists self'. split; [done | ]. by rewrite Hsc.
Qed.

Section ServiceProperties.

Context (cv : Conversions) (wall_clock : nat → Z).

Lemma batch_item_unfitted (t : TransactionRequest) (st : ApiState) :
  unfitted st → ∃ e st', batch_item cv wall_clock t st = (Raise e, st').
Proof.
  intros (self & Hdet & Hs).
  unfold batch_item. cbv zeta.
  unfold mbind at 1, M_bind at 1, datetime_now at 1.
  unfold mbind at 1, M_bind at 1, on_detector.
  cbn [tick fraud_detector]. rewrite Hdet.
  match goal with
  | |- context [predict cv ?td self] =>
      destruct (predict_unfitted cv td self Hs) as (e & s' & -> & _)
  end.
  by eexists _, _.
Qed.

(** X13.  A service whose detector has no fitted scaler answers no
    prediction: every [POST /predict] and every [POST /batch-predict] is a
    500, and the service is as unfitted afterwards as it was before. *)
Theorem unfitted_service_never_scores (st : ApiState) :
  unfitted st →
  (∀ t, ∃ e st',
     predict_fraud cv wall_clock t st = (Raise e, st') ∧
     is_http 500 "Erreur de prédiction: " e ∧
     unfitted st' ∧ api_metrics st' = api_metrics st) ∧
  (∀ ts, ∃ e st',
     batch_predict cv wall_clock ts st = (Raise e, st') ∧
     is_http 500 "Erreur batch: " e ∧
     unfitted st').
Proof.
  intros Hun. split.
  - intros t. destruct Hun as (self & Hdet & Hs).
    destruct (predict_unfitted cv (request_dict wall_clock t st) self Hs)
      as (cause & self' & Hrun & Hs').
    destruct (predict_fraud_Raise_run cv wall_clock t st self self' cause Hdet Hrun)
      as (st' & Hrun' & Hdet' & Hm).
    eexists _, st'. split; [exact Hrun' | ]. split; [by exists cause | ].
    split; [ | exact Hm]. exists self'. split; [exact Hdet' | exact Hs'].
  - intros ts. pose proof Hun as (self & Hdet & Hs).
    unfold batch_predict.
    unfold mbind at 1, M_bind at 1, gets at 1. rewrite Hdet.
    unfold mbind at 1, M_bind at 1, time_time at 1. unfold try_500.
    unfold mbind at 1, M_bind at 1.
    assert (unfitted (tick st)) as Hun1 by (exists self; by split).
    pose proof (batch_loop_scoring_only cv wall_clock ts [] (tick st)) as Hkeep.
    destruct ts as [|t ts].
    + cbn [batch_loop]. unfold mret at 1, M_ret at 1.
      unfold mbind at 1, M_bind at 1, time_time at 1.
      unfold mbind at 1, M_bind at 1.
      unfold update_metrics, mbind, M_bind, modify, datetime_now, lift, truediv.
      cbv beta iota zeta. cbn [length]. rewrite decide_True by done.
      eexists _, _. split; [reflexivity | ]. split; [by exists ZeroDivisionError | ].
      exists self. by split.
    + destruct (batch_loop cv wall_clock (t :: ts) [] (tick st)) as [[results|e] st1] eqn:Hloop.
      * exfalso. cbn [batch_loop] in Hloop.
        apply bind_Ok in Hloop as (item & st2 & Hitem & _).
        destruct (batch_item_unfitted t (tick st) Hun1) as (e & st3 & Hitem').
        rewrite Hitem' in Hitem. discriminate Hitem.
      * eexists _, _. split; [reflexivity | ]. split; [by exists e | ].
        by apply (scoring_only_unfitted (tick st)).
Qed.

End ServiceProperties.

Lemma unfitted_service_never_scores_witness :
  ∃ e st',
    predict_fraud cv0 clock0 request0
      {| fraud_detector := Some __init__; api_metrics := metrics0; clock_reads := 0 |}
    = (Raise e, st') ∧
    is_http 500 "Erreur de prédiction: " e ∧ unfitted st'.
Proof.
  destruct (unfitted_service_never_scores cv0 clock0
              {| fraud_detector := Some __init__; api_metrics := metrics0; clock_reads := 0 |})
    as [Hp _]; [exists __init__; split; reflexivity | ].
  destruct (Hp request0) as (e & st' & Hrun & Hhttp & Hun & _).
  exists e, st'. split; [exact Hrun | ]. split; [exact Hhttp | exact Hun].
Defined.

(** X14.  Started without a model file, the API holds a detector as
    constructed; [GET /health] reports the model as ["loaded"] and
    [GET /metrics] reports [model_loaded], although [predict] raises on
    every request and every [POST /predict] is the 500 carrying the text of
    that exception, which is the scaler's [NotFittedError] whenever the
    request gets through preprocessing. *)
Theorem startup_without_model_file (fs : FileSystem) (st : ApiState) :
  fs !! MODEL_PATH = None →
  let st1 := (startup_event fs st).2 in
  fraud_detector st1 = Some __init__ ∧
  (∀ wall_clock, h_model_status <$> (health_check wall_clock st1).1 = Ok "loaded") ∧
  (∀ wall_clock memory_percent cpu_percent,
     model_loaded <$> (get_metrics wall_clock memory_percent cpu_percent st1).1 = Ok true) ∧
  (∀ cv wall_clock t, ∃ cause self',
     predict cv (request_dict wall_clock t st1) __init__ = (Raise cause, self') ∧
     (predict_fraud cv wall_clock t st1).1
     = Raise (HTTPException 500 ("Erreur de prédiction: " +:+ str_exn cause)) ∧
     (∀ X data s',
        preprocess_data cv (frame_of (request_dict wall_clock t st1)) __init__
        = (Ok (X, data), s') →
        cause = NotFittedError)).
Proof.
  intros Hfs. cbv zeta.
  assert (startup_event fs st
          = (Ok tt, {| fraud_detector := Some __init__;
                       api_metrics := api_metrics st;
                       clock_reads := clock_reads st |})) as ->.
  { unfold startup_event, load_model, load_model_body, joblib_load. by rewrite Hfs. }
  cbn [snd]. split_and!; [done | done | done | ].
  intros cv wall_clock t.
  match goal with
  | |- context [predict_fraud _ _ _ ?s] => set (st1 := s)
  end.
  destruct (predict_unfitted cv (request_dict wall_clock t st1) __init__ eq_refl)
    as (cause & self' & Hrun & _).
  exists cause, self'. split; [exact Hrun | ]. split.
  - destruct (predict_fraud_Raise_run cv wall_clock t st1 __init__ self' cause eq_refl Hrun)
      as (st2 & -> & _).
    reflexivity.
  - intros X data s' Hpre.
    pose proof (predict_unfitted_scaler cv (request_dict wall_clock t st1) __init__ s' X data
                  Hpre eq_refl) as Hrun'.
    rewrite Hrun in Hrun'. by injection Hrun'.
Qed.

Lemma startup_without_model_file_witness :
  ∃ self',
    predict cv0 (request_dict clock0 request0 (startup_event ∅ serving0).2) __init__
    = (Raise NotFittedError, self') ∧
    (predict_fraud cv0 clock0 request0 (startup_event ∅ serving0).2).1
    = Raise (HTTPException 500 ("Erreur de prédiction: " +:+ str_exn NotFittedError)).
Proof.
  destruct (startup_without_model_file ∅ serving0) as (_ & _ & _ & H); [reflexivity | ].
  destruct (H cv0 clock0 request0) as (cause & self' & Hrun & Hresp & Hcause).
  assert (∃ X data s',
            preprocess_data cv0
              (frame_of (request_dict clock0 request0 (startup_event ∅ serving0).2)) __init__
            = (Ok (X, data), s')) as (X & data & s' & Hpre)
    by (eexists _, _, _; vm_compute; reflexivity).
  rewrite (Hcause X data s' Hpre) in Hrun, Hresp.
  exists self'. split; [exact Hrun | exact Hresp].
Defined.

(** X15.  [load_model] does not roll back either: on a file that holds the
    classifier and the forest but no scaler it answers [False], and the
    detector keeps the two estimators read from the file next to the
    scaler, encoders, metrics and importances it had. *)
Theorem load_model_failure_is_not_rolled_back (fs : FileSystem) (filepath : string)
    (model_data : gmap string pyobj) (m : XGBClassifier) (f : IsolationForest)
    (self : FraudDetector) :
  fs !! filepath = Some model_data →
  model_data !! "xgb_model" = Some (PClassifier m) →
  model_data !! "isolation_forest" = Some (PForest f) →
  model_data !! "scaler" = None →
  load_model fs filepath self
  = (Ok false, {| xgb_model := m;
                  isolation_forest := f;
                  scaler := scaler self;
                  label_encoders := label_encoders self;
                  performance_metrics := performance_metrics self;
                  feature_importance := feature_importance self |}).
Proof.
  intros Hfs Hx Hf Hs.
  unfold load_model, load_model_body, joblib_load, getitem.
  rewrite Hfs. unfold mbind, M_bind, lift, modify, raise. cbv beta iota.
  replace (model_data !! "xgb_model") with (Some (PClassifier m)).
  replace (model_data !! "isolation_forest") with (Some (PForest f)).
  replace (model_data !! "scaler") with (@None pyobj).
  reflexivity.
Qed.

Lemma load_model_failure_is_not_rolled_back_witness :
  ∃ s,
    load_model fs_truncated MODEL_PATH __init__ = (Ok false, s) ∧
    xgb_model s = xgb_model trained0 ∧ scaler s = None.
Proof.
  eexists. split.
  - apply (load_model_failure_is_not_rolled_back fs_truncated MODEL_PATH
             (list_to_map [("xgb_model", PClassifier (xgb_model trained0));
                           ("isolation_forest", PForest (isolation_forest trained0))])
             (xgb_model trained0) (isolation_forest trained0) __init__);
      reflexivity.
  - split; reflexivity.
Defined.

(** ** The counters of the API *)

Section MetricsProperties.

Context (cv : Conversions) (wall_clock : nat → Z) (memory_percent cpu_percent : R).

Lemma get_metrics_run (st : ApiState) :
  ∃ m,
    get_metrics wall_clock memory_percent cpu_percent st = (Ok m, tick st) ∧
    model_loaded m = bool_decide (fraud_detector st ≠ None) ∧
    m_total_predictions m = total_predictions (api_metrics st) ∧
    m_last_prediction_time m = last_prediction_time (api_metrics st) ∧
    avg_processing_time_ms m
    = if decide (0 < total_predictions (api_metrics st))%nat
      then (total_processing_time (api_metrics st) / INR (total_predictions (api_metrics st)))%R
      else 0%R.
Proof.
  unfold get_metrics, mbind, M_bind, mret, M_ret, gets, time_time. cbv beta iota zeta.
  eexists. split; [reflexivity | ]. split_and!; reflexivity.
Qed.

(** X16.  [GET /metrics] counts what was served.  After a [POST /predict]
    that answered, it reports a loaded model, one prediction more, a last
    prediction time, and an average equal to the accumulated processing
    time over the number of predictions; after one that failed, it reports
    the total, the average and the last prediction time it would have
    reported before. *)
Theorem metrics_count_served_predictions (t : TransactionRequest) (st st' : ApiState) :
  (∀ resp, predict_fraud cv wall_clock t st = (Ok resp, st') →
     ∃ m, (get_metrics wall_clock memory_percent cpu_percent st').1 = Ok m ∧
          model_loaded m = true ∧
          m_total_predictions m = S (total_predictions (api_metrics st)) ∧
          (avg_processing_time_ms m * INR (m_total_predictions m)
           = total_processing_time (api_metrics st) + r_processing_time_ms resp)%R ∧
          is_Some (m_last_prediction_time m)) ∧
  (∀ e, predict_fraud cv wall_clock t st = (Raise e, st') →
     ∃ m m',
       (get_metrics wall_clock memory_percent cpu_percent st).1 = Ok m ∧
       (get_metrics wall_clock memory_percent cpu_percent st').1 = Ok m' ∧
       m_total_predictions m' = m_total_predictions m ∧
       avg_processing_time_ms m' = avg_processing_time_ms m ∧
       m_last_prediction_time m' = m_last_prediction_time m).
Proof.
  split.
  - intros resp H.
    destruct (fraud_detector st) as [self|] eqn:Hdet.
    2: { unfold predict_fraud in H. unfold mbind at 1, M_bind at 1, gets at 1 in H.
         rewrite Hdet in H. discriminate H. }
    destruct (predict cv (request_dict wall_clock t st) self) as [[res|e] self'] eqn:Hrun.
    2: { destruct (predict_fraud_Raise_run cv wall_clock t st self self' e Hdet Hrun)
           as (st'' & Hrun' & _).
         rewrite Hrun' in H. discriminate H. }
    revert H. unfold request_dict in Hrun.
    remember (inl (<["timestamp" := Stamp (wall_clock (S (clock_reads st)))]> (dict t)))
      as td eqn:Htd.
    unfold predict_fraud.
    unfold mbind, M_bind, mret, M_ret, gets, raise, try_500, time_time, datetime_now,
      update_metrics, modify, on_detector.
    cbn [fraud_detector tick clock_reads api_metrics set_api_metrics fst snd].
    rewrite Hdet. cbv beta iota zeta.
    cbn [fraud_detector tick clock_reads api_metrics set_api_metrics fst snd].
    rewrite Hdet, <- Htd, Hrun. intros [= <- <-].
    destruct (get_metrics_run
      {| fraud_detector := Some self';
         api_metrics :=
           {| start_time := start_time (api_metrics st);
              total_predictions := total_predictions (api_metrics st) + 1;
              total_processing_time :=
                total_processing_time (api_metrics st) +
                (IZR (wall_clock (S (S (clock_reads st)))) / 1000000 -
                 IZR (wall_clock (clock_reads st)) / 1000000) * 1000;
              last_prediction_time := Some (wall_clock (S (S (S (clock_reads st))))) |};
         clock_reads := S (S (S (S (S (clock_reads st))))) |})
      as (m & Hm & Hloaded & Htotal & Hlast & Havg).
    cbn [fraud_detector api_metrics total_predictions total_processing_time
         last_prediction_time] in Hloaded, Htotal, Hlast, Havg.
    exists m. split; [apply (f_equal fst) in Hm; exact Hm | ].
    cbn [r_processing_time_ms].
    split; [by rewrite Hloaded | ].
    split; [rewrite Htotal; lia | ].
    split; [ | rewrite Hlast; by eexists].
    rewrite Havg, Htotal. rewrite decide_True by lia.
    unfold Rdiv. rewrite Rmult_assoc, Rinv_l; [lra | ].
    apply not_0_INR. lia.
  - intros e H.
    assert (api_metrics st' = api_metrics st) as Hsame.
    { destruct (fraud_detector st) as [self|] eqn:Hdet.
      - destruct (predict cv (request_dict wall_clock t st) self) as [[res|e0] self'] eqn:Hrun.
        + destruct (predict_fraud_Ok_run cv wall_clock t st self self' res Hdet Hrun)
            as (resp' & st'' & Hrun' & _).
          rewrite Hrun' in H. discriminate H.
        + destruct (predict_fraud_Raise_run cv wall_clock t st self self' e0 Hdet Hrun)
            as (st'' & Hrun' & _ & Hm).
          rewrite Hrun' in H. by injection H as <- <-.
      - unfold predict_fraud in H. unfold mbind at 1, M_bind at 1, gets at 1 in H.
        rewrite Hdet in H. by injection H as <- <-. }
    destruct (get_metrics_run st) as (m & Hm & _ & Htotal & Hlast & Havg).
    destruct (get_metrics_run st') as (m' & Hm' & _ & Htotal' & Hlast' & Havg').
    exists m, m'. rewrite Hm, Hm'. split; [done | ]. split; [done | ].
    rewrite Htotal, Htotal', Hlast, Hlast', Havg, Havg', Hsame. done.
Qed.

End MetricsProperties.

Lemma metrics_count_served_predictions_witness :
  ∃ resp st' m,
    predict_fraud cv0 clock0 request0 serving0 = (Ok resp, st') ∧
    (get_metrics clock0 0 0 st').1 = Ok m ∧
    m_total_predictions m = 1%nat.
Proof.
  assert (∃ resp st', predict_fraud cv0 clock0 request0 serving0 = (Ok resp, st'))
    as (resp & st' & H) by (eexists _, _; vm_compute; reflexivity).
  destruct (metrics_count_served_predictions cv0 clock0 0 0 request0 serving0 st') as [Hok _].
  destruct (Hok resp H) as (m & Hm & _ & Htotal & _).
  exists resp, st', m. split; [exact H | ]. split; [exact Hm | exact Htotal].
Defined.

(** ** The hybrid score of the evaluation *)

Lemma Rmin_list_le (l : list R) (x : R) : x ∈ l → (Rmin_list l <= x)%R.
Proof.
  unfold Rmin_list. generalize (hd 0%R l) as d. intros d H.
  induction l as [|y l IH]; [by apply elem_of_nil in H | ].
  simpl. apply elem_of_cons in H as [-> | H].
  - apply Rmin_l.
  - etrans; [apply Rmin_r | by apply IH].
Qed.

Lemma Rmax_list_ge (l : list R) (x : R) : x ∈ l → (x <= Rmax_list l)%R.
Proof.
  unfold Rmax_list. generalize (hd 0%R l) as d. intros d H.
  induction l as [|y l IH]; [by apply elem_of_nil in H | ].
  simpl. apply elem_of_cons in H as [-> | H].
  - apply Rmax_l.
  - etrans; [by apply IH | apply Rmax_r].
Qed.

Lemma elem_of_zip_with_inv {A B C} (f : A → B → C) (l : list A) (k : list B) (z : C) :
  z ∈ zip_with f l k → ∃ x y, x ∈ l ∧ y ∈ k ∧ z = f x y.
Proof.
  revert k. induction l as [|x l IH]; intros [|y k] H; simpl in H;
    try by apply elem_of_nil in H.
  apply elem_of_cons in H as [-> | H].
  - exists x, y. split_and!; [by left | by left | done].
  - apply IH in H as (x' & y' & ? & ? & ?). exists x', y'. split_and!; [by right | by right | done].
Qed.

(** X17.  The hybrid score that [_evaluate_models] reports on is a
    probability: when the classifier answers in [[0, 1]] and the isolation
    scores of the evaluation split are not all equal, the rescaled
    isolation scores and the hybrid scores lie in [[0, 1]], and there is one
    hybrid score per evaluated row. *)
Theorem hybrid_proba_unit (xgb_proba isolation_pred : list R) (a b : R) :
  (∀ x, x ∈ xgb_proba → (0 <= x <= 1)%R) →
  length xgb_proba = length isolation_pred →
  a ∈ isolation_pred → b ∈ isolation_pred → a ≠ b →
  (∀ i, i ∈ minmax isolation_pred → (0 <= i <= 1)%R) ∧
  (∀ h, h ∈ hybrid_proba xgb_proba isolation_pred → (0 <= h <= 1)%R) ∧
  length (hybrid_proba xgb_proba isolation_pred) = length isolation_pred.
Proof.
  intros Hx Hlen Ha Hb Hab.
  assert (Rmin_list isolation_pred < Rmax_list isolation_pred)%R as Hlt.
  { pose proof (Rmin_list_le _ _ Ha). pose proof (Rmax_list_ge _ _ Ha).
    pose proof (Rmin_list_le _ _ Hb). pose proof (Rmax_list_ge _ _ Hb).
    destruct (Rtotal_order a b) as [? | [? | ?]]; [lra | done | lra]. }
  assert (∀ i, i ∈ minmax isolation_pred → (0 <= i <= 1)%R) as Hunit.
  { intros i Hi. unfold minmax in Hi. cbv zeta in Hi.
    apply list_elem_of_fmap in Hi as (s & -> & Hs).
    pose proof (Rmin_list_le _ _ Hs). pose proof (Rmax_list_ge _ _ Hs).
    apply Rdiv_unit; lra. }
  split_and!; [exact Hunit | | ].
  - intros h Hh. unfold hybrid_proba in Hh.
    apply elem_of_zip_with_inv in Hh as (x & i & Hxin & Hi & ->).
    specialize (Hx x Hxin). specialize (Hunit i Hi). lra.
  - unfold hybrid_proba, minmax. cbv zeta. rewrite length_zip_with, length_fmap. lia.
Qed.

Lemma hybrid_proba_unit_witness :
  Forall (λ h, 0 <= h <= 1)%R (hybrid_proba [0.5; 0.5]%R [0; 1]%R) ∧
  length (hybrid_proba [0.5; 0.5]%R [0; 1]%R) = 2%nat.
Proof.
  destruct (hybrid_proba_unit [0.5; 0.5]%R [0; 1]%R 0 1) as (_ & Hunit & Hlen).
  - intros x Hx. apply elem_of_cons in Hx as [-> | Hx]; [lra | ].
    apply elem_of_cons in Hx as [-> | Hx]; [lra | by apply elem_of_nil in Hx].
  - reflexivity.
  - by left.
  - right. by left.
  - lra.
  - split; [by apply Forall_forall | exact Hlen].
Defined.

(** ** Preprocessing twice *)

Lemma encode_feature_again cv (f : string) (data data1 : DataFrame) (s s1 s2 : FraudDetector) :
  encode_feature cv f data s = (Ok data1, s1) →
  (is_Some (columns data !! f) → label_encoders s2 !! f = label_encoders s1 !! f) →
  encode_feature cv f data s2 = (Ok data1, s2).
Proof.
  unfold encode_feature. intros H Hsame.
  match type of H with
  | context [match ?c with Some _ => _ | None => _ end] => destruct c as [col|] eqn:Ecol
  end.
  2: { by injection H as <- _. }
  specialize (Hsame ltac:(by eexists)).
  unfold mbind, M_bind, mret, M_ret, gets, lift, modify in H |- *. cbv beta iota in H |- *.
  destruct (label_encoders s !! f) as [le|] eqn:Ele; cbv beta iota zeta in H.
  - destruct (le_transform le _) as [codes|e] eqn:Hcodes; [ | discriminate H].
    injection H as <- <-. rewrite Ele in Hsame.
    match goal with
    | |- context [match ?c with Some _ => _ | None => _ end] =>
        replace c with (Some le) by (symmetry; exact Hsame)
    end.
    cbv beta iota. by rewrite Hcodes.
  - destruct (le_transform _ _) as [codes|e] eqn:Hcodes; [ | discriminate H].
    injection H as <- <-. cbn [label_encoders set_label_encoders] in Hsame.
    rewrite lookup_insert_eq in Hsame.
    match goal with
    | |- context [match ?c with Some _ => _ | None => _ end] =>
        replace c with (Some (le_fit (astype_str cv <$> col))) by (symmetry; exact Hsame)
    end.
    cbv beta iota. by rewrite Hcodes.
Qed.

Lemma encode_features_again cv (fs : list string) (data data' : DataFrame)
    (s s' s2 : FraudDetector) :
  apart fs →
  encode_features cv fs data s = (Ok data', s') →
  (∀ f, f ∈ fs → is_Some (columns data !! f) →
        label_encoders s2 !! f = label_encoders s' !! f) →
  encode_features cv fs data s2 = (Ok data', s2).
Proof.
  revert data s. induction fs as [|f fs IH]; intros data s Hapart H Hsame.
  { by injection H as <- _. }
  cbn [encode_features] in H |- *.
  apply bind_Ok in H as (data1 & s1 & H1 & Hrest).
  erewrite bind_Ok_intro.
  2: { apply (encode_feature_again cv f data data1 s s1 s2 H1). intros Hcol.
       rewrite (Hsame f) by (done || by left).
       destruct (encode_feature_has_encoder _ _ _ _ _ _ H1 Hcol) as [le Hle].
       pose proof (encode_features_encoders_kept cv fs data1 s1) as Hkept.
       rewrite Hrest in Hkept. rewrite Hle. by apply Hkept. }
  apply (IH data1 s1); [by eapply apart_cons | exact Hrest | ].
  intros g Hg Hcol. apply Hsame; [by right | ].
  rewrite <- (encode_feature_columns _ _ _ _ _ _ g H1); [done | ].
  apply Hapart; [by left | by right].
Qed.

(** X19.  Preprocessing is repeatable: once it has passed on a frame, it
    passes again on any detector holding the encoders it left, with the same
    feature matrix and without storing anything; so the matrix that [train]
    was fitted on is the one that preprocessing gives for the same history
    after [train] has returned. *)
Theorem preprocess_data_repeatable cv (df data : DataFrame) (X : XFrame)
    (s s1 : FraudDetector) :
  preprocess_data cv df s = (Ok (X, data), s1) →
  (∀ s2, label_encoders s2 = label_encoders s1 →
         preprocess_data cv df s2 = (Ok (X, data), s2)) ∧
  (∀ ext metrics s', train cv ext df s = (Ok metrics, s') →
                     preprocess_data cv df s' = (Ok (X, data), s')).
Proof.
  intros H.
  assert (∀ s2, label_encoders s2 = label_encoders s1 →
                preprocess_data cv df s2 = (Ok (X, data), s2)) as Hagain.
  { intros s2 Hsame. unfold preprocess_data in H |- *.
    apply bind_Ok in H as (data0 & ? & [= Heng <-] & H).
    apply bind_Ok in H as (data1 & s1' & Henc & H).
    cbv zeta in H. injection H as <- <- <-.
    unfold lift. rewrite Heng. erewrite bind_Ok_intro by reflexivity.
    erewrite bind_Ok_intro; [reflexivity | ].
    apply (encode_features_again cv CATEGORICAL_FEATURES data0 data1 s s1' s2);
      [apply CATEGORICAL_FEATURES_apart | exact Henc | ].
    intros f _ _. by rewrite Hsame. }
  split; [exact Hagain | ].
  intros ext metrics s' Htrain. apply Hagain.
  apply train_inv in Htrain as (X' & data' & s1' & y & X_train & X_test & y_train & y_test &
    p & Xs & Xt & booster & imps & Hpre & _ & _ & _ & Heval & _).
  rewrite H in Hpre. injection Hpre as _ _ <-.
  apply _evaluate_models_inv in Heval as ((_ & _ & _ & Hencs & _) & _).
  exact Hencs.
Qed.

Lemma preprocess_data_repeatable_witness :
  ∃ X data s1 metrics s',
    preprocess_data cv0 df0 __init__ = (Ok (X, data), s1) ∧
    preprocess_data cv0 df0 s1 = (Ok (X, data), s1) ∧
    train cv0 ext0 df0 __init__ = (Ok metrics, s') ∧
    preprocess_data cv0 df0 s' = (Ok (X, data), s').
Proof.
  assert (∃ X data s1, preprocess_data cv0 df0 __init__ = (Ok (X, data), s1))
    as (X & data & s1 & H) by (eexists _, _, _; exact preprocess_df0).
  destruct train_returns as (metrics & s' & Htrain).
  destruct (preprocess_data_repeatable cv0 df0 data X __init__ s1 H) as [Hagain Hafter].
  exists X, data, s1, metrics, s'.
  split; [exact H | ]. split; [by apply Hagain | ]. split; [exact Htrain | ].
  exact (Hafter ext0 metrics s' Htrain).
Defined.

(** ** Serving what was saved *)

(** X20.  Started on the file that [save_model] wrote, the API holds the
    saved detector: what [POST /predict] answers for a request is what
    [predict] of the saved detector gives for it, score, level and action,
    and where that [predict] raises the answer is the 500 carrying its
    exception. *)
Theorem startup_serves_saved_model (self : FraudDetector) (fs : FileSystem) (st : ApiState) :
  let st1 := (startup_event (save_model self MODEL_PATH fs) st).2 in
  fraud_detector st1 = Some self ∧
  api_metrics st1 = api_metrics st ∧
  (∀ cv wall_clock t res,
     (predict cv (request_dict wall_clock t st1) self).1 = Ok res →
     ∃ resp, (predict_fraud cv wall_clock t st1).1 = Ok resp ∧
             r_fraud_score resp = fraud_score res ∧
             r_risk_level resp = risk_level res ∧
             r_action resp = action res) ∧
  (∀ cv wall_clock t e,
     (predict cv (request_dict wall_clock t st1) self).1 = Raise e →
     (predict_fraud cv wall_clock t st1).1
     = Raise (HTTPException 500 ("Erreur de prédiction: " +:+ str_exn e))).
Proof.
  cbv zeta.
  assert (startup_event (save_model self MODEL_PATH fs) st
          = (Ok tt, {| fraud_detector := Some self;
                       api_metrics := api_metrics st;
                       clock_reads := clock_reads st |})) as ->.
  { unfold startup_event, load_model, load_model_body, save_model, joblib_load.
    rewrite lookup_insert_eq. by destruct self. }
  cbn [snd]. split; [done | ]. split; [done | ].
  match goal with
  | |- context [predict_fraud _ _ _ ?s] => set (st1 := s)
  end.
  split.
  - intros cv wall_clock t res Hres.
    destruct (predict cv (request_dict wall_clock t st1) self) as [r self'] eqn:Hrun.
    cbn [fst] in Hres. subst r.
    destruct (predict_fraud_Ok_run cv wall_clock t st1 self self' res eq_refl Hrun)
      as (resp & st2 & -> & _ & Hscore & _ & _ & Hlevel & Haction & _).
    exists resp. split; [reflexivity | ]. split; [exact Hscore | ].
    split; [exact Hlevel | exact Haction].
  - intros cv wall_clock t e He.
    destruct (predict cv (request_dict wall_clock t st1) self) as [r self'] eqn:Hrun.
    cbn [fst] in He. subst r.
    destruct (predict_fraud_Raise_run cv wall_clock t st1 self self' e eq_refl Hrun)
      as (st2 & -> & _).
    reflexivity.
Qed.

Lemma startup_serves_saved_model_witness :
  ∃ resp res,
    (predict_fraud cv0 clock0 request0
       (startup_event (save_model trained0 MODEL_PATH ∅) serving0).2).1 = Ok resp ∧
    (predict cv0 (inl (<["timestamp" := Stamp 1]> (dict request0))) trained0).1 = Ok res ∧
    r_fraud_score resp = fraud_score res.
Proof.
  destruct (startup_serves_saved_model trained0 ∅ serving0) as (_ & _ & Hok & _).
  assert (∃ res, (predict cv0 (inl (<["timestamp" := Stamp 1]> (dict request0))) trained0).1
                 = Ok res) as [res Hres] by (eexists; vm_compute; reflexivity).
  destruct (Hok cv0 clock0 request0 res Hres) as (resp & Hresp & Hscore & _).
  exists resp, res. split; [exact Hresp | ]. split; [exact Hres | exact Hscore].
Defined.
